(** * Geospatial-temporal normalisation and merge engine

    A shallow embedding of the cleaning core of the transportation
    analytics repository:

    - [clean_and_merge_data] of the Databricks data-cleaning notebook
      (geometry resolution, CRS normalisation, NYC bounding box, time-zone
      normalisation, merge or concatenation);
    - [_clean_taxi_data] and [_clean_bikeshare_data] of
      [transportation_etl.py], the [process_..._data] functions around them,
      the analyses of [generate_analytics] and the conversion of numpy
      values in [save_analytics].

    The code is Python over pandas and geopandas.  A table is modelled as
    its column names together with its rows, a row as its index label and
    an ordered mapping from column name to scalar.  Numbers are binary64
    floats (Rocq's primitive floats, so NaN and the comparisons of the code
    are the machine's), timestamps are integer nanoseconds as in
    [datetime64[ns]].  Python exceptions are explicit: every operation that
    can raise returns a [result].

    What pandas, geopandas, shapely, pyproj and the tz database compute on
    scalars (parsing a date string, [float(s)], the canonical name of a CRS,
    reprojecting a point, the UTC offsets of a wall-clock time) is not code
    of this repository: it is gathered in the record [Library] and the
    functions are parametric in it; what pandas computes on whole columns
    (counts, sums, means) is gathered in the record [Pandas].  The table
    operations follow pandas 2 and geopandas 1.  The column names of an
    input table are taken to be distinct strings; a join may repeat a name
    (the suffix '_dup' given twice), and a record then holds one value per
    column, in the order of the columns. *)

From Stdlib Require Import List String Ascii ZArith Bool Lia Floats.
Import ListNotations.

Set Warnings "-inexact-float".

Local Open Scope string_scope.
Local Open Scope list_scope.
Local Open Scope Z_scope.

(** ** Python exceptions *)

Module Py.

Inductive exn : Set :=
| AttributeError
| KeyError
| IndexError
| ValueError
| TypeError
| CRSError
| MergeError
| OverflowError.

Inductive result (A : Type) : Type :=
| Ok (a : A)
| Raise (e : exn).

Arguments Ok {A} a.
Arguments Raise {A} e.

Definition bind {A B : Type} (m : result A) (k : A -> result B) : result B :=
  match m with
  | Ok a => k a
  | Raise e => Raise e
  end.

Definition returns {A : Type} (m : result A) : bool :=
  match m with
  | Ok _ => true
  | Raise _ => false
  end.

(** [for x in xs: ...] where the body may raise. *)
Fixpoint mapM {A B : Type} (f : A -> result B) (xs : list A) : result (list B) :=
  match xs with
  | [] => Ok []
  | x :: xs' =>
      bind (f x) (fun y => bind (mapM f xs') (fun ys => Ok (y :: ys)))
  end.

(** A loop that threads an accumulator and may raise. *)
Fixpoint foldM {A B : Type} (f : A -> B -> result A) (xs : list B) (a : A) : result A :=
  match xs with
  | [] => Ok a
  | x :: xs' => bind (f a x) (foldM f xs')
  end.

End Py.

Import Py.

Notation "x <- m ;; k" := (bind m (fun x => k))
  (at level 61, m at next level, right associativity).

(** ** Strings: [str.lower] and the substring test [sub in s] *)

Definition lower_ascii (c : ascii) : ascii :=
  let n := nat_of_ascii c in
  if (Nat.leb 65 n && Nat.leb n 90)%bool then ascii_of_nat (n + 32) else c.

Fixpoint lower (s : string) : string :=
  match s with
  | EmptyString => EmptyString
  | String c s' => String (lower_ascii c) (lower s')
  end.

Fixpoint contains (sub s : string) : bool :=
  (String.prefix sub s
   || match s with
      | EmptyString => false
      | String _ s' => contains sub s'
      end)%bool.

Definition mem (c : string) (cs : list string) : bool :=
  existsb (String.eqb c) cs.

(** ** Scalars *)

(** A geometry is a point or another shape, kept as its well-known
    binary. *)
Inductive geometry : Set :=
| Point (x y : float)
| NonPoint (wkb : string).

(** A timestamp is tz-naive (wall-clock nanoseconds) or tz-aware (UTC
    nanoseconds and the name of its zone). *)
Inductive timestamp : Set :=
| Naive (wall : Z)
| Aware (utc : Z) (tz : string).

(** [CNull] is [None] / [NaT]; a float NaN is [CNum nan]. *)
Inductive cell : Set :=
| CNull
| CNum (v : float)
| CStr (s : string)
| CTime (t : timestamp)
| CGeom (g : geometry).

Definition isna (c : cell) : bool :=
  match c with
  | CNull => true
  | CNum v => PrimFloat.is_nan v
  | _ => false
  end.

Definition notna (c : cell) : bool := negb (isna c).

(** ** Tables *)

Record row : Set := mkRow {
  label : Z;
  fields : list (string * cell)
}.

Fixpoint assoc (c : string) (l : list (string * cell)) : option cell :=
  match l with
  | [] => None
  | (k, v) :: l' => if String.eqb c k then Some v else assoc c l'
  end.

Fixpoint update (c : string) (v : cell) (l : list (string * cell)) : list (string * cell) :=
  match l with
  | [] => [(c, v)]
  | (k, w) :: l' => if String.eqb c k then (k, v) :: l' else (k, w) :: update c v l'
  end.

(** [row[c]]; a column the row does not bind reads as missing. *)
Definition get (r : row) (c : string) : cell :=
  match assoc c (fields r) with
  | Some v => v
  | None => CNull
  end.

Definition setitem (c : string) (v : cell) (r : row) : row :=
  mkRow (label r) (update c v (fields r)).

(** A pandas [DataFrame]; it is a geopandas [GeoDataFrame] with an active
    geometry column when [geometry_column_name] is set, and [crs] is then
    the [to_string()] of the CRS of its geometry values, if any. *)
Record frame : Set := mkFrame {
  columns : list string;
  rows : list row;
  geometry_column_name : option string;
  crs : option string
}.

Definition has_col (c : string) (df : frame) : bool := mem c (columns df).

Definition with_rows (df : frame) (rs : list row) : frame :=
  mkFrame (columns df) rs (geometry_column_name df) (crs df).

(** [df[mask]] with the mask computed row by row. *)
Definition select (p : row -> bool) (df : frame) : frame :=
  with_rows df (filter p (rows df)).

Definition add_col (c : string) (cs : list string) : list string :=
  if mem c cs then cs else cs ++ [c].

(** [df[c] = values], the values computed row by row. *)
Definition assign (c : string) (f : row -> cell) (df : frame) : frame :=
  mkFrame (add_col c (columns df))
          (map (fun r => setitem c (f r) r) (rows df))
          (geometry_column_name df) (crs df).

(** [df.dropna(subset=cs)]: a label of [cs] that is no column is a
    [KeyError]. *)
Definition dropna (cs : list string) (df : frame) : result frame :=
  if forallb (fun c => has_col c df) cs
  then Ok (select (fun r => forallb (fun c => notna (get r c)) cs) df)
  else Raise KeyError.

(** [df.reset_index(drop=True)]: the labels become 0, 1, 2, ... *)
Fixpoint relabel (n : Z) (rs : list row) : list row :=
  match rs with
  | [] => []
  | r :: rs' => mkRow n (fields r) :: relabel (n + 1) rs'
  end.

(** ** What the libraries compute on scalars *)

Record Library : Type := mkLibrary {
  (** Python's [float(s)]; [None] when it raises [ValueError]. *)
  py_float : string -> option float;
  (** [pd.to_numeric] on one string; [None] when it cannot be parsed. *)
  numeric_of_string : string -> option float;
  (** [pd.to_datetime] on one string or number; [None] when it cannot be
      parsed (it becomes [NaT] under [errors='coerce']). *)
  datetime_of_string : string -> option timestamp;
  datetime_of_number : float -> option timestamp;
  (** [str(v)] as an f-string formats a scalar. *)
  py_str : cell -> string;
  (** [pyproj.CRS.from_user_input(s).to_string()]; [None] when pyproj
      rejects [s]. *)
  pyproj_crs : string -> option string;
  (** The point transformation from one CRS to another; [None] when
      building it raises. *)
  transformer : string -> string -> option (geometry -> geometry);
  (** The UTC offsets (nanoseconds) under which a wall-clock time exists in
      America/New_York: one in general, none inside a spring-forward gap,
      two inside a fall-back overlap. *)
  nyc_utcoffsets : Z -> list Z;
  (** The wall-clock time of a UTC instant in a named zone. *)
  wall_clock : string -> Z -> Z
}.

(** ** geopandas *)

Definition geometric (c : cell) : bool :=
  match c with
  | CGeom _ => true
  | _ => isna c
  end.

(** [gpd.GeoDataFrame(df)]: a column named 'geometry' that holds only
    geometries becomes the active geometry column; otherwise the frame keeps
    the active geometry column it came with, if any. *)
Definition GeoDataFrame (df : frame) : frame :=
  if (has_col "geometry" df
      && forallb (fun r => geometric (get r "geometry")) (rows df))%bool
  then mkFrame (columns df) (rows df) (Some "geometry") (crs df)
  else df.

(** [gpd.GeoDataFrame(df, geometry='geometry')]: the column must exist
    ([ValueError: Unknown column geometry]) and hold geometries. *)
Definition GeoDataFrame_on_geometry (df : frame) : result frame :=
  if has_col "geometry" df then
    if forallb (fun r => geometric (get r "geometry")) (rows df)
    then Ok (mkFrame (columns df) (rows df) (Some "geometry") (crs df))
    else Raise TypeError
  else Raise ValueError.

(** [gdf.geometry]: the name of the active geometry column, an
    [AttributeError] when the frame has none. *)
Definition active_geometry (gdf : frame) : result string :=
  match geometry_column_name gdf with
  | Some g => if has_col g gdf then Ok g else Raise AttributeError
  | None => Raise AttributeError
  end.

(** [gdf.crs], defined through [gdf.geometry]. *)
Definition get_crs (gdf : frame) : result (option string) :=
  _ <- active_geometry gdf;; Ok (crs gdf).

Definition set_crs (lib : Library) (target : string) (gdf : frame) : result frame :=
  _ <- active_geometry gdf;;
  match pyproj_crs lib target with
  | Some s => Ok (mkFrame (columns gdf) (rows gdf) (geometry_column_name gdf) (Some s))
  | None => Raise CRSError
  end.

Definition map_geometry (f : geometry -> geometry) (c : cell) : cell :=
  match c with
  | CGeom g => CGeom (f g)
  | _ => c
  end.

Definition to_crs (lib : Library) (target : string) (gdf : frame) : result frame :=
  g <- active_geometry gdf;;
  match crs gdf with
  | None => Raise ValueError
  | Some src =>
      match pyproj_crs lib target, transformer lib src target with
      | Some t, Some f =>
          Ok (mkFrame (columns gdf)
                      (map (fun r => setitem g (map_geometry f (get r g)) r) (rows gdf))
                      (geometry_column_name gdf) (Some t))
      | _, _ => Raise CRSError
      end
  end.

(** [gdf.geometry.x] and [gdf.geometry.y] on one value: NaN for a missing
    geometry, [ValueError] for a geometry that is no point. *)
Definition point_xy (c : cell) : result (float * float) :=
  match c with
  | CGeom (Point x y) => Ok (x, y)
  | CGeom (NonPoint _) => Raise ValueError
  | CNull => Ok (nan, nan)
  | CNum v => if PrimFloat.is_nan v then Ok (nan, nan) else Raise TypeError
  | _ => Raise TypeError
  end.

(** ** pandas datetimes *)

(** [pd.to_datetime(v, errors='coerce')] on one value; [CNull] is [NaT]. *)
Definition to_datetime (lib : Library) (c : cell) : cell :=
  match c with
  | CTime t => CTime t
  | CStr s =>
      match datetime_of_string lib s with
      | Some t => CTime t
      | None => CNull
      end
  | CNum v =>
      match datetime_of_number lib v with
      | Some t => CTime t
      | None => CNull
      end
  | _ => CNull
  end.

Definition timestamps (cs : list cell) : list timestamp :=
  flat_map (fun c => match c with CTime t => [t] | _ => [] end) cs.

Definition tz_of (t : timestamp) : option string :=
  match t with
  | Naive _ => None
  | Aware _ z => Some z
  end.

Definition is_naive (t : timestamp) : bool :=
  match t with
  | Naive _ => true
  | Aware _ _ => false
  end.

Definition option_string_eqb (a b : option string) : bool :=
  match a, b with
  | None, None => true
  | Some x, Some y => String.eqb x y
  | _, _ => false
  end.

(** The column [pd.to_datetime] builds from a list of values: tz-naive and
    tz-aware values cannot be mixed ([ValueError], also under
    [errors='coerce']). *)
Definition to_datetime_column (lib : Library) (cs : list cell) : result (list cell) :=
  let out := map (to_datetime lib) cs in
  let ts := timestamps out in
  if (existsb is_naive ts && existsb (fun t => negb (is_naive t)) ts)%bool
  then Raise ValueError
  else Ok out.

(** [column.dt.tz]: the zone of a datetime column, [None] when it is
    tz-naive.  A column whose values lie in different zones has dtype
    object, and [.dt] is an [AttributeError] on it. *)
Definition dt_tz (cs : list cell) : result (option string) :=
  match timestamps cs with
  | [] => Ok None
  | t :: ts =>
      if forallb (fun u => option_string_eqb (tz_of t) (tz_of u)) ts
      then Ok (tz_of t)
      else Raise AttributeError
  end.

(** [tz_localize(nyc, ambiguous='NaT', nonexistent='NaT')] followed by
    [tz_convert('UTC')] on one tz-naive value. *)
Definition localize_nyc_utc (lib : Library) (c : cell) : cell :=
  match c with
  | CTime (Naive w) =>
      match nyc_utcoffsets lib w with
      | [off] => CTime (Aware (w - off) "UTC")
      | _ => CNull
      end
  | _ => CNull
  end.

(** [tz_convert('UTC')] on one tz-aware value. *)
Definition tz_convert_utc (c : cell) : cell :=
  match c with
  | CTime (Aware u _) => CTime (Aware u "UTC")
  | _ => CNull
  end.

Definition column (c : string) (df : frame) : list cell :=
  map (fun r => get r c) (rows df).

(** ** pandas [merge] and [concat] *)

(** Two floats with the same bits.  A geometry key is compared by its
    well-known binary, which holds the coordinates as they are stored. *)
Definition same_bits (v w : float) : bool :=
  (PrimFloat.is_nan v && PrimFloat.is_nan w
   || PrimFloat.eqb v w && Bool.eqb (PrimFloat.get_sign v) (PrimFloat.get_sign w))%bool.

(** Equality of join keys.  Missing values ([None], [NaN], [NaT]) match
    each other and nothing else; numbers compare as floats, timestamps by
    their instant. *)
Definition cell_eqb (a b : cell) : bool :=
  if (isna a || isna b)%bool then (isna a && isna b)%bool else
  match a, b with
  | CNum v, CNum w => PrimFloat.eqb v w
  | CStr s, CStr t => String.eqb s t
  | CTime (Naive v), CTime (Naive w) => Z.eqb v w
  | CTime (Aware v _), CTime (Aware w _) => Z.eqb v w
  | CGeom (Point x y), CGeom (Point x' y') => (same_bits x x' && same_bits y y')%bool
  | CGeom (NonPoint s), CGeom (NonPoint t) => String.eqb s t
  | _, _ => false
  end.

Definition key_match (on : list string) (l r : row) : bool :=
  forallb (fun k => cell_eqb (get l k) (get r k)) on.

Fixpoint nodupb (cs : list string) : bool :=
  match cs with
  | [] => true
  | c :: cs' => (negb (mem c cs') && nodupb cs')%bool
  end.

(** A join key must name one column of the table: [KeyError] when no column
    has the name, [ValueError] (label not unique) when several have. *)
Definition key_column (k : string) (df : frame) : result unit :=
  match count_occ string_dec (columns df) k with
  | O => Raise KeyError
  | S O => Ok tt
  | S (S _) => Raise ValueError
  end.

(** The name a non-key column of the right table gets under
    [suffixes=(None, '_dup')]: the suffix goes to the names the left table
    has as well; the left table's names stay. *)
Definition dup_name (left_cols : list string) (c : string) : string :=
  if mem c left_cols then (c ++ "_dup")%string else c.

(** [Index.duplicated()]: whether the name occurred earlier in the list. *)
Fixpoint duplicated_after (seen cs : list string) : list bool :=
  match cs with
  | [] => []
  | c :: cs' => mem c seen :: duplicated_after (c :: seen) cs'
  end.

Definition duplicated (cs : list string) : list bool := duplicated_after [] cs.

(** pandas refuses suffixes that repeat a name within one table's columns
    where the table itself did not repeat it.  The two tables are checked
    one by one: a suffixed name of the right table that the left table has
    already is let through. *)
Definition suffix_duplicates (labels renamed : list string) : bool :=
  existsb (fun p => (fst p && negb (snd p))%bool)
          (combine (duplicated renamed) (duplicated labels)).

(** The first value a row has under the name [c] (missing when it has
    none), and the row's other fields. *)
Fixpoint take (c : string) (l : list (string * cell)) : cell * list (string * cell) :=
  match l with
  | [] => (CNull, [])
  | (k, v) :: l' =>
      if String.eqb c k then (v, l')
      else let (w, l'') := take c l' in (w, (k, v) :: l'')
  end.

(** The values of a row under the column names [cs], by position: a name
    that occurs twice in [cs] reads the row's first and second value of that
    name. *)
Fixpoint values (cs : list string) (l : list (string * cell)) : list cell :=
  match cs with
  | [] => []
  | c :: cs' => let (v, l') := take c l in v :: values cs' l'
  end.

Definition join_rows (left_cols right_cols : list string) (l r : row) : row :=
  mkRow (label l)
        (combine left_cols (values left_cols (fields l))
         ++ combine (map (dup_name left_cols) right_cols) (values right_cols (fields r))).

(** [left.merge(right, on=on, how='inner', suffixes=(None, '_dup'))]: the
    columns of the left table, then the columns of the right table that are
    no keys; the records are the pairs of records that agree on every key,
    in the order of the left table.  The result may repeat a column
    name. *)
Definition merge (left right : frame) (on : list string) : result frame :=
  _ <- mapM (fun k => _ <- key_column k right;; key_column k left) on;;
  let right_cols := filter (fun c => negb (mem c on)) (columns right) in
  let renamed := map (dup_name (columns left)) right_cols in
  if suffix_duplicates right_cols renamed then Raise MergeError
  else
    Ok (mkFrame (columns left ++ renamed)
          (relabel 0
             (flat_map
                (fun l => map (join_rows (columns left) right_cols l)
                              (filter (key_match on l) (rows right)))
                (rows left)))
          (geometry_column_name left) (crs left)).

Definition union_cols (dfs : list frame) : list string :=
  fold_left (fun acc df => fold_left (fun a c => add_col c a) (columns df) acc) dfs [].

Definition reindex_row (cols : list string) (df : frame) (r : row) : row :=
  mkRow (label r) (map (fun c => (c, if has_col c df then get r c else CNull)) cols).

(** [pd.concat(dfs, ignore_index=True)]: the rows of every table in order,
    a column a table lacks filled with missing values; no table at all is a
    [ValueError]. *)
Definition concat (dfs : list frame) : result frame :=
  match dfs with
  | [] => Raise ValueError
  | d :: _ =>
      let cols := union_cols dfs in
      Ok (mkFrame cols
            (relabel 0 (flat_map (fun df => map (reindex_row cols df) (rows df)) dfs))
            (geometry_column_name d) (crs d))
  end.

(** The sum of the row counts of a list of tables. *)
Definition total_rows (dfs : list frame) : nat :=
  fold_right (fun df n => (List.length (rows df) + n)%nat) 0%nat dfs.

(** ** The data-cleaning notebook: [clean_and_merge_data] *)

Module DataCleaning.

Definition lat_cols (df : frame) : list string :=
  filter (fun c => contains "lat" (lower c)) (columns df).

Definition lon_cols (df : frame) : list string :=
  filter (fun c => (contains "lon" (lower c) || contains "lng" (lower c))%bool) (columns df).

(** The coordinate shapely's [Point] makes of a value: numbers as they
    are, strings through [float]. *)
Definition coordinate (lib : Library) (c : cell) : result float :=
  match c with
  | CNum v => Ok v
  | CStr s =>
      match py_float lib s with
      | Some v => Ok v
      | None => Raise ValueError
      end
  | _ => Raise TypeError
  end.

(** [Point(xy) for xy in zip(df[lon], df[lat])], stored in the row. *)
Definition with_point (lib : Library) (lat lon : string) (r : row) : result row :=
  x <- coordinate lib (get r lon);;
  y <- coordinate lib (get r lat);;
  Ok (setitem "geometry" (CGeom (Point x y)) r).

(** Lines 28-39: geometry from the first latitude-like and longitude-like
    columns when the table has no 'geometry' column. *)
Definition resolve_geometry (lib : Library) (df : frame) : result frame :=
  if negb (has_col "geometry" df) then
    match lat_cols df, lon_cols df with
    | lat :: _, lon :: _ =>
        df <- dropna [lat; lon] df;;
        rs <- mapM (with_point lib lat lon) (rows df);;
        Ok (mkFrame (add_col "geometry" (columns df)) rs (Some "geometry") (Some "EPSG:4326"))
    | _, _ => Ok (GeoDataFrame df)
    end
  else Ok (GeoDataFrame df).

(** Lines 42-48: an unset CRS is declared to be the target; a different one
    is reprojected, and a failing reprojection keeps the geometry. *)
Definition normalize_crs (lib : Library) (crs_target : string) (gdf : frame) : result frame :=
  c <- get_crs gdf;;
  gdf <- match c with
         | None => set_crs lib crs_target gdf
         | Some _ => Ok gdf
         end;;
  c <- get_crs gdf;;
  match c with
  | None => Raise AttributeError
  | Some s =>
      if negb (String.eqb s crs_target) then
        match to_crs lib crs_target gdf with
        | Ok gdf' => Ok gdf'
        | Raise _ => Ok gdf
        end
      else Ok gdf
  end.

Open Scope float_scope.

Definition in_nyc_bounds (p : float * float) : bool :=
  let (x, y) := p in
  ((40.4774 <=? y) && (y <=? 40.9176) && (-74.2591 <=? x) && (x <=? -73.7004))%bool.

Close Scope float_scope.

Definition plausible (g : string) (r : row) : bool :=
  match point_xy (get r g) with
  | Ok p => in_nyc_bounds p
  | Raise _ => false
  end.

(** Lines 51-54: the NYC bounding box on the active geometry. *)
Definition plausibility_filter (gdf : frame) : result frame :=
  g <- active_geometry gdf;;
  _ <- mapM point_xy (column g gdf);;
  Ok (select (plausible g) gdf).

(** Lines 58-66, for one configured column that the table has. *)
Definition normalize_time_col (lib : Library) (time_col : string) (gdf : frame) : result frame :=
  _ <- to_datetime_column lib (column time_col gdf);;
  let gdf := assign time_col (fun r => to_datetime lib (get r time_col)) gdf in
  tz <- dt_tz (column time_col gdf);;
  let gdf :=
    match tz with
    | None => assign time_col (fun r => localize_nyc_utc lib (get r time_col)) gdf
    | Some _ => assign time_col (fun r => tz_convert_utc (get r time_col)) gdf
    end in
  dropna [time_col] gdf.

(** Lines 57-66: the loop over the configured time columns. *)
Definition normalize_times (lib : Library) (time_cols : list string) (gdf : frame) : result frame :=
  foldM (fun gdf time_col =>
           if has_col time_col gdf then normalize_time_col lib time_col gdf else Ok gdf)
        time_cols gdf.

(** The body of [for df in dfs]. *)
Definition clean (lib : Library) (crs_target : string) (time_cols : list string)
    (df : frame) : result frame :=
  gdf <- resolve_geometry lib df;;
  gdf <- normalize_crs lib crs_target gdf;;
  gdf <- plausibility_filter gdf;;
  normalize_times lib time_cols gdf.

(** Lines 71-73. *)
Definition merge_cols (time_cols : list string) (cleaned_dfs : list frame) : list string :=
  filter (fun col => forallb (has_col col) cleaned_dfs) time_cols
  ++ (if forallb (has_col "geometry") cleaned_dfs then ["geometry"] else []).

(** Lines 75-82. *)
Definition merge_or_concat (time_cols : list string) (cleaned_dfs : list frame) : result frame :=
  let on := merge_cols time_cols cleaned_dfs in
  match on with
  | _ :: _ =>
      match cleaned_dfs with
      | [] => Raise IndexError
      | first :: others => foldM (fun merged other => merge merged other on) others first
      end
  | [] => concat cleaned_dfs
  end.

Definition clean_and_merge_data (lib : Library) (dfs : list frame) (crs_target : string)
    (time_cols : list string) : result frame :=
  cleaned_dfs <- mapM (clean lib crs_target time_cols) dfs;;
  merged <- merge_or_concat time_cols cleaned_dfs;;
  GeoDataFrame_on_geometry merged.

End DataCleaning.

(** ** The proleptic Gregorian calendar of [datetime64] *)

Module Calendar.

Definition ns_per_day : Z := 86400 * 1000000000.
Definition ns_per_hour : Z := 3600 * 1000000000.

(** Days since 1970-01-01 to the civil (year, month, day). *)
Definition civil_from_days (z : Z) : Z * Z * Z :=
  let z := z + 719468 in
  let era := z / 146097 in
  let doe := z - era * 146097 in
  let yoe := (doe - doe / 1460 + doe / 36524 - doe / 146096) / 365 in
  let doy := doe - (365 * yoe + yoe / 4 - yoe / 100) in
  let mp := (5 * doy + 2) / 153 in
  let d := doy - (153 * mp + 2) / 5 + 1 in
  let m := if mp <? 10 then mp + 3 else mp - 9 in
  let y := yoe + era * 400 + (if m <=? 2 then 1 else 0) in
  (y, m, d).

Definition days_from_civil (y m d : Z) : Z :=
  let y := if m <=? 2 then y - 1 else y in
  let era := y / 400 in
  let yoe := y - era * 400 in
  let doy := (153 * (if 2 <? m then m - 3 else m + 9) + 2) / 5 + d - 1 in
  let doe := yoe * 365 + yoe / 4 - yoe / 100 + doy in
  era * 146097 + doe - 719468.

(** [.dt.weekday]: Monday is 0. *)
Definition weekday_of_days (z : Z) : Z := (z + 3) mod 7.

Definition day_name (wd : Z) : string :=
  match wd with
  | 0 => "Monday"
  | 1 => "Tuesday"
  | 2 => "Wednesday"
  | 3 => "Thursday"
  | 4 => "Friday"
  | 5 => "Saturday"
  | _ => "Sunday"
  end.

End Calendar.

(** ** The transportation ETL: [_clean_taxi_data], [_clean_bikeshare_data] *)

Module TransportationETL.

Import Calendar.

(** [df.empty]: no row or no column. *)
Definition empty (df : frame) : bool :=
  match rows df, columns df with
  | [], _ => true
  | _, [] => true
  | _, _ => false
  end.

(** [pd.to_numeric(v, errors='coerce')] on one value. *)
Definition to_numeric (lib : Library) (c : cell) : cell :=
  match c with
  | CNum v => CNum v
  | CStr s =>
      match numeric_of_string lib s with
      | Some v => CNum v
      | None => CNum nan
      end
  | _ => CNum nan
  end.

(** The float a numeric column holds in a row. *)
Definition num (r : row) (c : string) : float :=
  match get r c with
  | CNum v => v
  | _ => nan
  end.

(** [if col in df.columns: df[col] = f(df[col])] for each [col]. *)
Definition convert_present (f : cell -> cell) (cols : list string) (df : frame) : frame :=
  fold_left (fun df col => if has_col col df then assign col (fun r => f (get r col)) df else df)
            cols df.

(** An integer as a float: the nearest binary64 value, ties to even, as the
    conversion of an int64 to float64 gives. *)
Definition float_of_Z (z : Z) : float :=
  SF2Prim (binary_normalize prec emax z 0 false).

(** [b - a] on two timestamps of one kind, in nanoseconds.  Timestamps are
    int64 and their subtraction is checked: a difference that is no int64
    is an [OverflowError].  [None] is [NaT], which the least int64 stands
    for. *)
Definition timedelta (a b : cell) : result (option Z) :=
  match a, b with
  | CTime (Naive s), CTime (Naive e)
  | CTime (Aware s _), CTime (Aware e _) =>
      let d := e - s in
      if ((d <? - 2 ^ 63) || (2 ^ 63 <=? d))%bool then Raise OverflowError
      else Ok (if d =? - 2 ^ 63 then None else Some d)
  | _, _ => Ok None
  end.

(** [(b - a).total_seconds() / 60] *)
Definition minutes_between (a b : cell) : float :=
  match timedelta a b with
  | Ok (Some d) => PrimFloat.div (PrimFloat.div (float_of_Z d) 1e9%float) 60%float
  | _ => nan
  end.

(** The wall clock [.dt] reads the calendar fields from. *)
Definition wall_of (lib : Library) (c : cell) : option Z :=
  match c with
  | CTime (Naive w) => Some w
  | CTime (Aware u z) => Some (wall_clock lib z u)
  | _ => None
  end.

Definition dt_hour (lib : Library) (c : cell) : cell :=
  match wall_of lib c with
  | Some w => CNum (float_of_Z ((w mod ns_per_day) / ns_per_hour))
  | None => CNum nan
  end.

Definition dt_day_name (lib : Library) (c : cell) : cell :=
  match wall_of lib c with
  | Some w => CStr (day_name (weekday_of_days (w / ns_per_day)))
  | None => CNull
  end.

Definition dt_month (lib : Library) (c : cell) : cell :=
  match wall_of lib c with
  | Some w => let '(_, m, _) := civil_from_days (w / ns_per_day) in CNum (float_of_Z m)
  | None => CNum nan
  end.

Definition dt_weekday (lib : Library) (c : cell) : cell :=
  match wall_of lib c with
  | Some w => CNum (float_of_Z (weekday_of_days (w / ns_per_day)))
  | None => CNum nan
  end.

Open Scope float_scope.

(** Lines 208-221: the range filters of the numeric columns present. *)
Definition filter_passenger_count (df : frame) : frame :=
  if has_col "passenger_count" df then
    let df := select (fun r => 0 <? num r "passenger_count") df in
    select (fun r => num r "passenger_count" <=? 10) df
  else df.

Definition filter_trip_distance (df : frame) : frame :=
  if has_col "trip_distance" df then
    let df := select (fun r => 0 <? num r "trip_distance") df in
    select (fun r => num r "trip_distance" <? 100) df
  else df.

Definition filter_fare_amount (df : frame) : frame :=
  if has_col "fare_amount" df then
    let df := select (fun r => 0 <? num r "fare_amount") df in
    select (fun r => num r "fare_amount" <? 1000) df
  else df.

(** Line 247: [trip_distance / (trip_duration / 60)] with [fillna(0)]. *)
Definition avg_speed (r : row) : cell :=
  let v := num r "trip_distance" / (num r "trip_duration" / 60) in
  if PrimFloat.is_nan v then CNum 0 else CNum v.

Definition add_speed (df : frame) : frame :=
  if (has_col "trip_distance" df && has_col "trip_duration" df)%bool then
    let df := assign "avg_speed_mph" avg_speed df in
    select (fun r => num r "avg_speed_mph" <? 100) df
  else df.

Close Scope float_scope.

Definition copy_col (src dst : string) (df : frame) : frame :=
  if has_col src df then assign dst (fun r => get r src) df else df.

Definition is_some {A : Type} (o : option A) : bool :=
  match o with
  | Some _ => true
  | None => false
  end.

(** Line 233: the duration column.  [typed] is the table as the datetime
    conversion left it: its two columns fix the dtypes, which dropping rows
    does not change.  Both must be datetime columns ([.dt]), both tz-naive
    or both tz-aware (the subtraction is a [TypeError] otherwise); the
    subtraction of the two columns raises [OverflowError] when it overflows
    in a row. *)
Definition add_trip_duration (typed df : frame) : result frame :=
  tz_pickup <- dt_tz (column "pickup_datetime" typed);;
  tz_dropoff <- dt_tz (column "dropoff_datetime" typed);;
  if Bool.eqb (is_some tz_pickup) (is_some tz_dropoff) then
    _ <- mapM (fun r => timedelta (get r "pickup_datetime") (get r "dropoff_datetime"))
              (rows df);;
    Ok (assign "trip_duration"
               (fun r => CNum (minutes_between (get r "pickup_datetime")
                                               (get r "dropoff_datetime")))
               df)
  else Raise TypeError.

Definition convert_datetimes (lib : Library) (cols : list string) (df : frame) : result frame :=
  foldM (fun df col =>
           if has_col col df then
             _ <- to_datetime_column lib (column col df);;
             Ok (assign col (fun r => to_datetime lib (get r col)) df)
           else Ok df)
        cols df.

(** Lines 202-221: the numeric conversion and the range filters. *)
Definition numeric_taxi (lib : Library) (df : frame) : frame :=
  let df := convert_present (to_numeric lib)
              ["passenger_count"; "trip_distance"; "fare_amount"; "tip_amount"; "total_amount"]
              df in
  let df := filter_passenger_count df in
  let df := filter_trip_distance df in
  filter_fare_amount df.

(** Lines 239-243: the calendar features of the pickup time. *)
Definition add_time_features (lib : Library) (df : frame) : frame :=
  let df := assign "pickup_hour" (fun r => dt_hour lib (get r "pickup_datetime")) df in
  let df := assign "pickup_day" (fun r => dt_day_name lib (get r "pickup_datetime")) df in
  let df := assign "pickup_month" (fun r => dt_month lib (get r "pickup_datetime")) df in
  assign "pickup_weekday" (fun r => dt_weekday lib (get r "pickup_datetime")) df.

Definition _clean_taxi_data (lib : Library) (df : frame) : result frame :=
  if empty df then Ok df else
  let df := numeric_taxi lib df in
  typed <- convert_datetimes lib ["pickup_datetime"; "dropoff_datetime"] df;;
  df <- dropna ["pickup_datetime"; "dropoff_datetime"] typed;;
  df <- add_trip_duration typed df;;
  let df := select (fun r => (0 <? num r "trip_duration")%float) df in
  let df := select (fun r => (num r "trip_duration" <? 1440)%float) df in
  let df := add_time_features lib df in
  let df := add_speed df in
  let df := copy_col "PULocationID" "pickup_zone" df in
  let df := copy_col "DOLocationID" "dropoff_zone" df in
  Ok df.

Open Scope float_scope.

(** [Series.between(lo, hi)], both ends included. *)
Definition between (lo hi v : float) : bool := ((lo <=? v) && (v <=? hi))%bool.

(** Lines 358-361; [df['LATITUDE']] is a [KeyError] without the column. *)
Definition filter_coordinates (df : frame) : result frame :=
  if has_col "LATITUDE" df then
    if has_col "LONGITUDE" df then
      Ok (select (fun r => (between 40.5 41.0 (num r "LATITUDE")
                            && between (-74.3) (-73.7) (num r "LONGITUDE"))%bool) df)
    else Raise KeyError
  else Raise KeyError.

(** Line 376, the lambda on one value of the YEAR column; comparing
    anything but a number with an [int] is a [TypeError]. *)
Definition year_category (x : cell) : result cell :=
  match x with
  | CNum v =>
      Ok (CStr (if 2020 <=? v then "Recent"
                else if 2015 <=? v then "Historical"
                else "Legacy"))
  | _ => Raise TypeError
  end.

Close Scope float_scope.

(** Line 369, the lambda on one row. *)
Definition station_location (lib : Library) (df : frame) (r : row) : result cell :=
  if has_col "STATION_NAME" df then
    if notna (get r "STATION_NAME") then
      if has_col "CITY" df then
        Ok (CStr (py_str lib (get r "STATION_NAME") ++ ", " ++ py_str lib (get r "CITY"))%string)
      else Raise KeyError
    else Ok (CStr "Unknown")
  else Raise KeyError.

(** [df[c] = ...apply(f)] where [f] may raise. *)
Definition assignM (c : string) (f : row -> result cell) (df : frame) : result frame :=
  rs <- mapM (fun r => v <- f r;; Ok (setitem c v r)) (rows df);;
  Ok (mkFrame (add_col c (columns df)) rs (geometry_column_name df) (crs df)).

(** Lines 368-371: on a table without rows [df.apply(..., axis=1)] returns
    an empty table, not a column, and storing it in one column is a
    [ValueError]. *)
Definition add_station_location (lib : Library) (df : frame) : result frame :=
  match rows df with
  | [] => Raise ValueError
  | _ :: _ => assignM "station_location" (station_location lib df) df
  end.

Definition add_year_category (df : frame) : result frame :=
  if has_col "YEAR" df
  then assignM "year_category" (fun r => year_category (get r "YEAR")) df
  else Ok df.

Definition _clean_bikeshare_data (lib : Library) (df : frame) : result frame :=
  if empty df then Ok df else
  let df := convert_present (to_numeric lib) ["LATITUDE"] df in
  let df := convert_present (to_numeric lib) ["LONGITUDE"] df in
  df <- filter_coordinates df;;
  df <- convert_datetimes lib ["ASOFDATE"] df;;
  df <- add_station_location lib df;;
  add_year_category df.

End TransportationETL.

(** ** The pipeline around the sanitizers: [process_taxi_data],
    [process_bikeshare_data] and the analyses of their results *)

Module Pipeline.

Import TransportationETL.

(** The queries the pipeline sends, by the names the source gives them. *)
Inductive query : Set :=
| yellow_query
| green_query
| fhv_query
| bikeshare_query
| zones_query
| subway_lines_query (table_name : string)
| subway_sample_query (table_name : string).

(** The column names of a query's SELECT list, aliases applied; [None] for
    [SELECT *]. *)
Definition select_list (q : query) : option (list string) :=
  match q with
  | yellow_query | green_query =>
      Some ["pickup_datetime"; "dropoff_datetime"; "passenger_count"; "trip_distance";
            "RatecodeID"; "PULocationID"; "DOLocationID"; "payment_type"; "fare_amount";
            "extra"; "mta_tax"; "tip_amount"; "tolls_amount"; "improvement_surcharge";
            "total_amount"; "congestion_surcharge"]
  | fhv_query =>
      Some ["pickup_datetime"; "dropoff_datetime"; "PUlocationID"; "DOlocationID"; "SR_Flag";
            "Affiliated_base_number"]
  | bikeshare_query =>
      Some ["STATION_NAME"; "ADDRESS"; "CITY"; "STATE"; "LATITUDE"; "LONGITUDE";
            "STATION_TYPE"; "SYSTEM_NAME"; "YEAR"; "ASOFDATE"]
  | zones_query => None
  | subway_lines_query _ => Some ["linename"; "station"; "entry_count"]
  | subway_sample_query _ => None
  end.

(** [pd.DataFrame()] *)
Definition DataFrame : frame := mkFrame [] [] None None.

(** A [dict] with string keys, in insertion order: [d[k] = v] and
    [d.get(k)]. *)
Fixpoint dict_set {V : Type} (k : string) (v : V) (d : list (string * V)) : list (string * V) :=
  match d with
  | [] => [(k, v)]
  | (k', v') :: d' =>
      if String.eqb k k' then (k, v) :: d' else (k', v') :: dict_set k v d'
  end.

Fixpoint dict_get {V : Type} (k : string) (d : list (string * V)) : option V :=
  match d with
  | [] => None
  | (k', v) :: d' => if String.eqb k k' then Some v else dict_get k d'
  end.

(** [df[c]] as an expression: a [KeyError] without the column. *)
Definition getitem (c : string) (df : frame) : result (list cell) :=
  if has_col c df then Ok (column c df) else Raise KeyError.

(** One entry of [get_table_structure]. *)
Record column_info : Set := mkColumnInfo {
  col_name : string;
  col_type : string;
  col_nullable : string;
  col_default : option string
}.

(** [s.split('.')[-1]] *)
Fixpoint has_dot (s : string) : bool :=
  match s with
  | EmptyString => false
  | String c s' => (Ascii.eqb c "." || has_dot s')%bool
  end.

Fixpoint last_part (s : string) : string :=
  match s with
  | EmptyString => EmptyString
  | String c s' =>
      if has_dot s' then last_part s'
      else if Ascii.eqb c "." then s'
      else String c (last_part s')
  end.

Definition subway_tables : list string :=
  ["dbo.MTA_Subway_Turnstile_Usage_Data_2022_20250720"; "dbo.mta_1706"].

Section Database.

(** What [pd.read_sql(query, self.connection)] returns or raises. *)
Variable read_sql : query -> result frame.

(** What [get_table_info(schema, table_name)] returns: the rows of
    INFORMATION_SCHEMA.COLUMNS for the table, none when the query fails. *)
Variable get_table_info : string -> string -> list (string * string * string * option string).

Variable lib : Library.

Definition get_table_structure (schema table_name : string) : list column_info :=
  map (fun '(n, t, nullable, default) => mkColumnInfo n t nullable default)
      (get_table_info schema table_name).

(** One of the three [try] blocks of [process_taxi_data]: whatever is
    raised inside is logged and the dict stays as it was. *)
Definition process_taxi_type (q : query) (taxi_type : string)
    (taxi_data : list (string * frame)) : list (string * frame) :=
  match read_sql q with
  | Ok df =>
      if empty df then taxi_data
      else
        match _clean_taxi_data lib df with
        | Ok df =>
            let df := assign "taxi_type" (fun _ => CStr taxi_type) df in
            dict_set taxi_type df taxi_data
        | Raise _ => taxi_data
        end
  | Raise _ => taxi_data
  end.

Definition process_taxi_data : list (string * frame) :=
  let taxi_data := [] in
  let taxi_data := process_taxi_type yellow_query "yellow" taxi_data in
  let taxi_data := process_taxi_type green_query "green" taxi_data in
  process_taxi_type fhv_query "fhv" taxi_data.

(** The loop of [process_subway_data] over the table names left to try;
    the first table with a structure and a non-empty answer ends it. *)
Fixpoint subway_loop (tables : list string) (subway_df : frame) : frame :=
  match tables with
  | [] => subway_df
  | table_name :: tables' =>
      match get_table_structure "dbo" (last_part table_name) with
      | [] => subway_loop tables' subway_df
      | structure =>
          let columns := map col_name structure in
          let query := if mem "linename" columns
                       then subway_lines_query table_name
                       else subway_sample_query table_name in
          match read_sql query with
          | Ok df => if empty df then subway_loop tables' subway_df else df
          | Raise _ => subway_loop tables' subway_df
          end
      end
  end.

Definition process_subway_data : frame := subway_loop subway_tables DataFrame.

Definition process_bikeshare_data : frame :=
  match read_sql bikeshare_query with
  | Ok bikeshare_df =>
      if empty bikeshare_df then bikeshare_df
      else
        match _clean_bikeshare_data lib bikeshare_df with
        | Ok bikeshare_df => bikeshare_df
        | Raise _ => DataFrame
        end
  | Raise _ => DataFrame
  end.

Definition process_taxi_zones : frame :=
  match read_sql zones_query with
  | Ok zones_df => zones_df
  | Raise _ => DataFrame
  end.

End Database.

(** One entry of a hotspot list. *)
Record hotspot : Set := mkHotspot {
  latitude : cell;
  longitude : cell;
  count : Z
}.

(** The values of the analytics dicts. *)
#[warnings="-register-all"]
Inductive value : Set :=
| Counts (d : list (cell * Z))
| Number (x : float)
| Hotspots (l : list hotspot)
| Nested (d : list (string * value)).

(** What pandas computes on whole columns and tables. *)
Record Pandas : Type := mkPandas {
  (** [s.value_counts().to_dict()] *)
  value_counts : list cell -> list (cell * Z);
  (** [s.value_counts().sort_index().to_dict()]: sorting the counted values
      raises when they do not compare with each other. *)
  value_counts_sort_index : list cell -> result (list (cell * Z));
  (** [s.sum()], [s.mean()] and [s.median()]: they raise on a column that
      holds values that are no numbers. *)
  sum : list cell -> result float;
  mean : list cell -> result float;
  median : list cell -> result float;
  (** [s.round(3)]: whether the column's dtype admits it (it raises
      otherwise), and what it makes of one value. *)
  roundable : list cell -> bool;
  round3 : cell -> cell;
  (** [df.groupby([a, b]).size().reset_index(name='count')] and
      [groups.sort_values('count', ascending=False)] *)
  groupby_size : frame -> string -> string -> list (cell * cell * Z);
  sort_values_count : list (cell * cell * Z) -> list (cell * cell * Z)
}.

Section Statistics.

Variable pd : Pandas.

(** [_identify_hotspots]: the list it returns and the table as its
    in-place assignments leave it.  An exception leaves the [try] block with
    the list empty. *)
Definition _identify_hotspots (df : frame) (location_type : string) : list hotspot * frame :=
  let lat_col := (location_type ++ "_latitude")%string in
  let lon_col := (location_type ++ "_longitude")%string in
  if (has_col lat_col df && has_col lon_col df)%bool then
    if roundable pd (column lat_col df) then
      let df := assign "lat_rounded" (fun r => round3 pd (get r lat_col)) df in
      if roundable pd (column lon_col df) then
        let df := assign "lon_rounded" (fun r => round3 pd (get r lon_col)) df in
        let hotspot_groups := groupby_size pd df "lat_rounded" "lon_rounded" in
        let hotspot_groups := firstn 20 (sort_values_count pd hotspot_groups) in
        (map (fun '(lat, lon, n) => mkHotspot lat lon n) hotspot_groups, df)
      else ([], df)
    else ([], df)
  else ([], df).

(** [if c in df.columns: analytics[k] = f(df[c])] *)
Definition set_if_present (c k : string) (f : list cell -> result value) (df : frame)
    (analytics : list (string * value)) : result (list (string * value)) :=
  if has_col c df
  then v <- f (column c df);; Ok (dict_set k v analytics)
  else Ok analytics.

Definition counts (s : list cell) : result value := Ok (Counts (value_counts pd s)).

Definition counts_head (n : nat) (s : list cell) : result value :=
  Ok (Counts (firstn n (value_counts pd s))).

Definition counts_sort_index (s : list cell) : result value :=
  d <- value_counts_sort_index pd s;; Ok (Counts d).

Definition number (f : list cell -> result float) (s : list cell) : result value :=
  x <- f s;; Ok (Number x).

Definition _analyze_taxi_data (taxi_data : list (string * frame))
    : result (list (string * value)) :=
  let analytics := [] in
  all_taxi <- concat (map snd taxi_data);;
  if empty all_taxi then Ok analytics else
  hours <- getitem "pickup_hour" all_taxi;;
  hourly <- counts_sort_index hours;;
  let analytics := dict_set "hourly_distribution" hourly analytics in
  days <- getitem "pickup_day" all_taxi;;
  daily <- counts days;;
  let analytics := dict_set "daily_distribution" daily analytics in
  months <- getitem "pickup_month" all_taxi;;
  monthly <- counts_sort_index months;;
  let analytics := dict_set "monthly_distribution" monthly analytics in
  let '(hotspots, all_taxi) := _identify_hotspots all_taxi "pickup" in
  let analytics := dict_set "pickup_hotspots" (Hotspots hotspots) analytics in
  let '(hotspots, all_taxi) := _identify_hotspots all_taxi "dropoff" in
  let analytics := dict_set "dropoff_hotspots" (Hotspots hotspots) analytics in
  analytics <- set_if_present "trip_duration" "avg_trip_duration" (number (mean pd))
                              all_taxi analytics;;
  analytics <- set_if_present "trip_duration" "median_trip_duration" (number (median pd))
                              all_taxi analytics;;
  analytics <- set_if_present "fare_amount" "avg_fare" (number (mean pd))
                              all_taxi analytics;;
  analytics <- set_if_present "fare_amount" "median_fare" (number (median pd))
                              all_taxi analytics;;
  analytics <- set_if_present "avg_speed_mph" "avg_speed" (number (mean pd))
                              all_taxi analytics;;
  types <- getitem "taxi_type" all_taxi;;
  distribution <- counts types;;
  Ok (dict_set "type_distribution" distribution analytics).

Definition _analyze_subway_data (subway_data : frame) : result (list (string * value)) :=
  let analytics := [] in
  if empty subway_data then Ok analytics else
  analytics <- set_if_present "linename" "line_distribution" (counts_head 10)
                              subway_data analytics;;
  analytics <- set_if_present "station" "station_distribution" (counts_head 10)
                              subway_data analytics;;
  analytics <- set_if_present "entry_count" "total_entries" (number (sum pd))
                              subway_data analytics;;
  set_if_present "entry_count" "avg_entries_per_station" (number (mean pd))
                 subway_data analytics.

Definition _analyze_bikeshare_data (bikeshare_data : frame)
    : result (list (string * value)) :=
  let analytics := [] in
  if empty bikeshare_data then Ok analytics else
  analytics <- set_if_present "start_hour" "hourly_distribution" counts_sort_index
                              bikeshare_data analytics;;
  analytics <- set_if_present "start_day" "daily_distribution" counts
                              bikeshare_data analytics;;
  analytics <- set_if_present "start_station_name" "popular_start_stations" (counts_head 10)
                              bikeshare_data analytics;;
  analytics <- set_if_present "end_station_name" "popular_end_stations" (counts_head 10)
                              bikeshare_data analytics;;
  analytics <- set_if_present "trip_duration" "avg_trip_duration" (number (mean pd))
                              bikeshare_data analytics;;
  analytics <- set_if_present "trip_duration" "median_trip_duration" (number (median pd))
                              bikeshare_data analytics;;
  set_if_present "user_type" "user_type_distribution" counts bikeshare_data analytics.

(** [_analyze_cross_modal_data] on [self.processed_data['taxi']] and
    [self.processed_data['bikeshare']]. *)
Definition _analyze_cross_modal_data (taxi : list (string * frame)) (bikeshare : frame)
    : result (list (string * value)) :=
  let analytics := [] in
  let temporal_comparison := [] in
  temporal_comparison <-
    match taxi with
    | [] => Ok temporal_comparison
    | _ :: _ =>
        all_taxi <- concat (map snd taxi);;
        if negb (empty all_taxi)
        then set_if_present "pickup_hour" "taxi" counts_sort_index all_taxi
                            temporal_comparison
        else Ok temporal_comparison
    end;;
  temporal_comparison <-
    (if negb (empty bikeshare)
     then set_if_present "start_hour" "bikeshare" counts_sort_index bikeshare
                         temporal_comparison
     else Ok temporal_comparison);;
  Ok (dict_set "temporal_comparison" (Nested temporal_comparison) analytics).

(** [generate_analytics]: the analytics dict it returns; the four tables
    are what it stores in [self.processed_data]. *)
Definition generate_analytics (read_sql : query -> result frame)
    (get_table_info : string -> string -> list (string * string * string * option string))
    (lib : Library) : result (list (string * value)) :=
  let analytics := [] in
  let taxi_data := process_taxi_data read_sql lib in
  let subway_data := process_subway_data read_sql get_table_info in
  let bikeshare_data := process_bikeshare_data read_sql lib in
  analytics <-
    match taxi_data with
    | [] => Ok analytics
    | _ :: _ =>
        taxi <- _analyze_taxi_data taxi_data;;
        Ok (dict_set "taxi" (Nested taxi) analytics)
    end;;
  analytics <-
    (if negb (empty subway_data)
     then subway <- _analyze_subway_data subway_data;;
          Ok (dict_set "subway" (Nested subway) analytics)
     else Ok analytics);;
  analytics <-
    (if negb (empty bikeshare_data)
     then bikeshare <- _analyze_bikeshare_data bikeshare_data;;
          Ok (dict_set "bikeshare" (Nested bikeshare) analytics)
     else Ok analytics);;
  cross_modal <- _analyze_cross_modal_data taxi_data bikeshare_data;;
  Ok (dict_set "cross_modal" (Nested cross_modal) analytics).

End Statistics.

End Pipeline.

(** ** [save_analytics]: the conversion of numpy values for [json.dump] *)

Module SaveAnalytics.

(** A numpy scalar: of an integer type, of a floating type, [np.bool_] or
    [np.str_]. *)
Inductive npscalar : Set :=
| np_integer (z : Z)
| np_floating (x : float)
| np_bool (b : bool)
| np_str (s : string).

(** Python objects as far as [convert_numpy_types] and [tolist] tell them
    apart.  An array is given by its elements along its axes; an element
    of an array of dtype object is any object, an element of another dtype
    a numpy scalar.  An array without axis is [Elem x] or [Obj o]. *)
#[warnings="-register-all"]
Inductive pyobj : Set :=
| PyNone
| PyBool (b : bool)
| PyInt (z : Z)
| PyFloat (x : float)
| PyStr (s : string)
| PyList (l : list pyobj)
| PyTuple (l : list pyobj)
| PyDict (d : list (pyobj * pyobj))
| Np (x : npscalar)
| NpArray (a : ndarray)
| PyOther (repr : string)
with ndarray : Set :=
| Elem (x : npscalar)
| Obj (o : pyobj)
| Axis (l : list ndarray).

(** [x.item()]: the Python scalar of a numpy scalar. *)
Definition item (x : npscalar) : pyobj :=
  match x with
  | np_integer z => PyInt z
  | np_floating x => PyFloat x
  | np_bool b => PyBool b
  | np_str s => PyStr s
  end.

(** [a.tolist()]: nested lists of Python scalars; the elements of an array
    of dtype object are returned as they are. *)
Fixpoint tolist (a : ndarray) : pyobj :=
  match a with
  | Elem x => item x
  | Obj o => o
  | Axis l => PyList (map tolist l)
  end.

(** Lines 611-623. *)
Fixpoint convert_numpy_types (obj : pyobj) : pyobj :=
  match obj with
  | Np (np_integer z) => PyInt z
  | Np (np_floating x) => PyFloat x
  | NpArray a => tolist a
  | PyDict d => PyDict (map (fun '(key, value) => (key, convert_numpy_types value)) d)
  | PyList l => PyList (map convert_numpy_types l)
  | _ => obj
  end.

(** No numpy scalar and no array anywhere in the object. *)
Fixpoint numpy_free (o : pyobj) : bool :=
  match o with
  | Np _ | NpArray _ => false
  | PyList l | PyTuple l => forallb numpy_free l
  | PyDict d => forallb (fun '(k, v) => (numpy_free k && numpy_free v)%bool) d
  | _ => true
  end.

(** An array whose elements of dtype object hold no numpy object. *)
Fixpoint plain_array (a : ndarray) : bool :=
  match a with
  | Elem _ => true
  | Obj o => numpy_free o
  | Axis l => forallb plain_array l
  end.

(** The numpy objects of [o] are integer scalars, floating scalars and
    plain arrays, and they are items of lists and values of dicts, at any
    depth, not items of tuples or keys of dicts. *)
Fixpoint convertible (o : pyobj) : bool :=
  match o with
  | Np (np_integer _) | Np (np_floating _) => true
  | Np _ => false
  | NpArray a => plain_array a
  | PyList l => forallb convertible l
  | PyTuple l => forallb numpy_free l
  | PyDict d => forallb (fun '(k, v) => (numpy_free k && convertible v)%bool) d
  | _ => true
  end.

End SaveAnalytics.

(** ** America/New_York under the rules in force since 2007

    Daylight time runs from the second Sunday of March, 02:00 EST, to the
    first Sunday of November, 02:00 EDT. *)

Module NewYork.

Import Calendar.

Definition est : Z := -5 * ns_per_hour.
Definition edt : Z := -4 * ns_per_hour.

(** The day number of the [n]-th Sunday of month [m] of year [y]. *)
Definition nth_sunday (y m n : Z) : Z :=
  let first := days_from_civil y m 1 in
  first + (6 - weekday_of_days first) + 7 * (n - 1).

Definition dst_start (y : Z) : Z := nth_sunday y 3 2 * ns_per_day + 7 * ns_per_hour.
Definition dst_end (y : Z) : Z := nth_sunday y 11 1 * ns_per_day + 6 * ns_per_hour.

Definition year_of (u : Z) : Z :=
  let '(y, _, _) := civil_from_days (u / ns_per_day) in y.

(** The offset in force at a UTC instant. *)
Definition utcoffset (u : Z) : Z :=
  let y := year_of u in
  if ((dst_start y <=? u) && (u <? dst_end y))%bool then edt else est.

(** The offsets under which a wall-clock time exists. *)
Definition utcoffsets (w : Z) : list Z :=
  filter (fun off => utcoffset (w - off) =? off) [edt; est].

End NewYork.

(** ** The timestamp format 'YYYY-MM-DD HH:MM:SS' *)

Module IsoFormat.

Import Calendar.

Definition digit (c : ascii) : option Z :=
  let n := nat_of_ascii c in
  if (Nat.leb 48 n && Nat.leb n 57)%bool then Some (Z.of_nat n - 48) else None.

Fixpoint number (cs : list ascii) (acc : Z) : option Z :=
  match cs with
  | [] => Some acc
  | c :: cs' =>
      match digit c with
      | Some d => number cs' (10 * acc + d)
      | None => None
      end
  end.

Definition is_leap (y : Z) : bool :=
  ((y mod 4 =? 0) && (negb (y mod 100 =? 0) || (y mod 400 =? 0)))%bool.

Definition days_in_month (y m : Z) : Z :=
  match m with
  | 2 => if is_leap y then 29 else 28
  | 4 | 6 | 9 | 11 => 30
  | _ => 31
  end.

Definition wall_of_civil (y m d hh mi ss : Z) : option Z :=
  if ((1 <=? m) && (m <=? 12) && (1 <=? d) && (d <=? days_in_month y m)
      && (hh <? 24) && (mi <? 60) && (ss <? 60))%bool
  then Some (days_from_civil y m d * ns_per_day
             + ((hh * 60 + mi) * 60 + ss) * 1000000000)
  else None.

(** The wall-clock nanoseconds written 'YYYY-MM-DD HH:MM:SS'. *)
Definition wall (s : string) : option Z :=
  match list_ascii_of_string s with
  | [y1; y2; y3; y4; "-"%char; m1; m2; "-"%char; d1; d2; " "%char;
     h1; h2; ":"%char; i1; i2; ":"%char; s1; s2] =>
      match number [y1; y2; y3; y4] 0, number [m1; m2] 0, number [d1; d2] 0,
            number [h1; h2] 0, number [i1; i2] 0, number [s1; s2] 0 with
      | Some y, Some m, Some d, Some hh, Some mi, Some ss =>
          wall_of_civil y m d hh mi ss
      | _, _, _, _, _, _ => None
      end
  | _ => None
  end.

(** A text without zone parses to a tz-naive timestamp. *)
Definition parse (s : string) : option timestamp := option_map Naive (wall s).

End IsoFormat.

(** A [Library] for running the code on examples: it reads timestamps
    written 'YYYY-MM-DD HH:MM:SS', knows the CRS 'EPSG:4326' and the zones
    'UTC' and America/New_York (2007 rules), and parses no number. *)
Definition example_library : Library := {|
  py_float := fun _ => None;
  numeric_of_string := fun _ => None;
  datetime_of_string := IsoFormat.parse;
  datetime_of_number := fun _ => None;
  py_str := fun c => match c with CStr s => s | _ => "" end;
  pyproj_crs := fun s => if String.eqb s "EPSG:4326" then Some "EPSG:4326" else None;
  transformer := fun _ _ => None;
  nyc_utcoffsets := NewYork.utcoffsets;
  wall_clock := fun z u => if String.eqb z "UTC" then u else u + NewYork.utcoffset u
|}.

(** ** Predicates of the statements *)

(** The row [normalize_time_col] makes of a row it keeps: the parsed value,
    then its conversion [conv] to UTC. *)
Definition normalized (lib : Library) (conv : cell -> cell) (c : string) (r : row) : row :=
  setitem c (conv (to_datetime lib (get r c))) (setitem c (to_datetime lib (get r c)) r).

(** A value the normalizer cannot turn into a UTC timestamp: it does not
    parse, or it is tz-naive and exists under no or under two UTC offsets in
    America/New_York. *)
Definition unusable (lib : Library) (v : cell) : Prop :=
  to_datetime lib v = CNull
  \/ exists w, to_datetime lib v = CTime (Naive w)
               /\ forall off, nyc_utcoffsets lib w <> [off].

(** The timestamps a column parses to lie in one zone (or are all
    tz-naive). *)
Definition same_zone (lib : Library) (cs : list cell) : Prop :=
  exists z, forall v t, In v cs -> to_datetime lib v = CTime t -> tz_of t = z.

(** A binary64 value of sign [s] that is no NaN. *)
Definition signed (s : bool) (x : spec_float) : Prop :=
  x = S754_zero s \/ x = S754_infinity s \/ exists m e, x = S754_finite s m e.

(** [rs'] has no more rows than [rs], and distinct index labels stay
    distinct: what dropping rows does. *)
Definition only_drops (rs' rs : list row) : Prop :=
  (List.length rs' <= List.length rs)%nat
  /\ (NoDup (map label rs) -> NoDup (map label rs')).

(** Every row of [df'] stems from a row of [df] with the same index label
    and the same values outside the columns [touched]. *)
Definition stems (touched : list string) (df' df : frame) : Prop :=
  forall r', In r' (rows df') ->
    exists r, In r (rows df) /\ label r' = label r
              /\ forall c, ~ In c touched -> get r' c = get r c.

(** The columns [cs'] are the columns [cs], in their order, then perhaps
    more. *)
Definition extends (cs' cs : list string) : Prop := exists l, cs' = cs ++ l.

(** The ways to pick one record of each table of [others] that agrees with
    the record [l] on every key of [on]. *)
Fixpoint matches (on : list string) (l : row) (others : list frame) : list (list row) :=
  match others with
  | [] => [[]]
  | t :: ts =>
      flat_map (fun r => map (cons r) (matches on l ts)) (filter (key_match on l) (rows t))
  end.

(** A database answers a query that names its columns with a table of
    exactly these columns. *)
Definition answers (read_sql : Pipeline.query -> result frame) : Prop :=
  forall q df cols,
    read_sql q = Ok df -> Pipeline.select_list q = Some cols -> columns df = cols.

(** A float column: numbers and missing values. *)
Definition numeric_column (s : list cell) : Prop :=
  forall v, In v s -> v = CNull \/ exists x, v = CNum x.

(** pandas computes the statistics of a float column. *)
Definition computes_statistics (pd : Pipeline.Pandas) : Prop :=
  forall s,
    numeric_column s ->
    returns (Pipeline.value_counts_sort_index pd s) = true
    /\ returns (Pipeline.sum pd s) = true
    /\ returns (Pipeline.mean pd s) = true
    /\ returns (Pipeline.median pd s) = true.

(** ** Example tables *)

Module Examples.

Open Scope float_scope.

(** A plain table without geometry: no 'geometry' column and no
    latitude-like or longitude-like column. *)
Definition turnstiles : frame :=
  mkFrame ["station"; "entries"]
          [mkRow 0 [("station", CStr "Times Sq"); ("entries", CNum 1200)]]
          None None.

(** A taxi table without [pickup_datetime]. *)
Definition taxi_without_pickup : frame :=
  mkFrame ["passenger_count"; "dropoff_datetime"]
          [mkRow 0 [("passenger_count", CNum 1);
                    ("dropoff_datetime", CStr "2024-06-01 08:30:00")]]
          None None.

(** A bikeshare table without [LATITUDE]. *)
Definition bikeshare_without_latitude : frame :=
  mkFrame ["STATION_NAME"; "CITY"; "LONGITUDE"]
          [mkRow 0 [("STATION_NAME", CStr "W 52 St"); ("CITY", CStr "New York");
                    ("LONGITUDE", CNum (-73.98))]]
          None None.

(** One record outside the NYC bounding box, and the same table with one
    record inside it. *)
Definition outside_row : row :=
  mkRow 0 [("lat", CNum 41.5); ("lon", CNum (-73.9))].

Definition inside_row : row :=
  mkRow 1 [("lat", CNum 40.75); ("lon", CNum (-73.98))].

Definition outlier : frame := mkFrame ["lat"; "lon"] [outside_row] None None.

Definition outlier_and_inlier : frame :=
  mkFrame ["lat"; "lon"] [outside_row; inside_row] None None.

(** Two tables that share the point (-73.98, 40.75) and no time column. *)
Definition pickups : frame :=
  mkFrame ["lat"; "lon"; "fare"]
          [mkRow 0 [("lat", CNum 40.75); ("lon", CNum (-73.98)); ("fare", CNum 12.5)];
           mkRow 1 [("lat", CNum 40.70); ("lon", CNum (-74.00)); ("fare", CNum 8)]]
          None None.

Definition stations : frame :=
  mkFrame ["lat"; "lon"; "name"]
          [mkRow 0 [("lat", CNum 40.75); ("lon", CNum (-73.98)); ("name", CStr "W 52 St")]]
          None None.

(** A GeoDataFrame whose active geometry column is named 'geom'. *)
Definition zones : frame :=
  mkFrame ["zone"; "geom"]
          [mkRow 0 [("zone", CStr "Midtown"); ("geom", CGeom (Point (-73.98) 40.75))];
           mkRow 1 [("zone", CStr "SoHo"); ("geom", CGeom (Point (-74.00) 40.72))]]
          (Some "geom") (Some "EPSG:4326").

(** A bikeshare station whose YEAR is [None] (an object column), and one
    whose YEAR is NaN (a float column). *)
Definition station_year_none : frame :=
  mkFrame ["STATION_NAME"; "CITY"; "LATITUDE"; "LONGITUDE"; "YEAR"]
          [mkRow 0 [("STATION_NAME", CStr "W 52 St"); ("CITY", CStr "New York");
                    ("LATITUDE", CNum 40.76); ("LONGITUDE", CNum (-73.98));
                    ("YEAR", CNull)]]
          None None.

Definition station_year_nan : frame :=
  mkFrame ["STATION_NAME"; "CITY"; "LATITUDE"; "LONGITUDE"; "YEAR"]
          [mkRow 0 [("STATION_NAME", CStr "W 52 St"); ("CITY", CStr "New York");
                    ("LATITUDE", CNum 40.76); ("LONGITUDE", CNum (-73.98));
                    ("YEAR", CNum nan)];
           mkRow 1 [("STATION_NAME", CStr "Broadway"); ("CITY", CStr "New York");
                    ("LATITUDE", CNum 40.71); ("LONGITUDE", CNum (-74.01));
                    ("YEAR", CNum 2012)]]
          None None.

(** Three yellow-taxi trips: a plausible one, one of distance 0, and one
    without drop-off time. *)
Definition trips : frame :=
  mkFrame ["pickup_datetime"; "dropoff_datetime"; "passenger_count"; "trip_distance";
           "fare_amount"]
          [mkRow 0 [("pickup_datetime", CStr "2024-06-01 08:00:00");
                    ("dropoff_datetime", CStr "2024-06-01 08:30:00");
                    ("passenger_count", CNum 2); ("trip_distance", CNum 5);
                    ("fare_amount", CNum 21.5)];
           mkRow 1 [("pickup_datetime", CStr "2024-06-01 09:00:00");
                    ("dropoff_datetime", CStr "2024-06-01 09:10:00");
                    ("passenger_count", CNum 1); ("trip_distance", CNum 0);
                    ("fare_amount", CNum 3)];
           mkRow 2 [("pickup_datetime", CStr "2024-06-01 10:00:00");
                    ("dropoff_datetime", CNull);
                    ("passenger_count", CNum 1); ("trip_distance", CNum 2);
                    ("fare_amount", CNum 9)]]
          None None.

(** A trip from 1700-01-01 to 1992-04-12: two timestamps that
    [datetime64[ns]] holds, 106752 days apart, which is more nanoseconds
    than an int64 holds. *)
Definition long_trip : frame :=
  mkFrame ["pickup_datetime"; "dropoff_datetime"]
          [mkRow 0 [("pickup_datetime", CStr "1700-01-01 00:00:00");
                    ("dropoff_datetime", CStr "1992-04-12 00:00:00")]]
          None None.

(** What the taxi sanitizer makes of [trips]: the first trip, with its
    duration, calendar features and speed. *)
Definition trip_cleaned : row :=
  mkRow 0 [("pickup_datetime", CTime (Naive 1717228800000000000));
           ("dropoff_datetime", CTime (Naive 1717230600000000000));
           ("passenger_count", CNum 2); ("trip_distance", CNum 5);
           ("fare_amount", CNum 21.5); ("trip_duration", CNum 30);
           ("pickup_hour", CNum 8); ("pickup_day", CStr "Saturday");
           ("pickup_month", CNum 6); ("pickup_weekday", CNum 5);
           ("avg_speed_mph", CNum 10)].

Definition trips_cleaned : frame :=
  mkFrame ["pickup_datetime"; "dropoff_datetime"; "passenger_count"; "trip_distance";
           "fare_amount"; "trip_duration"; "pickup_hour"; "pickup_day"; "pickup_month";
           "pickup_weekday"; "avg_speed_mph"]
          [trip_cleaned] None None.

(** Pickups with a usable local time, a time inside the fall-back overlap
    of 2024-11-03, a time inside the spring-forward gap of 2024-03-10, and
    text that is no date. *)
Definition pickup_times : frame :=
  mkFrame ["pickup_datetime"; "dropoff_datetime"]
          [mkRow 0 [("pickup_datetime", CStr "2024-06-01 08:00:00");
                    ("dropoff_datetime", CStr "2024-06-01 08:30:00")];
           mkRow 1 [("pickup_datetime", CStr "2024-11-03 01:30:00");
                    ("dropoff_datetime", CStr "2024-11-03 03:00:00")];
           mkRow 2 [("pickup_datetime", CStr "2024-03-10 02:30:00");
                    ("dropoff_datetime", CStr "2024-03-10 03:30:00")];
           mkRow 3 [("pickup_datetime", CStr "yesterday");
                    ("dropoff_datetime", CStr "2024-06-01 09:00:00")]]
          None None.

(** The scenario of the specification: one record with lat, lon and a
    tz-naive pickup time. *)
Definition scenario : frame :=
  mkFrame ["lat"; "lon"; "pickup_datetime"]
          [mkRow 0 [("lat", CNum 40.75); ("lon", CNum (-73.98));
                    ("pickup_datetime", CStr "2024-06-01 08:00:00")]]
          None None.

(** Stations with a missing latitude, a longitude written as text that
    [example_library] does not read, and usable coordinates. *)
Definition stops : frame :=
  mkFrame ["stop"; "lat"; "lon"]
          [mkRow 10 [("stop", CStr "A"); ("lat", CNum nan); ("lon", CNum (-73.98))];
           mkRow 11 [("stop", CStr "B"); ("lat", CNum 40.75); ("lon", CNum (-73.98))];
           mkRow 12 [("stop", CStr "C"); ("lat", CNum 40.70); ("lon", CNull)]]
          None None.

(** A GeoDataFrame in a projected CRS, and one without CRS. *)
Definition projected : frame :=
  mkFrame ["geometry"] [mkRow 0 [("geometry", CGeom (Point 583960 4507523))]]
          (Some "geometry") (Some "EPSG:32618").

Definition undeclared : frame :=
  mkFrame ["geometry"] [mkRow 0 [("geometry", CGeom (Point (-73.98) 40.75))]]
          (Some "geometry") None.

(** A for-hire-vehicle table as the FHV query returns it: the location
    columns are spelled [PUlocationID] and [DOlocationID]. *)
Definition fhv_trips : frame :=
  mkFrame ["pickup_datetime"; "dropoff_datetime"; "PUlocationID"; "DOlocationID"; "SR_Flag";
           "Affiliated_base_number"]
          [mkRow 0 [("pickup_datetime", CStr "2024-06-01 08:00:00");
                    ("dropoff_datetime", CStr "2024-06-01 08:30:00");
                    ("PUlocationID", CNum 132); ("DOlocationID", CNum 48);
                    ("SR_Flag", CNull); ("Affiliated_base_number", CStr "B00009")]]
          None None.

(** A database for running the pipeline: a yellow-taxi table with one
    plausible trip, a green-taxi table without rows, the for-hire-vehicle
    table [fhv_trips], a bikeshare table with one station, and a zone
    table. *)
Definition yellow_trips : frame :=
  mkFrame ["pickup_datetime"; "dropoff_datetime"; "passenger_count"; "trip_distance";
           "RatecodeID"; "PULocationID"; "DOLocationID"; "payment_type"; "fare_amount";
           "extra"; "mta_tax"; "tip_amount"; "tolls_amount"; "improvement_surcharge";
           "total_amount"; "congestion_surcharge"]
          [mkRow 0 [("pickup_datetime", CStr "2024-06-01 08:00:00");
                    ("dropoff_datetime", CStr "2024-06-01 08:30:00");
                    ("passenger_count", CNum 2); ("trip_distance", CNum 5);
                    ("RatecodeID", CNum 1); ("PULocationID", CNum 132);
                    ("DOLocationID", CNum 48); ("payment_type", CNum 1);
                    ("fare_amount", CNum 21.5); ("extra", CNum 0); ("mta_tax", CNum 0.5);
                    ("tip_amount", CNum 4); ("tolls_amount", CNum 0);
                    ("improvement_surcharge", CNum 1); ("total_amount", CNum 27);
                    ("congestion_surcharge", CNum 2.5)]]
          None None.

Definition green_trips : frame :=
  mkFrame ["pickup_datetime"; "dropoff_datetime"; "passenger_count"; "trip_distance";
           "RatecodeID"; "PULocationID"; "DOLocationID"; "payment_type"; "fare_amount";
           "extra"; "mta_tax"; "tip_amount"; "tolls_amount"; "improvement_surcharge";
           "total_amount"; "congestion_surcharge"]
          [] None None.

Definition bikeshare_stations : frame :=
  mkFrame ["STATION_NAME"; "ADDRESS"; "CITY"; "STATE"; "LATITUDE"; "LONGITUDE";
           "STATION_TYPE"; "SYSTEM_NAME"; "YEAR"; "ASOFDATE"]
          [mkRow 0 [("STATION_NAME", CStr "W 52 St"); ("ADDRESS", CStr "W 52 St & 11 Ave");
                    ("CITY", CStr "New York"); ("STATE", CStr "NY");
                    ("LATITUDE", CNum 40.76); ("LONGITUDE", CNum (-73.98));
                    ("STATION_TYPE", CStr "Dock"); ("SYSTEM_NAME", CStr "Citi Bike");
                    ("YEAR", CNum 2021); ("ASOFDATE", CStr "2024-06-01 00:00:00")]]
          None None.

Definition zone_lookup : frame :=
  mkFrame ["LocationID"; "Zone"]
          [mkRow 0 [("LocationID", CNum 132); ("Zone", CStr "JFK Airport")]]
          None None.

Definition subway_lines : frame :=
  mkFrame ["linename"; "station"; "entry_count"]
          [mkRow 0 [("linename", CStr "ACE"); ("station", CStr "34 ST-PENN STA");
                    ("entry_count", CNum 812)]]
          None None.

Definition database (q : Pipeline.query) : result frame :=
  match q with
  | Pipeline.yellow_query => Ok yellow_trips
  | Pipeline.green_query => Ok green_trips
  | Pipeline.fhv_query => Ok fhv_trips
  | Pipeline.bikeshare_query => Ok bikeshare_stations
  | Pipeline.zones_query => Ok zone_lookup
  | Pipeline.subway_lines_query _ => Ok subway_lines
  | Pipeline.subway_sample_query _ => Raise ValueError
  end.

(** The second subway table alone is known to INFORMATION_SCHEMA. *)
Definition table_info (schema table_name : string)
    : list (string * string * string * option string) :=
  if (String.eqb schema "dbo" && String.eqb table_name "mta_1706")%bool
  then [("linename", "varchar", "YES", None); ("station", "varchar", "YES", None)]
  else [].

(** A subway table without line names whose entry counts are stored as
    text, as [SELECT TOP 1000 *] returns it, and the database and
    INFORMATION_SCHEMA that hold it. *)
Definition subway_sample : frame :=
  mkFrame ["station"; "entry_count"]
          [mkRow 0 [("station", CStr "34 ST-PENN STA"); ("entry_count", CStr "812")]]
          None None.

Definition database_sample (q : Pipeline.query) : result frame :=
  match q with
  | Pipeline.subway_sample_query _ => Ok subway_sample
  | _ => database q
  end.

Definition table_info_sample (schema table_name : string)
    : list (string * string * string * option string) :=
  if (String.eqb schema "dbo" && String.eqb table_name "mta_1706")%bool
  then [("station", "varchar", "YES", None); ("entry_count", "varchar", "YES", None)]
  else [].

Definition is_number (v : cell) : bool :=
  match v with
  | CNull | CNum _ => true
  | _ => false
  end.

Definition is_text (v : cell) : bool :=
  match v with
  | CNull | CStr _ => true
  | _ => false
  end.

(** A [Pandas] for running the analyses on examples: it counts the
    values of a column in their order of appearance and sorts them when they
    are all numbers or all text, takes NaN for sum, mean and median of a
    column of numbers and raises [TypeError] on any other, rounds nothing
    and groups nothing. *)
Definition example_pandas : Pipeline.Pandas := {|
  Pipeline.value_counts := fun s => map (fun v => (v, 1%Z)) s;
  Pipeline.value_counts_sort_index :=
    fun s => if (forallb is_number s || forallb is_text s)%bool
             then Ok (map (fun v => (v, 1%Z)) s)
             else Raise TypeError;
  Pipeline.sum := fun s => if forallb is_number s then Ok nan else Raise TypeError;
  Pipeline.mean := fun s => if forallb is_number s then Ok nan else Raise TypeError;
  Pipeline.median := fun s => if forallb is_number s then Ok nan else Raise TypeError;
  Pipeline.roundable := fun _ => true;
  Pipeline.round3 := fun v => v;
  Pipeline.groupby_size := fun _ _ _ => [];
  Pipeline.sort_values_count := fun l => l
|}.

Close Scope float_scope.

End Examples.

(** * Properties *)

(** ** The error monad *)

Lemma bind_Ok {A B : Type} (m : result A) (k : A -> result B) (b : B) :
  bind m k = Ok b -> exists a, m = Ok a /\ k a = Ok b.
Proof.
  destruct m as [a|e]; simpl; intros H; [exists a; split; [reflexivity|exact H] | discriminate].
Qed.

Ltac inv_bind H :=
  let a := fresh "a" in
  let Ha := fresh "Ha" in
  apply bind_Ok in H; destruct H as [a [Ha H]].

Lemma mapM_Raise_in {A B : Type} (f : A -> result B) (pre post : list A) (x : A) (e : exn) :
  f x = Raise e -> returns (mapM f (pre ++ x :: post)) = false.
Proof.
  intros Hx. induction pre as [|y pre IH]; simpl.
  - rewrite Hx. reflexivity.
  - destruct (f y); simpl; [|reflexivity].
    destruct (mapM f (pre ++ x :: post)); simpl in *; [discriminate|reflexivity].
Qed.

Lemma mapM_Ok_map {A B : Type} (f : A -> result B) (g : A -> B) (xs : list A) :
  (forall x, In x xs -> f x = Ok (g x)) -> mapM f xs = Ok (map g xs).
Proof.
  induction xs as [|x xs IH]; simpl; intros H; [reflexivity|].
  rewrite (H x (or_introl eq_refl)). simpl. rewrite IH; [reflexivity|].
  intros y Hy. apply H. right. exact Hy.
Qed.

Lemma mapM_Ok_Forall2 {A B : Type} (f : A -> result B) (xs : list A) (ys : list B) :
  mapM f xs = Ok ys -> Forall2 (fun x y => f x = Ok y) xs ys.
Proof.
  revert ys. induction xs as [|x xs IH]; simpl; intros ys H.
  - injection H as <-. constructor.
  - inv_bind H. inv_bind H. injection H as <-. constructor; [assumption|]. apply IH. assumption.
Qed.

(** ** Binary64 comparisons and division *)

Open Scope float_scope.

Lemma SFcompare_refl (x : spec_float) : x <> S754_nan -> SFcompare x x = Some Eq.
Proof.
  destruct x as [s|s| |s m e]; intros H; simpl; try reflexivity.
  - destruct s; reflexivity.
  - contradiction.
  - rewrite Z.compare_refl. rewrite Pos.compare_cont_refl. destruct s; reflexivity.
Qed.

Lemma is_nan_Prim2SF (v : float) : is_nan v = true <-> Prim2SF v = S754_nan.
Proof.
  unfold is_nan. rewrite eqb_spec. unfold SFeqb. split.
  - intros H. destruct (Prim2SF v) eqn:E; try reflexivity;
      rewrite SFcompare_refl in H by discriminate; discriminate.
  - intros ->. reflexivity.
Qed.

Lemma leb_nan (c v : float) : is_nan v = true -> (c <=? v) = false.
Proof.
  intros H. apply is_nan_Prim2SF in H. rewrite leb_spec, H. unfold SFleb.
  destruct (Prim2SF c); reflexivity.
Qed.

Ltac cmp_cases :=
  repeat match goal with
         | |- context [Z.compare ?a ?b] => destruct (Z.compare_spec a b)
         | |- context [Pos.compare_cont Eq ?a ?b] =>
             rewrite (Pos.compare_cont_spec a b Eq); simpl Pos.switch_Eq;
             destruct (Pos.compare_spec a b)
         | H : context [Z.compare ?a ?b] |- _ => destruct (Z.compare_spec a b)
         | H : context [Pos.compare_cont Eq ?a ?b] |- _ =>
             rewrite (Pos.compare_cont_spec a b Eq) in H; simpl Pos.switch_Eq in H;
             destruct (Pos.compare_spec a b)
         end.

Lemma SFltb_not_leb (x y : spec_float) : SFltb x y = true -> SFleb y x = false.
Proof.
  unfold SFltb, SFleb.
  destruct x as [s|s| |s m e], y as [s'|s'| |s' m' e']; simpl;
    try destruct s; try destruct s'; try discriminate; try reflexivity;
    cmp_cases; simpl; intros; subst; try discriminate; try reflexivity; try lia.
Qed.

Lemma SFltb_leb_trans (x y z : spec_float) :
  SFltb x y = true -> SFleb y z = true -> SFltb x z = true.
Proof.
  unfold SFltb, SFleb.
  destruct x as [s|s| |s m e], y as [s'|s'| |s' m' e'], z as [s''|s''| |s'' m'' e'']; simpl;
    try destruct s; try destruct s'; try destruct s''; try discriminate; try reflexivity;
    cmp_cases; simpl; intros; subst; try discriminate; try reflexivity; try lia.
Qed.

Lemma below_2015 (v : float) :
  (v <? 2015) = true -> (2020 <=? v) = false /\ (2015 <=? v) = false.
Proof.
  intros H. rewrite ltb_spec in H. rewrite !leb_spec.
  pose proof (SFltb_not_leb _ _ H) as H1. split; [|exact H1].
  destruct (SFleb (Prim2SF 2020) (Prim2SF v)) eqn:E; [|reflexivity].
  assert (SFltb (Prim2SF 2015) (Prim2SF v) = true) as H2.
  { apply (SFltb_leb_trans _ (Prim2SF 2020)); [vm_compute; reflexivity|exact E]. }
  apply SFltb_not_leb in H2. 
  unfold SFltb in H. unfold SFleb in H2.
  destruct (SFcompare (Prim2SF v) (Prim2SF 2015)) as [[]|]; discriminate.
Qed.

Section RoundAux.
Variables prec emax : Z.

Lemma iter_pos_invariant {A : Type} (P : A -> Prop) (f : A -> A) :
  (forall x, P x -> P (f x)) -> forall n x, P x -> P (iter_pos f n x).
Proof.
  intros Hf. induction n as [n IH|n IH|]; intros x Hx; simpl.
  - apply IH, IH, Hf, Hx.
  - apply IH, IH, Hx.
  - apply Hf, Hx.
Qed.

Lemma shr_1_nonneg (mrs : shr_record) : (0 <= shr_m mrs)%Z -> (0 <= shr_m (shr_1 mrs))%Z.
Proof.
  destruct mrs as [m r s]. simpl. destruct m as [|p|p]; simpl; try lia.
  - destruct p; simpl; lia.
Qed.

Lemma shr_fexp_nonneg (m e : Z) (l : location) :
  (0 <= m)%Z -> (0 <= shr_m (fst (shr_fexp prec emax m e l)))%Z.
Proof.
  intros Hm. unfold shr_fexp, shr.
  assert (H0 : (0 <= shr_m (shr_record_of_loc m l))%Z).
  { destruct l as [|[]]; simpl; exact Hm. }
  destruct (fexp prec emax (Zdigits2 m + e) - e)%Z; simpl; try exact H0.
  apply (iter_pos_invariant (fun mrs => (0 <= shr_m mrs)%Z)); [apply shr_1_nonneg|exact H0].
Qed.

Lemma round_nearest_even_nonneg (m : Z) (l : location) :
  (0 <= m)%Z -> (0 <= round_nearest_even m l)%Z.
Proof.
  intros Hm. destruct l as [|[]]; simpl; try lia. destruct (Z.even m); lia.
Qed.

Lemma binary_round_aux_signed (s : bool) (m e : Z) (l : location) :
  (0 <= m)%Z -> signed s (binary_round_aux prec emax s m e l).
Proof.
  intros Hm. unfold binary_round_aux.
  pose proof (shr_fexp_nonneg m e l Hm) as H1.
  destruct (shr_fexp prec emax m e l) as [mrs' e']. simpl in H1.
  pose proof (shr_fexp_nonneg _ e' loc_Exact
                (round_nearest_even_nonneg _ (loc_of_shr_record mrs') H1)) as H2.
  destruct (shr_fexp prec emax (round_nearest_even (shr_m mrs') (loc_of_shr_record mrs')) e' loc_Exact)
    as [mrs'' e'']. simpl in H2.
  destruct (shr_m mrs'') as [|p|p].
  - left. reflexivity.
  - destruct (e'' <=? emax - prec)%Z; right; [right; eauto|left; reflexivity].
  - lia.
Qed.

Lemma SFdiv_finite_signed (sx sy : bool) (mx my : positive) (ex ey : Z) :
  signed (xorb sx sy) (SFdiv prec emax (S754_finite sx mx ex) (S754_finite sy my ey)).
Proof.
  unfold SFdiv, SFdiv_core_binary.
  set (m' := match (ex - ey - _)%Z with Z0 => Z.pos mx | Z.pos _ => _ | Z.neg _ => 0%Z end).
  assert (Hm' : (0 <= m')%Z).
  { subst m'. destruct (ex - ey - _)%Z; try lia. apply Z.shiftl_nonneg. lia. }
  pose proof (Z_div_mod m' (Z.pos my) (eq_refl : (Z.pos my ?= 0)%Z = Gt)) as Hd.
  destruct (Z.div_eucl m' (Z.pos my)) as [q r].
  apply binary_round_aux_signed. nia.
Qed.
End RoundAux.

Lemma positive_finite (x : float) (hi : float) :
  (0 <? x) = true -> (x <? hi) = true -> exists m e, Prim2SF x = S754_finite false m e.
Proof.
  rewrite !ltb_spec. change (Prim2SF 0) with (S754_zero false).
  unfold SFltb. destruct (Prim2SF x) as [s|s| |s m e]; simpl; try discriminate.
  - destruct s; [discriminate|]. intros _. destruct (Prim2SF hi) as [s'|s'| |s' m' e']; simpl; try discriminate.
    destruct s'; discriminate.
  - destruct s; [discriminate|]. intros _ _. eauto.
Qed.

Lemma speed_not_nan (d t : float) (hd ht : float) :
  (0 <? d) = true -> (d <? hd) = true -> (0 <? t) = true -> (t <? ht) = true ->
  is_nan (d / (t / 60)) = false.
Proof.
  intros Hd1 Hd2 Ht1 Ht2.
  destruct (positive_finite d hd Hd1 Hd2) as [md [ed Hd]].
  destruct (positive_finite t ht Ht1 Ht2) as [mt [et Ht]].
  destruct (is_nan (d / (t / 60))) eqn:E; [|reflexivity].
  apply is_nan_Prim2SF in E. rewrite div_spec, div_spec, Hd, Ht in E.
  let c := eval vm_compute in (Prim2SF 60) in change (Prim2SF 60) with c in E.
  unfold SF64div in E.
  match type of E with context [SFdiv prec emax (S754_finite false mt et) (S754_finite ?s ?m ?e)] =>
    destruct (SFdiv_finite_signed prec emax false s mt m et e) as [H|[H|[m' [e' H]]]] end;
    cbn [xorb] in H; rewrite H in E; try discriminate E.
  destruct (SFdiv_finite_signed prec emax false false md m' ed e') as [H'|[H'|[m'' [e'' H']]]];
    cbn [xorb] in H'; rewrite H' in E; discriminate E.
Qed.

Close Scope float_scope.

(** ** Rows and tables *)

Lemma mem_In (c : string) (cs : list string) : mem c cs = true <-> In c cs.
Proof.
  unfold mem. rewrite existsb_exists. split.
  - intros [x [Hx He]]. apply String.eqb_eq in He. subst. exact Hx.
  - intros H. exists c. split; [exact H|apply String.eqb_refl].
Qed.

Lemma assoc_update_same (c : string) (v : cell) (l : list (string * cell)) :
  assoc c (update c v l) = Some v.
Proof.
  induction l as [|[k w] l IH]; simpl.
  - rewrite String.eqb_refl. reflexivity.
  - destruct (String.eqb c k) eqn:E; simpl; rewrite E; [reflexivity|exact IH].
Qed.

Lemma assoc_update_other (c c' : string) (v : cell) (l : list (string * cell)) :
  c <> c' -> assoc c' (update c v l) = assoc c' l.
Proof.
  intros Hne. induction l as [|[k w] l IH]; simpl.
  - destruct (String.eqb c' c) eqn:E; [apply String.eqb_eq in E; congruence|reflexivity].
  - destruct (String.eqb c k) eqn:E; simpl.
    + apply String.eqb_eq in E. subst k.
      destruct (String.eqb c' c) eqn:E'; [apply String.eqb_eq in E'; congruence|reflexivity].
    + destruct (String.eqb c' k); [reflexivity|exact IH].
Qed.

Lemma get_setitem_same (c : string) (v : cell) (r : row) : get (setitem c v r) c = v.
Proof. unfold get, setitem. simpl. rewrite assoc_update_same. reflexivity. Qed.

Lemma get_setitem_other (c c' : string) (v : cell) (r : row) :
  c <> c' -> get (setitem c v r) c' = get r c'.
Proof. intros H. unfold get, setitem. simpl. rewrite assoc_update_other by exact H. reflexivity. Qed.

Lemma add_col_present (c : string) (cs : list string) : mem c cs = true -> add_col c cs = cs.
Proof. intros H. unfold add_col. rewrite H. reflexivity. Qed.

Lemma mem_add_col (c c' : string) (cs : list string) :
  mem c' (add_col c cs) = (mem c' cs || String.eqb c' c)%bool.
Proof.
  unfold add_col. destruct (mem c cs) eqn:E.
  - destruct (String.eqb c' c) eqn:E'; [|rewrite orb_false_r; reflexivity].
    apply String.eqb_eq in E'. subst. rewrite E. reflexivity.
  - unfold mem. rewrite existsb_app. simpl. rewrite orb_false_r. reflexivity.
Qed.

Lemma has_col_select (c : string) (p : row -> bool) (df : frame) :
  has_col c (select p df) = has_col c df.
Proof. reflexivity. Qed.

Lemma has_col_assign (c c' : string) (f : row -> cell) (df : frame) :
  has_col c' (assign c f df) = (has_col c' df || String.eqb c' c)%bool.
Proof. unfold has_col, assign. simpl. apply mem_add_col. Qed.

Lemma In_select (p : row -> bool) (df : frame) (r : row) :
  In r (rows (select p df)) <-> In r (rows df) /\ p r = true.
Proof. unfold select, with_rows. simpl. apply filter_In. Qed.

(** ** Tables without geometry *)

Import DataCleaning.

Lemma GeoDataFrame_without_geometry (df : frame) :
  has_col "geometry" df = false -> GeoDataFrame df = df.
Proof. intros H. unfold GeoDataFrame. rewrite H. reflexivity. Qed.

Lemma resolve_geometry_without_geometry (lib : Library) (df : frame) :
  has_col "geometry" df = false ->
  lat_cols df = [] \/ lon_cols df = [] ->
  resolve_geometry lib df = Ok df.
Proof.
  intros Hg Hll. unfold resolve_geometry. rewrite Hg. simpl.
  rewrite (GeoDataFrame_without_geometry df Hg).
  destruct Hll as [H|H]; rewrite H; [reflexivity|].
  destruct (lat_cols df); reflexivity.
Qed.

Lemma clean_without_geometry (lib : Library) (crs_target : string) (time_cols : list string)
    (df : frame) :
  has_col "geometry" df = false ->
  lat_cols df = [] \/ lon_cols df = [] ->
  geometry_column_name df = None ->
  clean lib crs_target time_cols df = Raise AttributeError.
Proof.
  intros Hg Hll Hn. unfold clean.
  rewrite (resolve_geometry_without_geometry lib df Hg Hll). simpl.
  unfold normalize_crs, get_crs, active_geometry. rewrite Hn. reflexivity.
Qed.

(** C1.  A plain table without geometry (no 'geometry' column, no
    latitude-like / longitude-like column pair, no active geometry) does not
    pass through the bounding-box stage unchanged: cleaning it raises
    [AttributeError] ([gdf.crs] / [gdf.geometry] on a frame without an active
    geometry column), and so does every call of [clean_and_merge_data] whose
    list of tables contains it. *)
Theorem geometry_less_table_raises (lib : Library) (crs_target : string)
    (time_cols : list string) (df : frame) :
  has_col "geometry" df = false ->
  lat_cols df = [] \/ lon_cols df = [] ->
  geometry_column_name df = None ->
  clean lib crs_target time_cols df = Raise AttributeError
  /\ forall pre post,
       returns (clean_and_merge_data lib (pre ++ df :: post) crs_target time_cols) = false.
Proof.
  intros Hg Hll Hn.
  pose proof (clean_without_geometry lib crs_target time_cols df Hg Hll Hn) as Hc.
  split; [exact Hc|].
  intros pre post. unfold clean_and_merge_data.
  pose proof (mapM_Raise_in (clean lib crs_target time_cols) pre post df _ Hc) as Hm.
  destruct (mapM (clean lib crs_target time_cols) (pre ++ df :: post)); [discriminate|reflexivity].
Qed.

Lemma geometry_less_table_raises_witness :
  clean example_library "EPSG:4326" [] Examples.turnstiles = Raise AttributeError
  /\ forall pre post,
       returns (clean_and_merge_data example_library (pre ++ Examples.turnstiles :: post)
                                     "EPSG:4326" []) = false.
Proof.
  apply (geometry_less_table_raises example_library "EPSG:4326" [] Examples.turnstiles).
  - reflexivity.
  - left. reflexivity.
  - reflexivity.
Defined.

(** ** The empty list of tables *)

Lemma merge_cols_nil (time_cols : list string) :
  merge_cols time_cols [] = time_cols ++ ["geometry"].
Proof.
  unfold merge_cols. simpl. f_equal.
  induction time_cols as [|c cs IH]; simpl; [reflexivity|]. rewrite IH. reflexivity.
Qed.

(** C2 (as amended).  On the empty list of tables [clean_and_merge_data]
    returns no table: every configured time column and 'geometry' are
    vacuously shared keys, so the join branch is taken, and
    [cleaned_dfs[0]] raises [IndexError]. *)
Theorem empty_input_raises (lib : Library) (crs_target : string) (time_cols : list string) :
  clean_and_merge_data lib [] crs_target time_cols = Raise IndexError.
Proof.
  unfold clean_and_merge_data. simpl. unfold merge_or_concat.
  rewrite merge_cols_nil. destruct time_cols; reflexivity.
Qed.

(** C2, as stated, fails: the empty input with the default arguments raises,
    and the concatenation of no table would raise as well. *)
Lemma empty_input_is_an_error :
  returns (clean_and_merge_data example_library [] "EPSG:4326" []) = false
  /\ returns (concat []) = false.
Proof. split; reflexivity. Qed.

(** C3.  When the first table carries no geometry, no table declaring a
    'geometry' column is returned: the call raises [AttributeError]; and the
    final [GeoDataFrame(merged, geometry='geometry')] itself raises
    [ValueError] on every merged table that has no 'geometry' column. *)
Theorem no_geometry_column_declared (lib : Library) (crs_target : string)
    (time_cols : list string) (df : frame) (rest : list frame) :
  has_col "geometry" df = false ->
  lat_cols df = [] \/ lon_cols df = [] ->
  geometry_column_name df = None ->
  clean_and_merge_data lib (df :: rest) crs_target time_cols = Raise AttributeError
  /\ forall merged, has_col "geometry" merged = false ->
                    GeoDataFrame_on_geometry merged = Raise ValueError.
Proof.
  intros Hg Hll Hn. split.
  - unfold clean_and_merge_data. simpl.
    rewrite (clean_without_geometry lib crs_target time_cols df Hg Hll Hn). reflexivity.
  - intros merged Hm. unfold GeoDataFrame_on_geometry. rewrite Hm. reflexivity.
Qed.

Lemma no_geometry_column_declared_witness :
  clean_and_merge_data example_library [Examples.turnstiles] "EPSG:4326" []
  = Raise AttributeError
  /\ forall merged, has_col "geometry" merged = false ->
                    GeoDataFrame_on_geometry merged = Raise ValueError.
Proof.
  apply (no_geometry_column_declared example_library "EPSG:4326" [] Examples.turnstiles []).
  - reflexivity.
  - left. reflexivity.
  - reflexivity.
Defined.

(** ** Columns through the sanitizers *)

Import TransportationETL.

Lemma columns_assign_present (c : string) (f : row -> cell) (df : frame) :
  has_col c df = true -> columns (assign c f df) = columns df.
Proof. intros H. unfold assign. simpl. apply add_col_present. exact H. Qed.

Lemma columns_convert_present (f : cell -> cell) (cols : list string) (df : frame) :
  columns (convert_present f cols df) = columns df.
Proof.
  unfold convert_present. revert df.
  induction cols as [|c cols IH]; intros df; simpl; [reflexivity|].
  rewrite IH. destruct (has_col c df) eqn:E; [|reflexivity].
  apply columns_assign_present. exact E.
Qed.

Lemma columns_filter_passenger_count (df : frame) :
  columns (filter_passenger_count df) = columns df.
Proof. unfold filter_passenger_count. destruct (has_col _ df); reflexivity. Qed.

Lemma columns_filter_trip_distance (df : frame) :
  columns (filter_trip_distance df) = columns df.
Proof. unfold filter_trip_distance. destruct (has_col _ df); reflexivity. Qed.

Lemma columns_filter_fare_amount (df : frame) :
  columns (filter_fare_amount df) = columns df.
Proof. unfold filter_fare_amount. destruct (has_col _ df); reflexivity. Qed.

Lemma columns_convert_datetimes (lib : Library) (cols : list string) (df out : frame) :
  convert_datetimes lib cols df = Ok out -> columns out = columns df.
Proof.
  unfold convert_datetimes. revert df.
  induction cols as [|c cols IH]; intros df H; simpl in H.
  - injection H as <-. reflexivity.
  - inv_bind H. apply IH in H. rewrite H.
    destruct (has_col c df) eqn:E.
    + inv_bind Ha. injection Ha as <-. apply columns_assign_present. exact E.
    + injection Ha as <-. reflexivity.
Qed.

Lemma columns_numeric_taxi (lib : Library) (df : frame) :
  columns (numeric_taxi lib df) = columns df.
Proof.
  unfold numeric_taxi.
  rewrite columns_filter_fare_amount, columns_filter_trip_distance,
    columns_filter_passenger_count, columns_convert_present.
  reflexivity.
Qed.

Lemma has_col_columns (c : string) (df df' : frame) :
  columns df' = columns df -> has_col c df' = has_col c df.
Proof. unfold has_col. intros ->. reflexivity. Qed.

(** C4.  A non-empty table that lacks an expected column is not returned
    with the dependent derivation skipped: the taxi sanitizer raises on a
    table without [pickup_datetime] or [dropoff_datetime]
    ([dropna(subset=...)] is a [KeyError]), and the bikeshare sanitizer
    raises [KeyError] on a table without [LATITUDE] or [LONGITUDE]. *)
Theorem absent_column_aborts (lib : Library) (df : frame) :
  empty df = false ->
  (has_col "pickup_datetime" df = false \/ has_col "dropoff_datetime" df = false ->
   returns (_clean_taxi_data lib df) = false)
  /\ (has_col "LATITUDE" df = false \/ has_col "LONGITUDE" df = false ->
      _clean_bikeshare_data lib df = Raise KeyError).
Proof.
  intros Hne. split.
  - intros Hmiss. unfold _clean_taxi_data. rewrite Hne. cbv zeta.
    destruct (convert_datetimes lib ["pickup_datetime"; "dropoff_datetime"] (numeric_taxi lib df))
      as [typed|e] eqn:Hc; [|reflexivity].
    simpl. apply columns_convert_datetimes in Hc. rewrite columns_numeric_taxi in Hc.
    unfold dropna. simpl.
    rewrite (has_col_columns "pickup_datetime" df typed Hc).
    rewrite (has_col_columns "dropoff_datetime" df typed Hc).
    destruct Hmiss as [H|H]; rewrite H; simpl; [reflexivity|].
    destruct (has_col "pickup_datetime" df); reflexivity.
  - intros Hmiss. unfold _clean_bikeshare_data. rewrite Hne.
    unfold filter_coordinates.
    rewrite (has_col_columns "LATITUDE" df _ (eq_trans (columns_convert_present _ _ _)
                                                       (columns_convert_present _ _ _))).
    rewrite (has_col_columns "LONGITUDE" df _ (eq_trans (columns_convert_present _ _ _)
                                                        (columns_convert_present _ _ _))).
    destruct Hmiss as [H|H]; rewrite H; [reflexivity|].
    destruct (has_col "LATITUDE" df); reflexivity.
Qed.

Lemma absent_column_aborts_witness :
  returns (_clean_taxi_data example_library Examples.taxi_without_pickup) = false
  /\ _clean_bikeshare_data example_library Examples.bikeshare_without_latitude = Raise KeyError.
Proof.
  split.
  - apply (absent_column_aborts example_library Examples.taxi_without_pickup).
    + reflexivity.
    + left. reflexivity.
  - apply (absent_column_aborts example_library Examples.bikeshare_without_latitude).
    + reflexivity.
    + left. reflexivity.
Defined.

(** ** The bounding box *)

Open Scope float_scope.

Lemma plausible_point (g : string) (r : row) :
  plausible g r = true ->
  exists x y, get r g = CGeom (Point x y)
              /\ (40.4774 <=? y) = true /\ (y <=? 40.9176) = true
              /\ (-74.2591 <=? x) = true /\ (x <=? -73.7004) = true.
Proof.
  unfold plausible, point_xy. intros H.
  destruct (get r g) as [|v|s|t|[x y|]]; try discriminate.
  - destruct (PrimFloat.is_nan v); discriminate.
  - exists x, y. split; [reflexivity|].
    unfold in_nyc_bounds in H.
    apply andb_prop in H. destruct H as [H H4].
    apply andb_prop in H. destruct H as [H H3].
    apply andb_prop in H. destruct H as [H1 H2].
    repeat split; assumption.
Qed.

Lemma plausibility_filter_Ok (gdf out : frame) :
  plausibility_filter gdf = Ok out ->
  exists g, active_geometry gdf = Ok g /\ out = select (plausible g) gdf.
Proof.
  unfold plausibility_filter. intros H. inv_bind H. inv_bind H.
  injection H as <-. exists a. split; [assumption|reflexivity].
Qed.

Lemma resolve_geometry_from_columns (lib : Library) (df gdf : frame) (lat lon : string)
    (lats lons : list string) :
  has_col "geometry" df = false ->
  lat_cols df = lat :: lats ->
  lon_cols df = lon :: lons ->
  resolve_geometry lib df = Ok gdf ->
  geometry_column_name gdf = Some "geometry"
  /\ crs gdf = Some "EPSG:4326"%string
  /\ has_col "geometry" gdf = true
  /\ forall r, In r (rows gdf) ->
       exists x y, coordinate lib (get r lon) = Ok x /\ coordinate lib (get r lat) = Ok y
                   /\ get r "geometry" = CGeom (Point x y).
Proof.
  intros Hg Hlat Hlon H. unfold resolve_geometry in H.
  rewrite Hg, Hlat, Hlon in H. simpl in H.
  inv_bind H. inv_bind H. injection H as <-. simpl.
  split; [reflexivity|]. split; [reflexivity|]. split.
  - unfold has_col. simpl. rewrite mem_add_col. rewrite String.eqb_refl. apply orb_true_r.
  - assert (Hlat' : lat <> "geometry"%string).
    { intros ->. assert (In "geometry"%string (lat_cols df)) as Hin by (rewrite Hlat; left; reflexivity).
      unfold lat_cols in Hin. apply filter_In in Hin. destruct Hin as [Hin _].
      apply mem_In in Hin. unfold has_col in Hg. congruence. }
    assert (Hlon' : lon <> "geometry"%string).
    { intros ->. assert (In "geometry"%string (lon_cols df)) as Hin by (rewrite Hlon; left; reflexivity).
      unfold lon_cols in Hin. apply filter_In in Hin. destruct Hin as [Hin _].
      apply mem_In in Hin. unfold has_col in Hg. congruence. }
    apply mapM_Ok_Forall2 in Ha0.
    intros r Hr.
    assert (exists r0, with_point lib lat lon r0 = Ok r) as [r0 Hr0].
    { clear -Ha0 Hr. induction Ha0 as [|x y xs ys Hxy _ IH]; [contradiction|].
      destruct Hr as [<-|Hr]; [exists x; exact Hxy|apply IH; exact Hr]. }
    unfold with_point in Hr0. inv_bind Hr0. inv_bind Hr0. injection Hr0 as <-.
    exists a1, a2.
    rewrite !get_setitem_other by (intros E; symmetry in E; contradiction).
    rewrite get_setitem_same. repeat split; assumption.
Qed.

Lemma normalize_crs_same (lib : Library) (crs_target : string) (gdf : frame) (g : string) :
  active_geometry gdf = Ok g ->
  crs gdf = Some crs_target ->
  normalize_crs lib crs_target gdf = Ok gdf.
Proof.
  intros Ha Hc. unfold normalize_crs, get_crs. rewrite Ha. simpl. rewrite Hc. simpl.
  rewrite Ha. simpl. rewrite Hc. rewrite String.eqb_refl. reflexivity.
Qed.

(** C7.  The bounding-box stage returns on every frame whose active
    geometry holds points or missing values; every record it keeps is a
    point with latitude (y) in [40.4774, 40.9176] and longitude (x) in
    [-74.2591, -73.7004]; every record whose point lies outside is excluded.
    For a table whose geometry is built from its latitude and longitude
    columns and cleaned at the default CRS, these are the values of those
    columns.  The record lat=41.5, lon=-73.9 is excluded from the output of
    [clean_and_merge_data]. *)
Theorem plausibility_filter_bounds :
  (forall gdf g,
      active_geometry gdf = Ok g ->
      (forall r, In r (rows gdf) -> returns (point_xy (get r g)) = true) ->
      plausibility_filter gdf = Ok (select (plausible g) gdf))
  /\ (forall gdf out,
        plausibility_filter gdf = Ok out ->
        exists g, active_geometry gdf = Ok g
        /\ (forall r, In r (rows out) ->
               In r (rows gdf)
               /\ exists x y, get r g = CGeom (Point x y)
                   /\ (40.4774 <=? y) = true /\ (y <=? 40.9176) = true
                   /\ (-74.2591 <=? x) = true /\ (x <=? -73.7004) = true)
        /\ (forall r x y, In r (rows gdf) -> get r g = CGeom (Point x y) ->
               in_nyc_bounds (x, y) = false -> ~ In r (rows out)))
  /\ (forall lib df out lat lon lats lons,
        has_col "geometry" df = false ->
        lat_cols df = lat :: lats ->
        lon_cols df = lon :: lons ->
        clean lib "EPSG:4326" [] df = Ok out ->
        forall r, In r (rows out) ->
          exists x y, coordinate lib (get r lon) = Ok x /\ coordinate lib (get r lat) = Ok y
                      /\ get r "geometry" = CGeom (Point x y)
                      /\ (40.4774 <=? y) = true /\ (y <=? 40.9176) = true
                      /\ (-74.2591 <=? x) = true /\ (x <=? -73.7004) = true)
  /\ (exists out, clean_and_merge_data example_library [Examples.outlier] "EPSG:4326" [] = Ok out
                  /\ rows out = [])
  /\ (exists out, clean_and_merge_data example_library [Examples.outlier_and_inlier]
                                       "EPSG:4326" [] = Ok out
                  /\ map label (rows out) = [1%Z]
                  /\ map (fun r => get r "geometry") (rows out)
                     = [CGeom (Point (-73.98) 40.75)]).
Proof.
  split; [|split; [|split; [|split]]].
  - intros gdf g Ha Hp. unfold plausibility_filter. rewrite Ha. simpl.
    assert (exists ps, mapM point_xy (column g gdf) = Ok ps) as [ps Hps].
    { unfold column. induction (rows gdf) as [|r rs IH]; simpl; [eexists; reflexivity|].
      pose proof (Hp r (or_introl eq_refl)) as Hr.
      destruct (point_xy (get r g)); [|discriminate]. simpl.
      destruct IH as [ps' ->]; [intros r' Hr'; apply Hp; right; exact Hr'|].
      eexists; reflexivity. }
    rewrite Hps. reflexivity.
  - intros gdf out H. apply plausibility_filter_Ok in H. destruct H as [g [Ha ->]].
    exists g. split; [exact Ha|]. split.
    + intros r Hr. apply In_select in Hr. destruct Hr as [Hr Hp].
      split; [exact Hr|]. apply plausible_point. exact Hp.
    + intros r x y Hr Hg Hb Hin. apply In_select in Hin. destruct Hin as [_ Hp].
      unfold plausible in Hp. rewrite Hg in Hp.
      change (in_nyc_bounds (x, y) = true) in Hp. congruence.
  - intros lib df out lat lon lats lons Hg Hlat Hlon H r Hr.
    unfold clean in H. inv_bind H. inv_bind H. inv_bind H. simpl in H. injection H as <-.
    destruct (resolve_geometry_from_columns lib df a lat lon lats lons Hg Hlat Hlon Ha)
      as [Hn [Hc [Hh Hrows]]].
    assert (Hact : active_geometry a = Ok "geometry"%string).
    { unfold active_geometry. rewrite Hn, Hh. reflexivity. }
    rewrite (normalize_crs_same lib _ a _ Hact Hc) in Ha0. injection Ha0 as <-.
    apply plausibility_filter_Ok in Ha1. destruct Ha1 as [g [Hg' ->]].
    rewrite Hact in Hg'. injection Hg' as <-.
    apply In_select in Hr. destruct Hr as [Hr Hp].
    destruct (Hrows r Hr) as [x [y [Hx [Hy Hgeo]]]].
    apply plausible_point in Hp. destruct Hp as [x' [y' [Hgeo' Hb]]].
    rewrite Hgeo in Hgeo'. injection Hgeo' as <- <-.
    exists x, y. repeat split; try assumption; apply Hb.
  - eexists. split; reflexivity.
  - eexists. split; [reflexivity|]. split; reflexivity.
Qed.

Close Scope float_scope.

(** ** The merge engine *)

Lemma fields_relabel (n : Z) (rs : list row) : map fields (relabel n rs) = map fields rs.
Proof.
  revert n. induction rs as [|r rs IH]; intros n; simpl; [reflexivity|].
  rewrite IH. reflexivity.
Qed.

Lemma length_relabel (n : Z) (rs : list row) :
  List.length (relabel n rs) = List.length rs.
Proof.
  revert n. induction rs as [|r rs IH]; intros n; simpl; [reflexivity|].
  rewrite IH. reflexivity.
Qed.

Lemma merge_cols_spec (time_cols : list string) (cleaned : list frame) (c : string) :
  In c (merge_cols time_cols cleaned)
  <-> (In c time_cols /\ forall df, In df cleaned -> has_col c df = true)
      \/ (c = "geometry"%string /\ forall df, In df cleaned -> has_col "geometry" df = true).
Proof.
  unfold merge_cols. rewrite in_app_iff, filter_In, forallb_forall.
  split.
  - intros [H|H]; [left; exact H|right].
    destruct (forallb (has_col "geometry") cleaned) eqn:E; [|contradiction].
    destruct H as [<-|[]]. split; [reflexivity|].
    rewrite forallb_forall in E. exact E.
  - intros [H|[-> H]]; [left; exact H|right].
    rewrite <- forallb_forall in H. rewrite H. left. reflexivity.
Qed.

Lemma key_column_Ok (k : string) (df : frame) (u : unit) :
  key_column k df = Ok u -> has_col k df = true.
Proof.
  unfold key_column. intros H. apply mem_In. apply (count_occ_In string_dec).
  destruct (count_occ string_dec (columns df) k) as [|[|n]]; try discriminate; lia.
Qed.

Lemma Forall2_In_left {A B : Type} (R : A -> B -> Prop) (xs : list A) (ys : list B) (x : A) :
  Forall2 R xs ys -> In x xs -> exists y, In y ys /\ R x y.
Proof.
  intros H. induction H as [|x0 y0 xs ys HR H IH]; intros Hin; [contradiction|].
  destruct Hin as [->|Hin].
  - exists y0. split; [left; reflexivity|exact HR].
  - destruct (IH Hin) as [y [Hy Hxy]]. exists y. split; [right; exact Hy|exact Hxy].
Qed.

(** What a join that returns has checked and built. *)
Lemma merge_Ok (left right : frame) (on : list string) (out : frame) :
  merge left right on = Ok out ->
  (forall k, In k on -> has_col k left = true /\ has_col k right = true)
  /\ out = mkFrame
             (columns left
              ++ map (dup_name (columns left))
                     (filter (fun c => negb (mem c on)) (columns right)))
             (relabel 0
                (flat_map
                   (fun l => map (join_rows (columns left)
                                    (filter (fun c => negb (mem c on)) (columns right)) l)
                                 (filter (key_match on l) (rows right)))
                   (rows left)))
             (geometry_column_name left) (crs left).
Proof.
  unfold merge. intros H. inv_bind H.
  destruct (suffix_duplicates _ _); [discriminate|]. injection H as <-.
  split; [|reflexivity].
  apply mapM_Ok_Forall2 in Ha. intros k Hk.
  destruct (Forall2_In_left _ _ _ k Ha Hk) as [u [_ Hu]].
  inv_bind Hu. split; [exact (key_column_Ok _ _ _ Hu)|exact (key_column_Ok _ _ _ Ha0)].
Qed.

Lemma merge_rows (left right : frame) (on : list string) (out : frame) :
  merge left right on = Ok out ->
  map fields (rows out)
  = flat_map
      (fun l => map (fun r => fields (join_rows (columns left)
                                        (filter (fun c => negb (mem c on)) (columns right)) l r))
                    (filter (key_match on l) (rows right)))
      (rows left).
Proof.
  intros H. destruct (merge_Ok _ _ _ _ H) as [_ ->]. clear H.
  cbn [rows]. rewrite fields_relabel.
  induction (rows left) as [|l ls IH]; simpl; [reflexivity|].
  rewrite map_app, IH, map_map. reflexivity.
Qed.

Lemma concat_rows (dfs : list frame) (out : frame) :
  concat dfs = Ok out ->
  map fields (rows out)
  = flat_map (fun df => map (fun r => fields (reindex_row (union_cols dfs) df r)) (rows df)) dfs
  /\ List.length (rows out) = total_rows dfs.
Proof.
  unfold concat. destruct dfs as [|d ds] eqn:E; [discriminate|]. rewrite <- E.
  intros H. injection H as <-. simpl. rewrite fields_relabel, length_relabel.
  generalize (union_cols dfs) as cols. intros cols. clear E. split.
  - induction dfs as [|df dfs IH]; simpl; [reflexivity|].
    rewrite map_app, IH, map_map. reflexivity.
  - induction dfs as [|df dfs IH]; simpl; [reflexivity|].
    rewrite length_app, length_map, IH. reflexivity.
Qed.

(** Reading a row by position. *)
Lemma take_fst (c : string) (l : list (string * cell)) :
  fst (take c l) = match assoc c l with Some v => v | None => CNull end.
Proof.
  induction l as [|[k v] l IH]; simpl; [reflexivity|].
  destruct (String.eqb c k); [reflexivity|].
  destruct (take c l). simpl in *. exact IH.
Qed.

Lemma assoc_take_other (c c' : string) (l : list (string * cell)) :
  c <> c' -> assoc c' (snd (take c l)) = assoc c' l.
Proof.
  intros Hne. induction l as [|[k v] l IH]; simpl; [reflexivity|].
  destruct (String.eqb c k) eqn:E.
  - simpl. apply String.eqb_eq in E. subst k.
    destruct (String.eqb c' c) eqn:E'; [|reflexivity].
    apply String.eqb_eq in E'. congruence.
  - destruct (take c l) as [w l'']. simpl in *. rewrite IH. reflexivity.
Qed.

Lemma assoc_app (c : string) (l1 l2 : list (string * cell)) :
  assoc c (l1 ++ l2) = match assoc c l1 with Some v => Some v | None => assoc c l2 end.
Proof.
  induction l1 as [|[k v] l1 IH]; simpl; [reflexivity|].
  destruct (String.eqb c k); [reflexivity|exact IH].
Qed.

Lemma assoc_combine_values (f : string -> string) (c : string) (cs : list string)
    (l : list (string * cell)) :
  NoDup (map f cs) -> In c cs ->
  assoc (f c) (combine (map f cs) (values cs l))
  = Some (match assoc c l with Some v => v | None => CNull end).
Proof.
  revert l. induction cs as [|c0 cs IH]; intros l Hnd Hin; [contradiction|].
  simpl. destruct (take c0 l) as [v l'] eqn:Et. simpl.
  inversion Hnd as [|x xs Hx Hnd']; subst.
  destruct (String.eqb (f c) (f c0)) eqn:E.
  - apply String.eqb_eq in E. destruct Hin as [->|Hin].
    + rewrite <- (take_fst c l), Et. reflexivity.
    + exfalso. apply Hx. rewrite <- E. apply in_map. exact Hin.
  - destruct Hin as [->|Hin]; [rewrite String.eqb_refl in E; discriminate|].
    rewrite (IH l' Hnd' Hin).
    replace l' with (snd (take c0 l)) by (rewrite Et; reflexivity).
    rewrite assoc_take_other; [reflexivity|].
    intros ->. rewrite String.eqb_refl in E. discriminate.
Qed.

Lemma assoc_combine_first (c : string) (cs : list string) (l : list (string * cell)) :
  mem c cs = true ->
  assoc c (combine cs (values cs l))
  = Some (match assoc c l with Some v => v | None => CNull end).
Proof.
  revert l. induction cs as [|c0 cs IH]; intros l H; [discriminate|].
  simpl. destruct (take c0 l) as [v l'] eqn:Et. simpl.
  destruct (String.eqb c c0) eqn:E.
  - apply String.eqb_eq in E. subst c0. rewrite <- (take_fst c l), Et. reflexivity.
  - simpl in H. rewrite E in H. simpl in H. rewrite (IH l' H).
    replace l' with (snd (take c0 l)) by (rewrite Et; reflexivity).
    rewrite assoc_take_other; [reflexivity|].
    intros ->. rewrite String.eqb_refl in E. discriminate.
Qed.

Lemma assoc_combine_absent (c : string) (cs : list string) (vs : list cell) :
  mem c cs = false -> assoc c (combine cs vs) = None.
Proof.
  revert vs. induction cs as [|c0 cs IH]; intros vs H; [reflexivity|].
  destruct vs as [|v vs]; [reflexivity|]. simpl in *.
  apply orb_false_elim in H. destruct H as [E H]. rewrite E. apply IH. exact H.
Qed.

(** A joined record has the left record's values in the left table's
    columns. *)
Lemma get_join_rows_left (left_cols right_cols : list string) (l r : row) (c : string) :
  mem c left_cols = true -> get (join_rows left_cols right_cols l r) c = get l c.
Proof.
  intros H. unfold get, join_rows. simpl.
  rewrite assoc_app, (assoc_combine_first c left_cols (fields l) H). reflexivity.
Qed.

(** It has the right record's values in the right table's other columns,
    under the names the suffix gives them, when these names are new. *)
Lemma get_join_rows_right (left_cols right_cols : list string) (l r : row) (c : string) :
  NoDup (map (dup_name left_cols) right_cols) ->
  In c right_cols ->
  mem (dup_name left_cols c) left_cols = false ->
  get (join_rows left_cols right_cols l r) (dup_name left_cols c) = get r c.
Proof.
  intros Hnd Hin Hnew. unfold get, join_rows. simpl.
  rewrite assoc_app, (assoc_combine_absent _ left_cols _ Hnew).
  rewrite (assoc_combine_values (dup_name left_cols) c right_cols (fields r) Hnd Hin).
  reflexivity.
Qed.

Lemma key_match_ext (on : list string) (l l' r : row) :
  (forall k, In k on -> get l' k = get l k) -> key_match on l' r = key_match on l r.
Proof.
  intros H. unfold key_match. induction on as [|k on IH]; simpl; [reflexivity|].
  rewrite (H k (or_introl eq_refl)), IH; [reflexivity|].
  intros k' Hk'. apply H. right. exact Hk'.
Qed.

Lemma matches_ext (on : list string) (l l' : row) (others : list frame) :
  (forall k, In k on -> get l' k = get l k) -> matches on l' others = matches on l others.
Proof.
  intros H. induction others as [|t ts IH]; simpl; [reflexivity|].
  rewrite IH. rewrite (filter_ext _ _ (fun r => key_match_ext on l l' r H)). reflexivity.
Qed.

(** The tuples of [matches] are the choices of one agreeing record per
    table. *)
Lemma matches_spec (on : list string) (l : row) (others : list frame) (rs : list row) :
  In rs (matches on l others)
  <-> Forall2 (fun df r => In r (rows df) /\ key_match on l r = true) others rs.
Proof.
  revert rs. induction others as [|t ts IH]; intros rs; simpl.
  - split.
    + intros [<-|[]]. constructor.
    + intros H. inversion H. left. reflexivity.
  - rewrite in_flat_map. split.
    + intros [r [Hr Hin]]. apply filter_In in Hr. apply in_map_iff in Hin.
      destruct Hin as [rs' [<- Hrs']]. constructor; [exact Hr|]. apply IH. exact Hrs'.
    + intros H. inversion H as [|t' r ts' rs' Hr Hrest]; subst.
      exists r. split; [apply filter_In; exact Hr|].
      apply in_map. apply IH. exact Hrest.
Qed.

Lemma In_relabel (n : Z) (rs : list row) (r : row) :
  In r (relabel n rs) -> exists r', In r' rs /\ fields r = fields r'.
Proof.
  revert n. induction rs as [|r0 rs IH]; intros n; simpl; [contradiction|].
  intros [<-|H].
  - exists r0. split; [left; reflexivity|reflexivity].
  - destruct (IH _ H) as [r' [Hr' E]]. exists r'. split; [right; exact Hr'|exact E].
Qed.

Lemma flat_map_relabel {B : Type} (g : row -> list B) (n : Z) (rs : list row) :
  (forall r r', fields r = fields r' -> g r = g r') ->
  flat_map g (relabel n rs) = flat_map g rs.
Proof.
  intros Hg. revert n. induction rs as [|r rs IH]; intros n; simpl; [reflexivity|].
  rewrite IH. f_equal. apply Hg. reflexivity.
Qed.

Lemma get_fields (r r' : row) (c : string) : fields r = fields r' -> get r c = get r' c.
Proof. unfold get. intros ->. reflexivity. Qed.

Lemma length_flat_map_ext {A B C : Type} (f : A -> list B) (g : A -> list C) (xs : list A) :
  (forall x, In x xs -> List.length (f x) = List.length (g x)) ->
  List.length (flat_map f xs) = List.length (flat_map g xs).
Proof.
  induction xs as [|x xs IH]; intros H; simpl; [reflexivity|].
  rewrite !length_app, (H x (or_introl eq_refl)), IH; [reflexivity|].
  intros y Hy. apply H. right. exact Hy.
Qed.

Lemma flat_map_flat_map {A B C : Type} (f : A -> list B) (g : B -> list C) (xs : list A) :
  flat_map g (flat_map f xs) = flat_map (fun x => flat_map g (f x)) xs.
Proof.
  induction xs as [|x xs IH]; simpl; [reflexivity|].
  rewrite flat_map_app, IH. reflexivity.
Qed.

Lemma flat_map_map {A B C : Type} (f : A -> B) (g : B -> list C) (xs : list A) :
  flat_map g (map f xs) = flat_map (fun x => g (f x)) xs.
Proof.
  induction xs as [|x xs IH]; simpl; [reflexivity|]. rewrite IH. reflexivity.
Qed.

(** The sequential join, table after table: the columns of the first table
    stay, every record of the result carries the values of a record of the
    first table and stems from a choice of agreeing records, and there are
    as many records as such choices. *)
Lemma join_fold (on : list string) (others : list frame) (m out : frame) :
  foldM (fun merged other => merge merged other on) others m = Ok out ->
  (exists more, columns out = columns m ++ more)
  /\ (others <> [] -> forall k, In k on -> has_col k m = true)
  /\ List.length (rows out) = List.length (flat_map (fun l => matches on l others) (rows m))
  /\ forall r, In r (rows out) ->
       exists l rs, In l (rows m) /\ In rs (matches on l others)
                    /\ forall c, has_col c m = true -> get r c = get l c.
Proof.
  revert m. induction others as [|t ts IH]; intros m H; simpl in H.
  - injection H as <-. split; [exists []; symmetry; apply app_nil_r|].
    split; [intros Hne; contradiction|]. split.
    + simpl. induction (rows m) as [|l ls IHl]; simpl; [reflexivity|]. rewrite IHl. reflexivity.
    + intros r Hr. exists r, []. split; [exact Hr|]. split; [left; reflexivity|reflexivity].
  - inv_bind H. rename a into m'.
    destruct (merge_Ok _ _ _ _ Ha) as [Hkeys Em'].
    destruct (IH m' H) as [[more Hcols] [_ [Hlen Hrows]]].
    assert (Hpre : forall c, has_col c m = true -> has_col c m' = true).
    { intros c Hc. rewrite Em'. unfold has_col. simpl. unfold mem. rewrite existsb_app.
      unfold has_col, mem in Hc. rewrite Hc. reflexivity. }
    assert (Hkey : forall l r k, In k on ->
                     get (join_rows (columns m)
                            (filter (fun c => negb (mem c on)) (columns t)) l r) k
                     = get l k).
    { intros l r k Hk. apply get_join_rows_left. apply (Hkeys k Hk). }
    split; [|split; [|split]].
    + rewrite Hcols, Em'. simpl. rewrite <- app_assoc. eexists. reflexivity.
    + intros _ k Hk. apply (Hkeys k Hk).
    + rewrite Hlen, Em'. simpl rows.
      rewrite (flat_map_relabel (fun l => matches on l ts)).
      2:{ intros r r' E. apply matches_ext. intros k _. apply get_fields. exact E. }
      rewrite flat_map_flat_map. apply length_flat_map_ext. intros l Hl.
      rewrite flat_map_map. apply length_flat_map_ext. intros r Hr.
      rewrite length_map. f_equal. apply matches_ext. intros k Hk. apply Hkey. exact Hk.
    + intros r Hr. destruct (Hrows r Hr) as [l' [rs' [Hl' [Hrs' Hv]]]].
      rewrite Em' in Hl'. simpl rows in Hl'.
      apply In_relabel in Hl'. destruct Hl' as [l'' [Hl'' Ef]].
      apply in_flat_map in Hl''. destruct Hl'' as [l [Hl Hin]].
      apply in_map_iff in Hin. destruct Hin as [r0 [<- Hr0]].
      assert (Hg : forall c, has_col c m = true -> get l' c = get l c).
      { intros c Hc. rewrite (get_fields _ _ c Ef). apply get_join_rows_left. exact Hc. }
      exists l, (r0 :: rs'). split; [exact Hl|]. split.
      * rewrite (matches_ext on l l' ts) in Hrs'
          by (intros k Hk; apply Hg; apply (Hkeys k Hk)).
        apply in_flat_map. exists r0. split; [exact Hr0|]. apply in_map. exact Hrs'.
      * intros c Hc. rewrite (Hv c (Hpre c Hc)). apply Hg. exact Hc.
Qed.

(** The last line of [clean_and_merge_data] keeps records and columns. *)
Lemma clean_and_merge_data_Ok (lib : Library) (dfs : list frame) (crs_target : string)
    (time_cols : list string) (out : frame) :
  clean_and_merge_data lib dfs crs_target time_cols = Ok out ->
  exists cleaned merged,
    mapM (clean lib crs_target time_cols) dfs = Ok cleaned
    /\ merge_or_concat time_cols cleaned = Ok merged
    /\ rows out = rows merged /\ columns out = columns merged.
Proof.
  unfold clean_and_merge_data. intros H. inv_bind H. inv_bind H.
  exists a, a0. split; [exact Ha|]. split; [exact Ha0|].
  unfold GeoDataFrame_on_geometry in H.
  destruct (has_col "geometry" a0); [|discriminate].
  destruct (forallb _ (rows a0)); [|discriminate].
  injection H as <-. split; reflexivity.
Qed.

Lemma merge_or_concat_join (time_cols : list string) (first : frame) (others : list frame)
    (merged : frame) :
  merge_cols time_cols (first :: others) <> [] ->
  merge_or_concat time_cols (first :: others) = Ok merged ->
  foldM (fun m other => merge m other (merge_cols time_cols (first :: others))) others first
  = Ok merged.
Proof.
  intros Hne H. unfold merge_or_concat in H.
  destruct (merge_cols time_cols (first :: others)); [contradiction|exact H].
Qed.

Lemma length_duplicated_after (seen cs : list string) :
  List.length (duplicated_after seen cs) = List.length cs.
Proof.
  revert seen. induction cs as [|c cs IH]; intros seen; simpl; [reflexivity|].
  rewrite IH. reflexivity.
Qed.

Lemma duplicated_after_NoDup (seen cs : list string) :
  (forall b, In b (duplicated_after seen cs) -> b = false)
  <-> NoDup cs /\ forall c, In c cs -> ~ In c seen.
Proof.
  revert seen. induction cs as [|c cs IH]; intros seen; simpl.
  - split; [intros _; split; [constructor|intros c []]|intros _ b []].
  - split.
    + intros H.
      assert (Hc : mem c seen = false) by (apply H; left; reflexivity).
      assert (Hrest : NoDup cs /\ forall c', In c' cs -> ~ In c' (c :: seen)).
      { apply IH. intros b Hb. apply H. right. exact Hb. }
      destruct Hrest as [Hnd Hdis]. split.
      * constructor; [|exact Hnd]. intros Hin. apply (Hdis c Hin). left. reflexivity.
      * intros c' [<-|Hin] Hs.
        -- apply mem_In in Hs. congruence.
        -- apply (Hdis c' Hin). right. exact Hs.
    + intros [Hnd Hdis] b [<-|Hb].
      * destruct (mem c seen) eqn:E; [|reflexivity].
        apply mem_In in E. exfalso. apply (Hdis c); [left; reflexivity|exact E].
      * revert b Hb. apply IH. inversion Hnd as [|x xs Hx Hnd']; subst.
        split; [exact Hnd'|]. intros c' Hin [<-|Hs]; [contradiction|].
        apply (Hdis c'); [right; exact Hin|exact Hs].
Qed.

(** Where the right table does not repeat a name, a join that is let
    through gives its columns distinct names. *)
Lemma suffix_duplicates_NoDup (labels renamed : list string) :
  List.length renamed = List.length labels ->
  NoDup labels ->
  suffix_duplicates labels renamed = false ->
  NoDup renamed.
Proof.
  intros Hlen Hnd H.
  assert (Hl : forall b, In b (duplicated labels) -> b = false).
  { apply duplicated_after_NoDup. split; [exact Hnd|intros c _ []]. }
  assert (Hr : forall b, In b (duplicated renamed) -> b = false).
  { unfold suffix_duplicates in H.
    assert (Hlen' : List.length (duplicated renamed) = List.length (duplicated labels)).
    { unfold duplicated. rewrite !length_duplicated_after. exact Hlen. }
    revert Hl H Hlen'. generalize (duplicated labels) as ls, (duplicated renamed) as rs.
    intros ls rs. revert ls. induction rs as [|b rs IH]; intros ls Hl H Hlen' b' Hb';
      [contradiction|].
    destruct ls as [|b0 ls]; [discriminate Hlen'|].
    simpl in H. apply orb_false_elim in H. destruct H as [H1 H2].
    rewrite (Hl b0 (or_introl eq_refl)) in H1. simpl in H1. rewrite andb_true_r in H1.
    destruct Hb' as [<-|Hb']; [exact H1|].
    apply (IH ls); [intros x Hx; apply Hl; right; exact Hx|exact H2| |exact Hb'].
    simpl in Hlen'. lia. }
  apply (duplicated_after_NoDup [] renamed) in Hr. exact (proj1 Hr).
Qed.

(** C9.  The join keys of [clean_and_merge_data] are exactly the configured
    time columns that every cleaned table has, plus 'geometry' when every
    cleaned table has it.  When there is a key, the cleaned tables are
    joined from left to right, each join an inner join on the keys: every
    record of the result carries the values of a record of the first table
    and stems from a choice of one record per further table that agrees
    with it on every key, and the result has as many records as there are
    such choices.  For two tables, the records of the result are exactly the
    pairs of records that agree on every key, with the left record's values
    in the left table's columns and the right record's values in the right
    table's other columns.  When there is no key, the result is the
    concatenation of the cleaned tables, and its row count is the sum of
    theirs.  Two tables that share only 'geometry' are joined on it alone;
    a table with a 'geometry' column and one without are concatenated. *)
Theorem merge_engine (lib : Library) (dfs : list frame) (crs_target : string)
    (time_cols : list string) :
  (forall cleaned c,
      In c (merge_cols time_cols cleaned)
      <-> (In c time_cols /\ forall df, In df cleaned -> has_col c df = true)
          \/ (c = "geometry"%string
              /\ forall df, In df cleaned -> has_col "geometry" df = true))
  /\ (forall first others out,
        mapM (clean lib crs_target time_cols) dfs = Ok (first :: others) ->
        merge_cols time_cols (first :: others) <> [] ->
        clean_and_merge_data lib dfs crs_target time_cols = Ok out ->
        let on := merge_cols time_cols (first :: others) in
        List.length (rows out)
        = List.length (flat_map (fun l => matches on l others) (rows first))
        /\ (forall l rs,
              In rs (matches on l others)
              <-> Forall2 (fun df r => In r (rows df) /\ key_match on l r = true) others rs)
        /\ forall r, In r (rows out) ->
             exists l rs,
               In l (rows first)
               /\ Forall2 (fun df r' => In r' (rows df) /\ key_match on l r' = true) others rs
               /\ forall c, has_col c first = true -> get r c = get l c)
  /\ (forall a b out,
        mapM (clean lib crs_target time_cols) dfs = Ok [a; b] ->
        merge_cols time_cols [a; b] <> [] ->
        clean_and_merge_data lib dfs crs_target time_cols = Ok out ->
        let on := merge_cols time_cols [a; b] in
        let others := filter (fun c => negb (mem c on)) (columns b) in
        (forall fs,
            In fs (map fields (rows out))
            <-> exists l r, In l (rows a) /\ In r (rows b) /\ key_match on l r = true
                            /\ fs = fields (join_rows (columns a) others l r))
        /\ (forall l r c,
              has_col c a = true -> get (join_rows (columns a) others l r) c = get l c)
        /\ (forall l r c,
              NoDup (columns b) -> In c others ->
              has_col (dup_name (columns a) c) a = false ->
              get (join_rows (columns a) others l r) (dup_name (columns a) c) = get r c))
  /\ (forall cleaned,
        mapM (clean lib crs_target time_cols) dfs = Ok cleaned ->
        merge_cols time_cols cleaned = [] ->
        exists merged,
          merge_or_concat time_cols cleaned = Ok merged
          /\ map fields (rows merged)
             = flat_map (fun df => map (fun r => fields (reindex_row (union_cols cleaned) df r))
                                       (rows df))
                        cleaned
          /\ List.length (rows merged) = total_rows cleaned
          /\ forall out,
               clean_and_merge_data lib dfs crs_target time_cols = Ok out ->
               rows out = rows merged /\ columns out = columns merged)
  /\ (exists p s out,
        mapM (clean example_library "EPSG:4326" []) [Examples.pickups; Examples.stations]
        = Ok [p; s]
        /\ merge_cols [] [p; s] = ["geometry"%string]
        /\ clean_and_merge_data example_library [Examples.pickups; Examples.stations]
                                "EPSG:4326" [] = Ok out
        /\ columns out
           = ["lat"; "lon"; "fare"; "geometry"; "lat_dup"; "lon_dup"; "name"]%string
        /\ map (fun r => (get r "fare", get r "name")) (rows out)
           = [(CNum 12.5%float, CStr "W 52 St")])
  /\ (exists p z out,
        mapM (clean example_library "EPSG:4326" []) [Examples.pickups; Examples.zones]
        = Ok [p; z]
        /\ merge_cols [] [p; z] = []
        /\ clean_and_merge_data example_library [Examples.pickups; Examples.zones]
                                "EPSG:4326" [] = Ok out
        /\ List.length (rows out) = (List.length (rows p) + List.length (rows z))%nat
        /\ map (fun r => (get r "fare", get r "zone")) (rows out)
           = [(CNum 12.5%float, CNull); (CNum 8%float, CNull);
              (CNull, CStr "Midtown"); (CNull, CStr "SoHo")]).
Proof.
  split; [intros cleaned c; apply merge_cols_spec|].
  split.
  { intros first others out Hc Hne H on.
    destruct (clean_and_merge_data_Ok _ _ _ _ _ H) as [cleaned [merged [Hc' [Hm [Er _]]]]].
    rewrite Hc in Hc'. injection Hc' as <-.
    apply (merge_or_concat_join _ _ _ _ Hne) in Hm. fold on in Hm.
    destruct (join_fold on others first merged Hm) as [_ [_ [Hlen Hrows]]].
    rewrite Er. split; [exact Hlen|]. split; [intros l rs; apply matches_spec|].
    intros r Hr. destruct (Hrows r Hr) as [l [rs [Hl [Hrs Hv]]]].
    exists l, rs. split; [exact Hl|]. split; [apply matches_spec; exact Hrs|exact Hv]. }
  split.
  { intros a b out Hc Hne H on others.
    destruct (clean_and_merge_data_Ok _ _ _ _ _ H) as [cleaned [merged [Hc' [Hm [Er _]]]]].
    rewrite Hc in Hc'. injection Hc' as <-.
    apply (merge_or_concat_join _ _ _ _ Hne) in Hm. fold on in Hm.
    simpl in Hm. inv_bind Hm. injection Hm as ->. rename Ha into Hm.
    split; [|split].
    - intros fs. rewrite Er, (merge_rows a b on merged Hm). fold others.
      rewrite in_flat_map. split.
      + intros [l [Hl Hin]]. apply in_map_iff in Hin. destruct Hin as [r [<- Hr]].
        apply filter_In in Hr. destruct Hr as [Hr Hk].
        exists l, r. repeat split; assumption.
      + intros [l [r [Hl [Hr [Hk ->]]]]]. exists l. split; [exact Hl|].
        apply in_map_iff. exists r. split; [reflexivity|].
        apply filter_In. split; assumption.
    - intros l r c Hcol. apply get_join_rows_left. exact Hcol.
    - intros l r c Hnd Hin Hnew. apply get_join_rows_right; [|exact Hin|exact Hnew].
      apply (suffix_duplicates_NoDup others).
      + apply length_map.
      + apply NoDup_filter. exact Hnd.
      + unfold merge in Hm. inv_bind Hm. fold others in Hm.
        destruct (suffix_duplicates others _); [discriminate Hm|reflexivity]. }
  split.
  { intros cleaned Hc He. unfold merge_or_concat. rewrite He.
    destruct cleaned as [|d ds].
    - rewrite merge_cols_nil in He. destruct time_cols; discriminate.
    - destruct (concat (d :: ds)) as [merged|e] eqn:Hcat; [|discriminate].
      exists merged. split; [reflexivity|].
      destruct (concat_rows _ _ Hcat) as [Hf Hlen].
      split; [exact Hf|]. split; [exact Hlen|].
      intros out H.
      destruct (clean_and_merge_data_Ok _ _ _ _ _ H) as [cleaned [merged' [Hc' [Hm [Er Ecol]]]]].
      rewrite Hc in Hc'. injection Hc' as <-.
      unfold merge_or_concat in Hm. rewrite He, Hcat in Hm. injection Hm as <-.
      split; assumption. }
  split.
  - eexists. eexists. eexists.
    split; [reflexivity|]. split; [reflexivity|]. split; [reflexivity|].
    split; reflexivity.
  - eexists. eexists. eexists.
    split; [reflexivity|]. split; [reflexivity|]. split; [reflexivity|].
    split; reflexivity.
Qed.

(** ** The year bucket of the bikeshare sanitizer *)

Lemma mapM_In {A B : Type} (f : A -> result B) (xs : list A) (ys : list B) (y : B) :
  mapM f xs = Ok ys -> In y ys -> exists x, In x xs /\ f x = Ok y.
Proof.
  intros H. apply mapM_Ok_Forall2 in H.
  induction H as [|x y' xs ys Hxy _ IH]; intros Hy; [contradiction|].
  destruct Hy as [<-|Hy].
  - exists x. split; [left; reflexivity|exact Hxy].
  - destruct (IH Hy) as [x' [Hx' Hf]]. exists x'. split; [right; exact Hx'|exact Hf].
Qed.

Lemma assignM_Ok (c : string) (f : row -> result cell) (df out : frame) :
  assignM c f df = Ok out ->
  columns out = add_col c (columns df)
  /\ forall r, In r (rows out) ->
       exists r0 v, In r0 (rows df) /\ f r0 = Ok v /\ r = setitem c v r0.
Proof.
  unfold assignM. intros H. inv_bind H. injection H as <-. simpl.
  split; [reflexivity|]. intros r Hr.
  destruct (mapM_In _ _ _ _ Ha Hr) as [r0 [Hr0 Hf]].
  inv_bind Hf. injection Hf as <-. exists r0, a0. repeat split; assumption.
Qed.

Open Scope float_scope.

(** C10 (as amended).  In the bikeshare sanitizer a row whose YEAR is NaN,
    the missing value of a numeric column, is assigned the year category
    'Legacy', the bucket of the years before 2015, because both comparisons
    with NaN are false.  A YEAR that is [None] is not bucketed: the
    comparison raises [TypeError]. *)
Theorem nan_year_is_legacy (lib : Library) (df out : frame) (r : row) (v : float) :
  empty df = false ->
  has_col "YEAR" df = true ->
  _clean_bikeshare_data lib df = Ok out ->
  In r (rows out) ->
  get r "YEAR" = CNum v ->
  (PrimFloat.is_nan v = true -> get r "year_category" = CStr "Legacy")
  /\ ((v <? 2015) = true -> get r "year_category" = CStr "Legacy")
  /\ year_category CNull = Raise TypeError.
Proof.
  intros Hne Hy H Hr Hv.
  unfold _clean_bikeshare_data in H. rewrite Hne in H.
  assert (Hcc : columns (convert_present (to_numeric lib) ["LONGITUDE"]
                           (convert_present (to_numeric lib) ["LATITUDE"] df)) = columns df)
    by (rewrite !columns_convert_present; reflexivity).
  revert H Hcc. generalize (convert_present (to_numeric lib) ["LONGITUDE"]
                              (convert_present (to_numeric lib) ["LATITUDE"] df)).
  intros dfc H Hcc.
  inv_bind H. inv_bind H. inv_bind H.
  assert (Hcol : has_col "YEAR" a1 = true).
  { unfold add_station_location in Ha1. destruct (rows a0); [discriminate|].
    apply assignM_Ok in Ha1. destruct Ha1 as [Hc _].
    apply columns_convert_datetimes in Ha0.
    unfold filter_coordinates in Ha.
    destruct (has_col "LATITUDE" dfc); [|discriminate].
    destruct (has_col "LONGITUDE" dfc); [|discriminate].
    injection Ha as <-. unfold has_col. rewrite Hc, mem_add_col.
    rewrite Ha0. simpl columns. rewrite Hcc.
    unfold has_col in Hy. rewrite Hy. reflexivity. }
  unfold add_year_category in H. rewrite Hcol in H.
  apply assignM_Ok in H. destruct H as [_ H].
  destruct (H r Hr) as [r0 [c [_ [Hc ->]]]].
  rewrite get_setitem_other in Hv by discriminate. rewrite Hv in Hc.
  rewrite get_setitem_same. simpl in Hc. injection Hc as <-.
  split; [|split; [|reflexivity]].
  - intros Hn. rewrite !(leb_nan _ v Hn). reflexivity.
  - intros Hlt. destruct (below_2015 v Hlt) as [-> ->]. reflexivity.
Qed.

Lemma nan_year_is_legacy_witness :
  exists out r,
    _clean_bikeshare_data example_library Examples.station_year_nan = Ok out
    /\ In r (rows out)
    /\ get r "YEAR" = CNum nan
    /\ get r "year_category" = CStr "Legacy".
Proof.
  eexists. eexists.
  split; [reflexivity|]. split; [left; reflexivity|]. split; [reflexivity|].
  refine (proj1 (nan_year_is_legacy example_library Examples.station_year_nan _ _ nan
                   _ _ _ _ _) _);
    try reflexivity.
  left. reflexivity.
Defined.

(** C10, as stated, fails for a missing YEAR that is [None]: the sanitizer
    assigns no category and raises [TypeError]. *)
Lemma none_year_raises :
  isna (get (mkRow 0 [("STATION_NAME", CStr "W 52 St"); ("CITY", CStr "New York");
                      ("LATITUDE", CNum 40.76); ("LONGITUDE", CNum (-73.98));
                      ("YEAR", CNull)]) "YEAR") = true
  /\ _clean_bikeshare_data example_library Examples.station_year_none = Raise TypeError.
Proof. split; reflexivity. Qed.

Close Scope float_scope.

(** ** The taxi sanitizer *)

Lemma In_assign (c : string) (f : row -> cell) (df : frame) (r' : row) :
  In r' (rows (assign c f df)) -> exists r, In r (rows df) /\ r' = setitem c (f r) r.
Proof.
  unfold assign. simpl. intros H. apply in_map_iff in H.
  destruct H as [r [<- Hr]]. exists r. split; [exact Hr|reflexivity].
Qed.

Lemma has_col_assign_mono (c c' : string) (f : row -> cell) (df : frame) :
  has_col c' df = true -> has_col c' (assign c f df) = true.
Proof. intros H. rewrite has_col_assign, H. reflexivity. Qed.

Lemma In_copy_col (src dst : string) (df : frame) (r' : row) :
  In r' (rows (copy_col src dst df)) ->
  exists r, In r (rows df) /\ forall c, c <> dst -> get r' c = get r c.
Proof.
  unfold copy_col. destruct (has_col src df).
  - intros H. apply In_assign in H. destruct H as [r [Hr ->]].
    exists r. split; [exact Hr|]. intros c Hc.
    apply get_setitem_other. intros E. apply Hc. symmetry. exact E.
  - intros H. exists r'. split; [exact H|reflexivity].
Qed.

Lemma num_get (r r' : row) (c : string) : get r' c = get r c -> num r' c = num r c.
Proof. unfold num. intros ->. reflexivity. Qed.

Open Scope float_scope.

Lemma In_add_speed (df : frame) (r' : row) :
  In r' (rows (add_speed df)) ->
  exists r, In r (rows df)
            /\ (forall c, c <> "avg_speed_mph"%string -> get r' c = get r c)
            /\ (has_col "trip_distance" df = true -> has_col "trip_duration" df = true ->
                get r' "avg_speed_mph" = avg_speed r'
                /\ (num r' "avg_speed_mph" <? 100) = true).
Proof.
  unfold add_speed.
  destruct (has_col "trip_distance" df && has_col "trip_duration" df)%bool eqn:E.
  - intros H. apply In_select in H. destruct H as [H Hs].
    apply In_assign in H. destruct H as [r [Hr ->]].
    exists r. split; [exact Hr|]. split.
    + intros c Hc. apply get_setitem_other. intros E'. apply Hc. symmetry. exact E'.
    + intros _ _. split; [|exact Hs].
      rewrite get_setitem_same. unfold avg_speed, num.
      rewrite !get_setitem_other by discriminate. reflexivity.
  - intros H. exists r'. split; [exact H|]. split; [reflexivity|].
    intros H1 H2. rewrite H1, H2 in E. discriminate.
Qed.

Lemma In_filter_passenger_count (df : frame) (r : row) :
  In r (rows (filter_passenger_count df)) ->
  In r (rows df)
  /\ (has_col "passenger_count" df = true ->
      (0 <? num r "passenger_count") = true /\ (num r "passenger_count" <=? 10) = true).
Proof.
  unfold filter_passenger_count. destruct (has_col "passenger_count" df).
  - intros H. apply In_select in H. destruct H as [H H2].
    apply In_select in H. destruct H as [H H1]. auto.
  - intros H. split; [exact H|discriminate].
Qed.

Lemma In_filter_trip_distance (df : frame) (r : row) :
  In r (rows (filter_trip_distance df)) ->
  In r (rows df)
  /\ (has_col "trip_distance" df = true ->
      (0 <? num r "trip_distance") = true /\ (num r "trip_distance" <? 100) = true).
Proof.
  unfold filter_trip_distance. destruct (has_col "trip_distance" df).
  - intros H. apply In_select in H. destruct H as [H H2].
    apply In_select in H. destruct H as [H H1]. auto.
  - intros H. split; [exact H|discriminate].
Qed.

Lemma In_filter_fare_amount (df : frame) (r : row) :
  In r (rows (filter_fare_amount df)) ->
  In r (rows df)
  /\ (has_col "fare_amount" df = true ->
      (0 <? num r "fare_amount") = true /\ (num r "fare_amount" <? 1000) = true).
Proof.
  unfold filter_fare_amount. destruct (has_col "fare_amount" df).
  - intros H. apply In_select in H. destruct H as [H H2].
    apply In_select in H. destruct H as [H H1]. auto.
  - intros H. split; [exact H|discriminate].
Qed.

Lemma In_numeric_taxi (lib : Library) (df : frame) (r : row) :
  In r (rows (numeric_taxi lib df)) ->
  (has_col "passenger_count" df = true ->
   (0 <? num r "passenger_count") = true /\ (num r "passenger_count" <=? 10) = true)
  /\ (has_col "trip_distance" df = true ->
      (0 <? num r "trip_distance") = true /\ (num r "trip_distance" <? 100) = true)
  /\ (has_col "fare_amount" df = true ->
      (0 <? num r "fare_amount") = true /\ (num r "fare_amount" <? 1000) = true).
Proof.
  unfold numeric_taxi. intros H.
  apply In_filter_fare_amount in H. destruct H as [H Hf].
  apply In_filter_trip_distance in H. destruct H as [H Hd].
  apply In_filter_passenger_count in H. destruct H as [H Hp].
  unfold has_col in *.
  rewrite columns_filter_trip_distance, columns_filter_passenger_count,
    columns_convert_present in Hf.
  rewrite columns_filter_passenger_count, columns_convert_present in Hd.
  rewrite columns_convert_present in Hp.
  auto.
Qed.

Close Scope float_scope.

Lemma In_convert_datetimes (lib : Library) (cols : list string) (df out : frame) (r' : row) :
  convert_datetimes lib cols df = Ok out ->
  In r' (rows out) ->
  exists r, In r (rows df) /\ forall c, ~ In c cols -> get r' c = get r c.
Proof.
  unfold convert_datetimes. revert df.
  induction cols as [|col cols IH]; intros df H Hr; simpl in H.
  - injection H as <-. exists r'. split; [exact Hr|reflexivity].
  - inv_bind H. destruct (IH a H Hr) as [r1 [Hr1 Hg1]].
    destruct (has_col col df).
    + inv_bind Ha. injection Ha as <-.
      apply In_assign in Hr1. destruct Hr1 as [r [Hr0 ->]].
      exists r. split; [exact Hr0|]. intros c Hc.
      rewrite Hg1 by (intros Hin; apply Hc; right; exact Hin).
      apply get_setitem_other. intros E. apply Hc. left. exact E.
    + injection Ha as <-. exists r1. split; [exact Hr1|].
      intros c Hc. apply Hg1. intros Hin. apply Hc. right. exact Hin.
Qed.

Open Scope float_scope.

Lemma timedelta_Some (a b : cell) (d : Z) :
  timedelta a b = Ok (Some d) ->
  (- 2 ^ 63 < d < 2 ^ 63)%Z
  /\ exists s e,
       ((a = CTime (Naive s) /\ b = CTime (Naive e))
        \/ exists z z', a = CTime (Aware s z) /\ b = CTime (Aware e z'))
       /\ d = (e - s)%Z.
Proof.
  unfold timedelta. intros H.
  destruct a as [|v|s|[s|s z]|g]; try discriminate H;
    destruct b as [|v'|s'|[e|e z']|g']; try discriminate H;
    cbv zeta in H;
    destruct ((e - s <? - 2 ^ 63)%Z || (2 ^ 63 <=? e - s)%Z)%bool eqn:E1; try discriminate H;
    destruct (e - s =? - 2 ^ 63)%Z eqn:E2; try discriminate H;
    injection H as <-;
    apply orb_false_elim in E1; destruct E1 as [E1 E3];
    apply Z.ltb_ge in E1; apply Z.leb_gt in E3; apply Z.eqb_neq in E2;
    (split; [lia|]); exists s, e; (split; [|reflexivity]).
  - left. split; reflexivity.
  - right. exists z, z'. split; reflexivity.
Qed.

Lemma positive_duration (a b : cell) :
  (0 <? minutes_between a b) = true ->
  exists s e,
    ((a = CTime (Naive s) /\ b = CTime (Naive e))
     \/ exists z z', a = CTime (Aware s z) /\ b = CTime (Aware e z'))
    /\ minutes_between a b = float_of_Z (e - s) / 1e9 / 60.
Proof.
  unfold minutes_between. intros H.
  destruct (timedelta a b) as [[d|]|x] eqn:Et;
    try (vm_compute in H; discriminate H).
  destruct (timedelta_Some a b d Et) as [_ [s [e [Hk ->]]]].
  exists s, e. split; [exact Hk|reflexivity].
Qed.

Lemma has_col_add_time_features (lib : Library) (c : string) (df : frame) :
  has_col c df = true -> has_col c (add_time_features lib df) = true.
Proof.
  intros H. unfold add_time_features. cbv zeta.
  repeat apply has_col_assign_mono. exact H.
Qed.

Lemma In_add_time_features (lib : Library) (df : frame) (r' : row) :
  In r' (rows (add_time_features lib df)) ->
  exists r, In r (rows df)
            /\ forall c, ~ In c ["pickup_hour"; "pickup_day"; "pickup_month"; "pickup_weekday"]%string ->
                         get r' c = get r c.
Proof.
  unfold add_time_features. cbv zeta. intros H.
  apply In_assign in H. destruct H as [r3 [H ->]].
  apply In_assign in H. destruct H as [r2 [H ->]].
  apply In_assign in H. destruct H as [r1 [H ->]].
  apply In_assign in H. destruct H as [r0 [H ->]].
  exists r0. split; [exact H|]. intros c Hc.
  rewrite !get_setitem_other; [reflexivity| | | |];
    intros E; apply Hc; rewrite <- E; simpl; auto.
Qed.

(** C8.  Every row that survives the taxi sanitizer has, for each of the
    columns the table has, 0 < passenger_count <= 10, 0 < trip_distance < 100
    and 0 < fare_amount < 1000; it has a pickup and a drop-off timestamp of
    one kind, its trip_duration is their difference in minutes and lies in
    (0, 1440); with a trip_distance column its avg_speed_mph is
    trip_distance / (trip_duration / 60) and is below 100.  The duration is
    computed on the table from which the rows without pickup or drop-off
    timestamp have been dropped. *)
Theorem taxi_rows_in_range (lib : Library) (df out : frame) (r : row) :
  empty df = false ->
  _clean_taxi_data lib df = Ok out ->
  In r (rows out) ->
  (has_col "passenger_count" df = true ->
   (0 <? num r "passenger_count") = true /\ (num r "passenger_count" <=? 10) = true)
  /\ (has_col "trip_distance" df = true ->
      (0 <? num r "trip_distance") = true /\ (num r "trip_distance" <? 100) = true)
  /\ (has_col "fare_amount" df = true ->
      (0 <? num r "fare_amount") = true /\ (num r "fare_amount" <? 1000) = true)
  /\ (exists s e,
        ((get r "pickup_datetime" = CTime (Naive s)
          /\ get r "dropoff_datetime" = CTime (Naive e))
         \/ exists z z', get r "pickup_datetime" = CTime (Aware s z)
                         /\ get r "dropoff_datetime" = CTime (Aware e z'))
        /\ get r "trip_duration" = CNum (float_of_Z (e - s) / 1e9 / 60))
  /\ (0 <? num r "trip_duration") = true
  /\ (num r "trip_duration" <? 1440) = true
  /\ (has_col "trip_distance" df = true ->
      get r "avg_speed_mph" = CNum (num r "trip_distance" / (num r "trip_duration" / 60))
      /\ (num r "avg_speed_mph" <? 100) = true)
  /\ (exists typed dropped timed,
        convert_datetimes lib ["pickup_datetime"; "dropoff_datetime"]%string
                          (numeric_taxi lib df) = Ok typed
        /\ dropna ["pickup_datetime"; "dropoff_datetime"]%string typed = Ok dropped
        /\ (forall r4, In r4 (rows dropped) ->
              notna (get r4 "pickup_datetime") = true
              /\ notna (get r4 "dropoff_datetime") = true)
        /\ add_trip_duration typed dropped = Ok timed
        /\ exists r4, In r4 (rows dropped)
                      /\ get r "pickup_datetime" = get r4 "pickup_datetime"
                      /\ get r "dropoff_datetime" = get r4 "dropoff_datetime").
Proof.
  intros Hne H Hr.
  unfold _clean_taxi_data in H. rewrite Hne in H. cbv zeta in H.
  inv_bind H. inv_bind H. inv_bind H. injection H as <-.
  rename a into typed, a0 into dropped, a1 into timed.
  (* back through the stages *)
  apply In_copy_col in Hr. destruct Hr as [r13 [Hr Hg13]].
  apply In_copy_col in Hr. destruct Hr as [r12 [Hr Hg12]].
  apply In_add_speed in Hr. destruct Hr as [r11 [Hr [Hg11 Hspeed]]].
  apply In_add_time_features in Hr. destruct Hr as [r7 [Hr Hg7]].
  apply In_select in Hr. destruct Hr as [Hr Hlt].
  apply In_select in Hr. destruct Hr as [Hr Hpos].
  pose proof Ha1 as Htimed.
  unfold add_trip_duration in Ha1. inv_bind Ha1. inv_bind Ha1.
  destruct (Bool.eqb (is_some a) (is_some a0)); [|discriminate].
  inv_bind Ha1. injection Ha1 as <-.
  apply In_assign in Hr. destruct Hr as [r4 [Hr4 Er7]].
  pose proof Ha0 as Hdropped.
  unfold dropna in Ha0.
  destruct (forallb (fun c => has_col c typed) ["pickup_datetime"; "dropoff_datetime"]%string);
    [|discriminate].
  injection Ha0 as <-.
  pose proof Hr4 as Hr4'.
  apply In_select in Hr4. destruct Hr4 as [Hr4 Hnotna].
  destruct (In_convert_datetimes _ _ _ _ _ Ha Hr4) as [r3 [Hr3 Hg3]].
  apply In_numeric_taxi in Hr3. destruct Hr3 as [Hpc [Hdist Hfare]].
  (* the columns of the output row in terms of the earlier rows *)
  assert (Hout : forall c,
             ~ In c ["dropoff_zone"; "pickup_zone"; "avg_speed_mph"; "pickup_hour";
                     "pickup_day"; "pickup_month"; "pickup_weekday"]%string ->
             get r c = get r7 c).
  { intros c Hc.
    rewrite Hg13 by (intros E; apply Hc; rewrite E; simpl; auto).
    rewrite Hg12 by (intros E; apply Hc; rewrite E; simpl; auto).
    rewrite Hg11 by (intros E; apply Hc; rewrite E; simpl; auto).
    apply Hg7. intros Hin. apply Hc. simpl in Hin. simpl. intuition. }
  assert (Hin4 : forall c, c <> "trip_duration"%string ->
             ~ In c ["dropoff_zone"; "pickup_zone"; "avg_speed_mph"; "pickup_hour";
                     "pickup_day"; "pickup_month"; "pickup_weekday"]%string ->
             get r c = get r4 c).
  { intros c Hc1 Hc2. rewrite (Hout c Hc2), Er7.
    apply get_setitem_other. intros E. apply Hc1. symmetry. exact E. }
  assert (Hin3 : forall c,
             ~ In c ["pickup_datetime"; "dropoff_datetime"; "trip_duration";
                     "dropoff_zone"; "pickup_zone"; "avg_speed_mph"; "pickup_hour";
                     "pickup_day"; "pickup_month"; "pickup_weekday"]%string ->
             num r c = num r3 c).
  { intros c Hc. apply num_get. rewrite Hin4.
    - apply Hg3. intros Hin. apply Hc. simpl in Hin. simpl. intuition.
    - intros E. apply Hc. rewrite E. simpl. auto.
    - intros Hin. apply Hc. simpl in Hin. simpl. intuition. }
  assert (Hpick : get r "pickup_datetime" = get r4 "pickup_datetime").
  { apply Hin4; [discriminate|]. simpl. intros [E|[E|[E|[E|[E|[E|[E|[]]]]]]]]; discriminate E. }
  assert (Hdrop : get r "dropoff_datetime" = get r4 "dropoff_datetime").
  { apply Hin4; [discriminate|]. simpl. intros [E|[E|[E|[E|[E|[E|[E|[]]]]]]]]; discriminate E. }
  assert (Hdur : get r "trip_duration"
                 = CNum (minutes_between (get r "pickup_datetime") (get r "dropoff_datetime"))).
  { rewrite Hout by (simpl; intros [E|[E|[E|[E|[E|[E|[E|[]]]]]]]]; discriminate E).
    rewrite Er7, get_setitem_same, Hpick, Hdrop. reflexivity. }
  assert (Hnum7 : num r "trip_duration" = num r7 "trip_duration").
  { apply num_get. apply Hout. simpl. intros [E|[E|[E|[E|[E|[E|[E|[]]]]]]]]; discriminate E. }
  rewrite <- Hnum7 in Hpos, Hlt.
  assert (Hpos' : (0 <? minutes_between (get r "pickup_datetime") (get r "dropoff_datetime")) = true).
  { unfold num in Hpos. rewrite Hdur in Hpos. exact Hpos. }
  split.
  { intros Hc. rewrite Hin3; [apply Hpc; exact Hc|].
    simpl. intros [E|[E|[E|[E|[E|[E|[E|[E|[E|[E|[]]]]]]]]]]]; discriminate E. }
  split.
  { intros Hc. rewrite Hin3; [apply Hdist; exact Hc|].
    simpl. intros [E|[E|[E|[E|[E|[E|[E|[E|[E|[E|[]]]]]]]]]]]; discriminate E. }
  split.
  { intros Hc. rewrite Hin3; [apply Hfare; exact Hc|].
    simpl. intros [E|[E|[E|[E|[E|[E|[E|[E|[E|[E|[]]]]]]]]]]]; discriminate E. }
  split.
  { destruct (positive_duration _ _ Hpos') as [s [e [Hk Hm]]].
    exists s, e. split; [exact Hk|]. rewrite Hdur, Hm. reflexivity. }
  split; [exact Hpos|]. split; [exact Hlt|].
  split.
  { intros Hc.
    assert (Hd : (0 <? num r "trip_distance") = true /\ (num r "trip_distance" <? 100) = true).
    { rewrite Hin3; [apply Hdist; exact Hc|].
      simpl. intros [E|[E|[E|[E|[E|[E|[E|[E|[E|[E|[]]]]]]]]]]]; discriminate E. }
    destruct Hspeed as [Hs1 Hs2].
    - apply has_col_add_time_features. rewrite !has_col_select.
      apply has_col_assign_mono. rewrite has_col_select.
      unfold has_col. rewrite (columns_convert_datetimes _ _ _ _ Ha), columns_numeric_taxi.
      exact Hc.
    - apply has_col_add_time_features. rewrite !has_col_select.
      rewrite has_col_assign, String.eqb_refl. apply orb_true_r.
    - assert (Hg : forall c, c <> "dropoff_zone"%string -> c <> "pickup_zone"%string ->
                             get r c = get r12 c).
      { intros c H1 H2. rewrite Hg13 by exact H1. apply Hg12. exact H2. }
      assert (Ha12 : avg_speed r12 = avg_speed r).
      { unfold avg_speed, num. rewrite !Hg by discriminate. reflexivity. }
      assert (Hn12 : num r "avg_speed_mph" = num r12 "avg_speed_mph").
      { apply num_get. apply Hg; discriminate. }
      rewrite Hn12. split; [|exact Hs2].
      rewrite Hg by discriminate. rewrite Hs1, Ha12. unfold avg_speed.
      destruct Hd as [Hd1 Hd2].
      rewrite (speed_not_nan _ _ _ _ Hd1 Hd2 Hpos Hlt). reflexivity. }
  exists typed, (select (fun r => forallb (fun c => notna (get r c))
                                    ["pickup_datetime"; "dropoff_datetime"]%string) typed),
    (assign "trip_duration"
       (fun r => CNum (minutes_between (get r "pickup_datetime") (get r "dropoff_datetime")))
       (select (fun r => forallb (fun c => notna (get r c))
                           ["pickup_datetime"; "dropoff_datetime"]%string) typed)).
  split; [exact Ha|]. split; [exact Hdropped|]. split.
  { intros r' Hr'. apply In_select in Hr'. destruct Hr' as [_ Hn]. simpl in Hn.
    apply andb_prop in Hn. destruct Hn as [Hn1 Hn2].
    apply andb_prop in Hn2. destruct Hn2 as [Hn2 _]. split; assumption. }
  split; [exact Htimed|].
  exists r4. split; [exact Hr4'|]. split; assumption.
Qed.

Close Scope float_scope.

Open Scope float_scope.

Lemma taxi_rows_in_range_witness :
  _clean_taxi_data example_library Examples.trips = Ok Examples.trips_cleaned
  /\ In Examples.trip_cleaned (rows Examples.trips_cleaned)
  /\ get Examples.trip_cleaned "avg_speed_mph"
     = CNum (num Examples.trip_cleaned "trip_distance"
             / (num Examples.trip_cleaned "trip_duration" / 60))
  /\ (num Examples.trip_cleaned "avg_speed_mph" <? 100) = true.
Proof.
  assert (H : _clean_taxi_data example_library Examples.trips = Ok Examples.trips_cleaned)
    by (vm_compute; reflexivity).
  split; [exact H|]. split; [left; reflexivity|].
  apply (taxi_rows_in_range example_library Examples.trips Examples.trips_cleaned
           Examples.trip_cleaned).
  - reflexivity.
  - exact H.
  - left. reflexivity.
  - reflexivity.
Defined.

Close Scope float_scope.

(** ** The time normalizer *)

Lemma filter_map_comm {A B : Type} (f : A -> B) (p : B -> bool) (l : list A) :
  filter p (map f l) = map f (filter (fun x => p (f x)) l).
Proof.
  induction l as [|x l IH]; simpl; [reflexivity|].
  destruct (p (f x)); simpl; rewrite IH; reflexivity.
Qed.

Lemma label_normalized (lib : Library) (conv : cell -> cell) (c : string) (r : row) :
  label (normalized lib conv c r) = label r.
Proof. reflexivity. Qed.

Lemma get_normalized_same (lib : Library) (conv : cell -> cell) (c : string) (r : row) :
  get (normalized lib conv c r) c = conv (to_datetime lib (get r c)).
Proof. unfold normalized. apply get_setitem_same. Qed.

Lemma get_normalized_other (lib : Library) (conv : cell -> cell) (c c' : string) (r : row) :
  c <> c' -> get (normalized lib conv c r) c' = get r c'.
Proof. intros H. unfold normalized. rewrite !get_setitem_other by exact H. reflexivity. Qed.

Lemma utc_or_null (lib : Library) (conv : cell -> cell) (v : cell) :
  conv = localize_nyc_utc lib \/ conv = tz_convert_utc ->
  notna (conv v) = true -> exists u, conv v = CTime (Aware u "UTC").
Proof.
  intros [->| ->]; unfold localize_nyc_utc, tz_convert_utc.
  - destruct v as [|x|s|[w|u z]|g]; try discriminate.
    destruct (nyc_utcoffsets lib w) as [|off [|off' l]]; try discriminate.
    intros _. eauto.
  - destruct v as [|x|s|[w|u z]|g]; try discriminate. intros _. eauto.
Qed.

Lemma unusable_dropped (lib : Library) (conv : cell -> cell) (v : cell) :
  conv = localize_nyc_utc lib \/ conv = tz_convert_utc ->
  unusable lib v -> notna (conv (to_datetime lib v)) = false.
Proof.
  intros Hc [Hu|[w [Hu Hoff]]]; rewrite Hu.
  - destruct Hc as [->| ->]; reflexivity.
  - destruct Hc as [->| ->]; [|reflexivity].
    unfold localize_nyc_utc.
    destruct (nyc_utcoffsets lib w) as [|off [|off' l]]; try reflexivity.
    exfalso. apply (Hoff off). reflexivity.
Qed.

Lemma column_assign (c : string) (f : row -> cell) (df : frame) :
  column c (assign c f df) = map f (rows df).
Proof.
  unfold column, assign. simpl. rewrite map_map. apply map_ext.
  intros r. apply get_setitem_same.
Qed.

(** What one step of the normalizer returns. *)
Lemma normalize_time_col_Ok (lib : Library) (c : string) (g out : frame) :
  has_col c g = true ->
  normalize_time_col lib c g = Ok out ->
  exists conv,
    ((dt_tz (map (to_datetime lib) (column c g)) = Ok None /\ conv = localize_nyc_utc lib)
     \/ (exists z, dt_tz (map (to_datetime lib) (column c g)) = Ok (Some z)
                   /\ conv = tz_convert_utc))
    /\ columns out = columns g
    /\ rows out = map (normalized lib conv c)
                      (filter (fun r => notna (conv (to_datetime lib (get r c)))) (rows g)).
Proof.
  intros Hc H. unfold normalize_time_col in H.
  inv_bind H. rewrite column_assign in H. inv_bind H.
  assert (Hmap : map (fun r => to_datetime lib (get r c)) (rows g)
                 = map (to_datetime lib) (column c g)).
  { unfold column. rewrite map_map. reflexivity. }
  rewrite Hmap in Ha0.
  set (conv := match a0 with
               | None => localize_nyc_utc lib
               | Some _ => tz_convert_utc
               end).
  assert (Hstep : dropna [c]
                    (assign c (fun r => conv (get r c))
                       (assign c (fun r => to_datetime lib (get r c)) g)) = Ok out).
  { subst conv. destruct a0; exact H. }
  clear H. exists conv. split.
  { subst conv. destruct a0 as [z|]; [right; exists z|left]; split; auto. }
  unfold dropna in Hstep. simpl forallb in Hstep.
  rewrite !has_col_assign, Hc in Hstep. simpl in Hstep.
  injection Hstep as <-. simpl. split.
  - rewrite !add_col_present; [reflexivity|exact Hc|].
    rewrite add_col_present by exact Hc. exact Hc.
  - rewrite map_map. rewrite filter_map_comm.
    rewrite (filter_ext _ (fun r => notna (conv (to_datetime lib (get r c))))).
    + apply map_ext. intros r. unfold normalized. rewrite get_setitem_same. reflexivity.
    + intros r. rewrite !get_setitem_same. rewrite andb_true_r. reflexivity.
Qed.

Lemma In_timestamps (t : timestamp) (cs : list cell) :
  In t (timestamps cs) <-> In (CTime t) cs.
Proof.
  unfold timestamps. rewrite in_flat_map. split.
  - intros [c [Hc Ht]]. destruct c; try contradiction.
    destruct Ht as [<-|[]]. exact Hc.
  - intros H. exists (CTime t). split; [exact H|left; reflexivity].
Qed.

Lemma option_string_eqb_refl (z : option string) : option_string_eqb z z = true.
Proof. destruct z; simpl; [apply String.eqb_refl|reflexivity]. Qed.

Lemma same_zone_timestamps (lib : Library) (cs : list cell) (z : option string) :
  (forall v t, In v cs -> to_datetime lib v = CTime t -> tz_of t = z) ->
  forall t, In t (timestamps (map (to_datetime lib) cs)) -> tz_of t = z.
Proof.
  intros H t Ht. apply In_timestamps in Ht. apply in_map_iff in Ht.
  destruct Ht as [v [Hv Hin]]. exact (H v t Hin Hv).
Qed.

Lemma same_zone_returns (lib : Library) (cs : list cell) :
  same_zone lib cs ->
  to_datetime_column lib cs = Ok (map (to_datetime lib) cs)
  /\ exists z, dt_tz (map (to_datetime lib) cs) = Ok z.
Proof.
  intros [z Hz]. pose proof (same_zone_timestamps lib cs z Hz) as Hts. split.
  - unfold to_datetime_column.
    destruct (existsb is_naive (timestamps (map (to_datetime lib) cs))) eqn:E1;
      [|reflexivity].
    destruct (existsb (fun t => negb (is_naive t)) (timestamps (map (to_datetime lib) cs)))
      eqn:E2; [|reflexivity].
    exfalso.
    apply existsb_exists in E1. destruct E1 as [t1 [H1 N1]].
    apply existsb_exists in E2. destruct E2 as [t2 [H2 N2]].
    apply Hts in H1. apply Hts in H2.
    destruct t1, t2; simpl in *; congruence.
  - unfold dt_tz. destruct (timestamps (map (to_datetime lib) cs)) as [|t ts] eqn:E.
    + exists None. reflexivity.
    + exists (tz_of t).
      assert (Hall : forallb (fun u => option_string_eqb (tz_of t) (tz_of u)) ts = true).
      { apply forallb_forall. intros u Hu.
        rewrite (Hts t (or_introl eq_refl)), (Hts u (or_intror Hu)).
        apply option_string_eqb_refl. }
      rewrite Hall. reflexivity.
Qed.

Lemma normalize_time_col_total (lib : Library) (c : string) (g : frame) :
  has_col c g = true ->
  same_zone lib (column c g) ->
  exists out, normalize_time_col lib c g = Ok out.
Proof.
  intros Hc Hz. destruct (same_zone_returns lib _ Hz) as [H1 [z H2]].
  unfold normalize_time_col. rewrite H1. simpl.
  rewrite column_assign.
  replace (map (fun r => to_datetime lib (get r c)) (rows g))
    with (map (to_datetime lib) (column c g))
    by (unfold column; rewrite map_map; reflexivity).
  rewrite H2. simpl. unfold dropna. simpl forallb.
  destruct z; rewrite !has_col_assign, Hc; simpl; eexists; reflexivity.
Qed.

Lemma In_normalize_time_col (lib : Library) (c : string) (g out : frame) (r' : row) :
  has_col c g = true ->
  normalize_time_col lib c g = Ok out ->
  In r' (rows out) ->
  exists r u, In r (rows g) /\ label r' = label r
              /\ get r' c = CTime (Aware u "UTC")
              /\ forall c', c <> c' -> get r' c' = get r c'.
Proof.
  intros Hc H Hr. destruct (normalize_time_col_Ok lib c g out Hc H) as [conv [Hconv [_ Hrows]]].
  rewrite Hrows in Hr. apply in_map_iff in Hr. destruct Hr as [r [<- Hr]].
  apply filter_In in Hr. destruct Hr as [Hr Hn].
  assert (Hc' : conv = localize_nyc_utc lib \/ conv = tz_convert_utc)
    by (destruct Hconv as [[_ ->]|[z [_ ->]]]; auto).
  destruct (utc_or_null lib conv _ Hc' Hn) as [u Hu].
  exists r, u. split; [exact Hr|]. split; [reflexivity|]. split.
  - rewrite get_normalized_same. exact Hu.
  - intros c' Hne. apply get_normalized_other. exact Hne.
Qed.

(** Dropping rows keeps the index labels distinct. *)
Lemma labels_filter_NoDup (keep : row -> bool) (rs : list row) :
  NoDup (map label rs) -> NoDup (map label (filter keep rs)).
Proof.
  intros Hnd. induction rs as [|r rs IH]; simpl; [constructor|].
  simpl in Hnd. apply NoDup_cons_iff in Hnd. destruct Hnd as [Hnin Hnd].
  destruct (keep r); simpl; [|exact (IH Hnd)].
  constructor; [|exact (IH Hnd)].
  intros Hin. apply Hnin. apply in_map_iff in Hin. destruct Hin as [r' [El Hr']].
  apply filter_In in Hr'. rewrite <- El. apply in_map. apply Hr'.
Qed.

(** With distinct index labels a label names one row. *)
Lemma row_of_label (rs : list row) (r r' : row) :
  NoDup (map label rs) -> In r rs -> In r' rs -> label r = label r' -> r = r'.
Proof.
  intros Hnd. induction rs as [|r0 rs IH]; simpl; intros Hr Hr' El; [contradiction|].
  simpl in Hnd. apply NoDup_cons_iff in Hnd. destruct Hnd as [Hnin Hnd].
  destruct Hr as [->|Hr], Hr' as [->|Hr']; try reflexivity.
  - exfalso. apply Hnin. rewrite El. apply in_map. exact Hr'.
  - exfalso. apply Hnin. rewrite <- El. apply in_map. exact Hr.
  - exact (IH Hnd Hr Hr' El).
Qed.

Lemma labels_normalize_time_col (lib : Library) (c : string) (g out : frame) :
  has_col c g = true ->
  normalize_time_col lib c g = Ok out ->
  columns out = columns g
  /\ (forall l, In l (map label (rows out)) -> In l (map label (rows g)))
  /\ (NoDup (map label (rows g)) -> NoDup (map label (rows out)))
  /\ (NoDup (map label (rows g)) ->
      forall r, In r (rows g) -> unusable lib (get r c) ->
                ~ In (label r) (map label (rows out))).
Proof.
  intros Hc H. destruct (normalize_time_col_Ok lib c g out Hc H) as [conv [Hconv [Hcols Hrows]]].
  assert (Hc' : conv = localize_nyc_utc lib \/ conv = tz_convert_utc)
    by (destruct Hconv as [[_ ->]|[z [_ ->]]]; auto).
  assert (Hlab : map label (rows out)
                 = map label (filter (fun r => notna (conv (to_datetime lib (get r c))))
                                     (rows g))).
  { rewrite Hrows, map_map. reflexivity. }
  split; [exact Hcols|]. rewrite Hlab. split; [|split].
  - intros l Hl. apply in_map_iff in Hl. destruct Hl as [r [<- Hr]].
    apply filter_In in Hr. apply in_map. apply Hr.
  - apply labels_filter_NoDup.
  - intros Hnd r Hr Hu Hin. apply in_map_iff in Hin. destruct Hin as [r' [El Hr']].
    apply filter_In in Hr'. destruct Hr' as [Hr' Hn].
    assert (r' = r) by (apply (row_of_label (rows g)); assumption).
    subst r'. rewrite (unusable_dropped lib conv _ Hc' Hu) in Hn. discriminate.
Qed.

Lemma normalize_times_cons (lib : Library) (c : string) (cs : list string) (g : frame) :
  normalize_times lib (c :: cs) g
  = (g' <- (if has_col c g then normalize_time_col lib c g else Ok g);;
     normalize_times lib cs g').
Proof. reflexivity. Qed.

Lemma normalize_times_app (lib : Library) (pre post : list string) (g : frame) :
  normalize_times lib (pre ++ post) g
  = (g' <- normalize_times lib pre g;; normalize_times lib post g').
Proof.
  revert g. induction pre as [|c pre IH]; intros g; [reflexivity|].
  rewrite <- app_comm_cons, !normalize_times_cons.
  destruct (if has_col c g then normalize_time_col lib c g else Ok g); simpl;
    [apply IH|reflexivity].
Qed.

Lemma labels_normalize_times (lib : Library) (cs : list string) (g out : frame) :
  normalize_times lib cs g = Ok out ->
  columns out = columns g
  /\ (forall l, In l (map label (rows out)) -> In l (map label (rows g)))
  /\ (NoDup (map label (rows g)) -> NoDup (map label (rows out))).
Proof.
  revert g. induction cs as [|c cs IH]; intros g H.
  - injection H as <-. auto.
  - rewrite normalize_times_cons in H. inv_bind H.
    destruct (IH a H) as [Hc [Hl Hn]].
    destruct (has_col c g) eqn:E.
    + destruct (labels_normalize_time_col lib c g a E Ha) as [Hc' [Hl' [Hn' _]]].
      split; [congruence|]. split; auto.
    + injection Ha as <-. auto.
Qed.

Lemma same_zone_normalize_time_col (lib : Library) (c c' : string) (g out : frame) :
  has_col c g = true ->
  normalize_time_col lib c g = Ok out ->
  (c' <> c -> same_zone lib (column c' g)) ->
  same_zone lib (column c' out).
Proof.
  intros Hc H Hz. destruct (String.eqb c' c) eqn:E.
  - apply String.eqb_eq in E. subst c'. exists (Some "UTC"%string).
    intros v t Hv Ht. unfold column in Hv. apply in_map_iff in Hv.
    destruct Hv as [r' [<- Hr']].
    destruct (In_normalize_time_col lib c g out r' Hc H Hr') as [r [u [_ [_ [Hu _]]]]].
    rewrite Hu in Ht. simpl in Ht. injection Ht as <-. reflexivity.
  - apply String.eqb_neq in E. destruct (Hz E) as [z Hzz]. exists z.
    intros v t Hv Ht. unfold column in Hv. apply in_map_iff in Hv.
    destruct Hv as [r' [<- Hr']].
    destruct (In_normalize_time_col lib c g out r' Hc H Hr') as [r [u [Hr [_ [_ Ho]]]]].
    rewrite Ho in Ht by (intros E'; apply E; symmetry; exact E').
    apply (Hzz (get r c') t); [|exact Ht].
    unfold column. apply (in_map (fun r0 => get r0 c')). exact Hr.
Qed.

Lemma normalize_times_total (lib : Library) (cs : list string) (g : frame) :
  (forall c, In c cs -> has_col c g = true -> same_zone lib (column c g)) ->
  exists out, normalize_times lib cs g = Ok out.
Proof.
  revert g. induction cs as [|c cs IH]; intros g Hz.
  - exists g. reflexivity.
  - rewrite normalize_times_cons. destruct (has_col c g) eqn:E.
    + destruct (normalize_time_col_total lib c g E (Hz c (or_introl eq_refl) E)) as [g' Hg'].
      rewrite Hg'. simpl. apply IH. intros c' Hc' Hcol.
      apply (same_zone_normalize_time_col lib c c' g g' E Hg').
      intros _. apply Hz; [right; exact Hc'|].
      destruct (labels_normalize_time_col lib c g g' E Hg') as [Hcols _].
      unfold has_col in *. rewrite <- Hcols. exact Hcol.
    + simpl. apply IH. intros c' Hc' Hcol. apply Hz; [right; exact Hc'|exact Hcol].
Qed.

(** C5.  Let the configured time columns of a table each parse to
    timestamps of one zone (or to tz-naive timestamps), and let its index
    labels be distinct.  Then the time normalizer returns; and for each
    configured column [c] of the table, with [g1] the table on which [c] is
    normalized and [g2] the table the later columns are normalized on: every
    record of [g1] whose value at [c] does not parse, or is tz-naive and
    ambiguous or non-existent in America/New_York, is absent from [g2], and
    so from the result. *)
Theorem time_normalizer_excludes (lib : Library) (time_cols : list string) (gdf : frame) :
  NoDup (map label (rows gdf)) ->
  (forall c, In c time_cols -> has_col c gdf = true -> same_zone lib (column c gdf)) ->
  exists out,
    normalize_times lib time_cols gdf = Ok out
    /\ forall pre c post,
         time_cols = pre ++ c :: post ->
         has_col c gdf = true ->
         exists g1 g2,
           normalize_times lib pre gdf = Ok g1
           /\ normalize_time_col lib c g1 = Ok g2
           /\ normalize_times lib post g2 = Ok out
           /\ forall r, In r (rows g1) -> unusable lib (get r c) ->
                        ~ In (label r) (map label (rows g2))
                        /\ ~ In (label r) (map label (rows out)).
Proof.
  intros Hnd Hz. destruct (normalize_times_total lib time_cols gdf Hz) as [out Hout].
  exists out. split; [exact Hout|].
  intros pre c post -> Hc.
  rewrite normalize_times_app in Hout. inv_bind Hout. rename a into g1.
  rewrite normalize_times_cons in Hout. inv_bind Hout. rename a into g2.
  destruct (labels_normalize_times lib pre gdf g1 Ha) as [Hcols1 [_ Hnd1]].
  assert (Hc1 : has_col c g1 = true) by (unfold has_col in *; rewrite Hcols1; exact Hc).
  rewrite Hc1 in Ha0.
  exists g1, g2. split; [exact Ha|]. split; [exact Ha0|]. split; [exact Hout|].
  intros r Hr Hu.
  destruct (labels_normalize_time_col lib c g1 g2 Hc1 Ha0) as [_ [_ [_ Hex]]].
  pose proof (Hex (Hnd1 Hnd) r Hr Hu) as Hnot.
  split; [exact Hnot|].
  intros Hin. apply Hnot.
  destruct (labels_normalize_times lib post g2 out Hout) as [_ [Hsub _]].
  apply Hsub. exact Hin.
Qed.

Lemma same_zone_naive_strings (cs : list cell) :
  (forall v, In v cs -> exists s, v = CStr s) -> same_zone example_library cs.
Proof.
  intros H. exists None. intros v t Hv Ht. destruct (H v Hv) as [s ->].
  simpl in Ht. unfold IsoFormat.parse in Ht.
  destruct (IsoFormat.wall s); [|discriminate Ht].
  injection Ht as <-. reflexivity.
Qed.

Lemma time_normalizer_excludes_witness :
  unusable example_library (CStr "2024-11-03 01:30:00")
  /\ unusable example_library (CStr "2024-03-10 02:30:00")
  /\ unusable example_library (CStr "yesterday")
  /\ (exists out,
        normalize_times example_library ["pickup_datetime"; "dropoff_datetime"]%string
                        Examples.pickup_times = Ok out
        /\ map label (rows out) = [0%Z])
  /\ exists out,
       normalize_times example_library ["pickup_datetime"; "dropoff_datetime"]%string
                       Examples.pickup_times = Ok out
       /\ forall pre c post,
            ["pickup_datetime"; "dropoff_datetime"]%string = pre ++ c :: post ->
            has_col c Examples.pickup_times = true ->
            exists g1 g2,
              normalize_times example_library pre Examples.pickup_times = Ok g1
              /\ normalize_time_col example_library c g1 = Ok g2
              /\ normalize_times example_library post g2 = Ok out
              /\ forall r, In r (rows g1) -> unusable example_library (get r c) ->
                           ~ In (label r) (map label (rows g2))
                           /\ ~ In (label r) (map label (rows out)).
Proof.
  split; [|split; [|split; [|split]]].
  - right. eexists. split; [reflexivity|]. intros off H. vm_compute in H. discriminate H.
  - right. eexists. split; [reflexivity|]. intros off H. vm_compute in H. discriminate H.
  - left. reflexivity.
  - eexists. split; [vm_compute; reflexivity|reflexivity].
  - apply (time_normalizer_excludes example_library
             ["pickup_datetime"; "dropoff_datetime"]%string Examples.pickup_times).
    + simpl. repeat constructor; simpl; intuition discriminate.
    + intros c Hc _. apply same_zone_naive_strings.
      destruct Hc as [<-|[<-|[]]]; intros v Hv; simpl in Hv;
        destruct Hv as [<-|[<-|[<-|[<-|[]]]]]; eexists; reflexivity.
Defined.

(** ** UTC timestamps *)

Lemma utc_normalize_times (lib : Library) (cs : list string) (g out : frame) (r' : row) :
  normalize_times lib cs g = Ok out ->
  In r' (rows out) ->
  exists r, In r (rows g) /\ label r' = label r
            /\ (forall c, In c cs -> has_col c g = true ->
                          exists u, get r' c = CTime (Aware u "UTC"))
            /\ (forall c, ~ In c cs -> get r' c = get r c).
Proof.
  revert g. induction cs as [|c cs IH]; intros g H Hr'.
  - injection H as <-. exists r'. split; [exact Hr'|]. split; [reflexivity|].
    split; [intros c []|reflexivity].
  - rewrite normalize_times_cons in H. inv_bind H. rename a into g2.
    destruct (IH g2 H Hr') as [r2 [Hr2 [Hl2 [Hutc2 Hsame2]]]].
    destruct (has_col c g) eqn:E.
    + destruct (In_normalize_time_col lib c g g2 r2 E Ha Hr2) as [r [u [Hr [Hl [Hu Ho]]]]].
      destruct (labels_normalize_time_col lib c g g2 E Ha) as [Hcols _].
      exists r. split; [exact Hr|]. split; [congruence|]. split.
      * intros c0 Hc0 Hcol.
        destruct (in_dec string_dec c0 cs) as [Hin|Hnin].
        -- apply Hutc2; [exact Hin|]. unfold has_col in *. rewrite Hcols. exact Hcol.
        -- destruct Hc0 as [<-|Hc0]; [|contradiction].
           exists u. rewrite Hsame2 by exact Hnin. exact Hu.
      * intros c0 Hc0. rewrite Hsame2 by (intros Hin; apply Hc0; right; exact Hin).
        apply Ho. intros E'. apply Hc0. left. exact E'.
    + injection Ha as <-. exists r2. split; [exact Hr2|]. split; [exact Hl2|]. split.
      * intros c0 Hc0 Hcol. destruct Hc0 as [<-|Hc0]; [congruence|].
        apply Hutc2; assumption.
      * intros c0 Hc0. apply Hsame2. intros Hin. apply Hc0. right. exact Hin.
Qed.

Lemma naive_column_converted (lib : Library) (c : string) (g : frame) :
  has_col c g = true ->
  (forall v t, In v (column c g) -> to_datetime lib v = CTime t -> is_naive t = true) ->
  exists out,
    normalize_time_col lib c g = Ok out
    /\ (forall r w off,
          In r (rows g) ->
          to_datetime lib (get r c) = CTime (Naive w) ->
          nyc_utcoffsets lib w = [off] ->
          exists r', In r' (rows out) /\ label r' = label r
                     /\ get r' c = CTime (Aware (w - off) "UTC"))
    /\ (forall r', In r' (rows out) ->
          exists r w off,
            In r (rows g) /\ label r' = label r
            /\ to_datetime lib (get r c) = CTime (Naive w)
            /\ nyc_utcoffsets lib w = [off]
            /\ get r' c = CTime (Aware (w - off) "UTC")).
Proof.
  intros Hc Hnaive.
  assert (Hz : same_zone lib (column c g)).
  { exists None. intros v t Hv Ht. pose proof (Hnaive v t Hv Ht) as Hn.
    destruct t; [reflexivity|discriminate]. }
  destruct (normalize_time_col_total lib c g Hc Hz) as [out Hout].
  exists out. split; [exact Hout|].
  destruct (normalize_time_col_Ok lib c g out Hc Hout) as [conv [Hconv [_ Hrows]]].
  assert (Hloc : conv = localize_nyc_utc lib).
  { destruct Hconv as [[_ ->]|[z [Hdt _]]]; [reflexivity|]. exfalso.
    unfold dt_tz in Hdt.
    destruct (timestamps (map (to_datetime lib) (column c g))) as [|t ts] eqn:E;
      [discriminate|].
    destruct (forallb _ ts); [|discriminate]. injection Hdt as Hdt.
    assert (Hin : In t (timestamps (map (to_datetime lib) (column c g))))
      by (rewrite E; left; reflexivity).
    apply In_timestamps in Hin. apply in_map_iff in Hin. destruct Hin as [v [Hv Hin]].
    pose proof (Hnaive v t Hin Hv) as Hn. destruct t; discriminate. }
  subst conv. split.
  - intros r w off Hr Hw Hoff. exists (normalized lib (localize_nyc_utc lib) c r).
    assert (Hval : localize_nyc_utc lib (to_datetime lib (get r c))
                   = CTime (Aware (w - off) "UTC")).
    { rewrite Hw. unfold localize_nyc_utc. rewrite Hoff. reflexivity. }
    split; [|split; [reflexivity|]].
    + rewrite Hrows. apply in_map. apply filter_In. split; [exact Hr|].
      rewrite Hval. reflexivity.
    + rewrite get_normalized_same. exact Hval.
  - intros r' Hr'. rewrite Hrows in Hr'. apply in_map_iff in Hr'.
    destruct Hr' as [r [<- Hr]]. apply filter_In in Hr. destruct Hr as [Hr Hn].
    rewrite get_normalized_same.
    unfold localize_nyc_utc in *.
    destruct (to_datetime lib (get r c)) as [|x|s|[w|u z]|gm] eqn:Ev; try discriminate.
    destruct (nyc_utcoffsets lib w) as [|off [|off' l]] eqn:Eo; try discriminate.
    exists r, w, off. repeat split; assumption.
Qed.

(** C6.  When the values of a configured time column parse to tz-naive
    timestamps, the normalizer returns, and the records it keeps are exactly
    those whose wall-clock time exists under one UTC offset in
    America/New_York, each with the UTC instant of that local time.  In every
    cleaned table every value of a configured time column is a tz-aware UTC
    timestamp.  The record lat=40.75, lon=-73.98,
    pickup_datetime='2024-06-01 08:00:00' comes out with geometry
    (-73.98, 40.75) and pickup time 2024-06-01 12:00:00 UTC. *)
Theorem naive_timestamps_to_utc :
  (forall lib c g,
      has_col c g = true ->
      (forall v t, In v (column c g) -> to_datetime lib v = CTime t -> is_naive t = true) ->
      exists out,
        normalize_time_col lib c g = Ok out
        /\ (forall r w off,
              In r (rows g) ->
              to_datetime lib (get r c) = CTime (Naive w) ->
              nyc_utcoffsets lib w = [off] ->
              exists r', In r' (rows out) /\ label r' = label r
                         /\ get r' c = CTime (Aware (w - off) "UTC"))
        /\ (forall r', In r' (rows out) ->
              exists r w off,
                In r (rows g) /\ label r' = label r
                /\ to_datetime lib (get r c) = CTime (Naive w)
                /\ nyc_utcoffsets lib w = [off]
                /\ get r' c = CTime (Aware (w - off) "UTC")))
  /\ (forall lib crs_target time_cols df out r c,
        clean lib crs_target time_cols df = Ok out ->
        In r (rows out) ->
        In c time_cols ->
        has_col c out = true ->
        exists u, get r c = CTime (Aware u "UTC"))
  /\ (exists out,
        clean_and_merge_data example_library [Examples.scenario] "EPSG:4326"
                             ["pickup_datetime"]%string = Ok out
        /\ map (fun r => (get r "geometry", get r "pickup_datetime")) (rows out)
           = [(CGeom (Point (-73.98)%float 40.75%float),
               CTime (Aware 1717243200000000000 "UTC"))]
        /\ IsoFormat.wall "2024-06-01 08:00:00" = Some 1717228800000000000
        /\ NewYork.utcoffsets 1717228800000000000 = [-4 * Calendar.ns_per_hour]
        /\ IsoFormat.wall "2024-06-01 12:00:00" = Some 1717243200000000000).
Proof.
  split; [exact naive_column_converted|]. split.
  - intros lib crs_target time_cols df out r c H Hr Hc Hcol.
    unfold clean in H. inv_bind H. inv_bind H. inv_bind H.
    destruct (labels_normalize_times lib time_cols a1 out H) as [Hcols _].
    destruct (utc_normalize_times lib time_cols a1 out r H Hr) as [r0 [_ [_ [Hutc _]]]].
    apply Hutc; [exact Hc|]. unfold has_col in *. rewrite <- Hcols. exact Hcol.
  - eexists. split; [vm_compute; reflexivity|].
    split; [reflexivity|]. split; [vm_compute; reflexivity|].
    split; vm_compute; reflexivity.
Qed.

Lemma example_library_parses_naive (s : string) (t : timestamp) :
  to_datetime example_library (CStr s) = CTime t -> is_naive t = true.
Proof.
  unfold to_datetime, example_library, datetime_of_string, IsoFormat.parse.
  destruct (IsoFormat.wall s); simpl; intros H; [|discriminate H].
  injection H as <-. reflexivity.
Qed.

Lemma naive_timestamps_to_utc_witness :
  exists out,
    normalize_time_col example_library "pickup_datetime" Examples.pickup_times = Ok out
    /\ (forall r w off,
          In r (rows Examples.pickup_times) ->
          to_datetime example_library (get r "pickup_datetime") = CTime (Naive w) ->
          nyc_utcoffsets example_library w = [off] ->
          exists r', In r' (rows out) /\ label r' = label r
                     /\ get r' "pickup_datetime" = CTime (Aware (w - off) "UTC"))
    /\ (forall r', In r' (rows out) ->
          exists r w off,
            In r (rows Examples.pickup_times) /\ label r' = label r
            /\ to_datetime example_library (get r "pickup_datetime") = CTime (Naive w)
            /\ nyc_utcoffsets example_library w = [off]
            /\ get r' "pickup_datetime" = CTime (Aware (w - off) "UTC")).
Proof.
  apply (proj1 naive_timestamps_to_utc example_library "pickup_datetime"%string
           Examples.pickup_times).
  - reflexivity.
  - intros v t Hv Ht.
    change (column "pickup_datetime" Examples.pickup_times)
      with [CStr "2024-06-01 08:00:00"; CStr "2024-11-03 01:30:00";
            CStr "2024-03-10 02:30:00"; CStr "yesterday"] in Hv.
    destruct Hv as [<-|[<-|[<-|[<-|[]]]]];
      exact (example_library_parses_naive _ t Ht).
Defined.

(** ** Further properties *)

(** X1.  Whenever [clean_and_merge_data] returns a table, the table has a
    'geometry' column and declares it as its geometry column. *)
Theorem returned_table_declares_geometry (lib : Library) (dfs : list frame)
    (crs_target : string) (time_cols : list string) (out : frame) :
  clean_and_merge_data lib dfs crs_target time_cols = Ok out ->
  has_col "geometry" out = true /\ geometry_column_name out = Some "geometry"%string.
Proof.
  unfold clean_and_merge_data. intros H. inv_bind H. inv_bind H.
  unfold GeoDataFrame_on_geometry in H.
  destruct (has_col "geometry" a0) eqn:E; [|discriminate].
  destruct (forallb _ (rows a0)); [|discriminate].
  injection H as <-. split; [exact E|reflexivity].
Qed.

Lemma returned_table_declares_geometry_witness :
  exists out,
    clean_and_merge_data example_library [Examples.scenario] "EPSG:4326"
                         ["pickup_datetime"]%string = Ok out
    /\ has_col "geometry" out = true
    /\ geometry_column_name out = Some "geometry"%string.
Proof.
  destruct (clean_and_merge_data example_library [Examples.scenario] "EPSG:4326"
              ["pickup_datetime"]%string) as [out|e] eqn:E.
  - exists out. split; [reflexivity|].
    exact (returned_table_declares_geometry example_library [Examples.scenario]
             "EPSG:4326" ["pickup_datetime"]%string out E).
  - exfalso. vm_compute in E. discriminate E.
Defined.

(** ** The geometry resolver *)

Lemma mapM_total {A B : Type} (f : A -> result B) (xs : list A) :
  (forall x, In x xs -> returns (f x) = true) -> exists ys, mapM f xs = Ok ys.
Proof.
  induction xs as [|x xs IH]; intros H; simpl; [eexists; reflexivity|].
  pose proof (H x (or_introl eq_refl)) as Hx.
  destruct (f x) as [y|e]; [|discriminate]. simpl.
  destruct IH as [ys ->]; [intros x' Hx'; apply H; right; exact Hx'|].
  eexists. reflexivity.
Qed.

Lemma Forall2_labels (f : row -> result row) (rs rs' : list row) :
  (forall r r', f r = Ok r' -> label r' = label r) ->
  Forall2 (fun r r' => f r = Ok r') rs rs' ->
  map label rs' = map label rs.
Proof.
  intros Hf H. induction H as [|r r' rs rs' Hr _ IH]; simpl; [reflexivity|].
  rewrite (Hf r r' Hr), IH. reflexivity.
Qed.

Lemma with_point_Ok (lib : Library) (lat lon : string) (r r' : row) :
  with_point lib lat lon r = Ok r' ->
  exists x y, coordinate lib (get r lon) = Ok x /\ coordinate lib (get r lat) = Ok y
              /\ r' = setitem "geometry" (CGeom (Point x y)) r.
Proof.
  unfold with_point. intros H. inv_bind H. inv_bind H. injection H as <-.
  exists a, a0. repeat split; assumption.
Qed.

(** X3.  For a table without 'geometry' column that has a latitude-like and
    a longitude-like column whose values are numbers (or text [float]
    reads), the geometry resolver returns; it keeps, in order, exactly the
    records with both coordinates present, gives each the point
    (longitude, latitude) in EPSG:4326 as 'geometry' and leaves every other
    column as it was. *)
Theorem geometry_from_coordinates (lib : Library) (df : frame) (lat lon : string)
    (lats lons : list string) :
  has_col "geometry" df = false ->
  lat_cols df = lat :: lats ->
  lon_cols df = lon :: lons ->
  (forall r, In r (rows df) ->
             notna (get r lat) = true -> notna (get r lon) = true ->
             returns (coordinate lib (get r lon)) = true
             /\ returns (coordinate lib (get r lat)) = true) ->
  exists gdf,
    resolve_geometry lib df = Ok gdf
    /\ columns gdf = columns df ++ ["geometry"%string]
    /\ geometry_column_name gdf = Some "geometry"%string
    /\ crs gdf = Some "EPSG:4326"%string
    /\ map label (rows gdf)
       = map label (filter (fun r => (notna (get r lat) && notna (get r lon))%bool) (rows df))
    /\ forall r', In r' (rows gdf) ->
         exists r x y,
           In r (rows df) /\ label r' = label r
           /\ notna (get r lat) = true /\ notna (get r lon) = true
           /\ coordinate lib (get r lon) = Ok x /\ coordinate lib (get r lat) = Ok y
           /\ get r' "geometry" = CGeom (Point x y)
           /\ forall c, c <> "geometry"%string -> get r' c = get r c.
Proof.
  intros Hg Hlat Hlon Hnum. unfold resolve_geometry. rewrite Hg, Hlat, Hlon. simpl negb. cbv iota.
  assert (Hcl : has_col lat df = true).
  { apply mem_In. assert (In lat (lat_cols df)) as Hin by (rewrite Hlat; left; reflexivity).
    unfold lat_cols in Hin. apply filter_In in Hin. apply Hin. }
  assert (Hco : has_col lon df = true).
  { apply mem_In. assert (In lon (lon_cols df)) as Hin by (rewrite Hlon; left; reflexivity).
    unfold lon_cols in Hin. apply filter_In in Hin. apply Hin. }
  unfold dropna. simpl forallb. rewrite Hcl, Hco. simpl.
  set (kept := filter (fun r => (notna (get r lat) && (notna (get r lon) && true))%bool)
                      (rows df)).
  assert (Hkept : kept = filter (fun r => (notna (get r lat) && notna (get r lon))%bool)
                                (rows df)).
  { apply filter_ext. intros r. rewrite andb_true_r. reflexivity. }
  destruct (mapM_total (with_point lib lat lon) kept) as [rs Hrs].
  { intros r Hr. unfold kept in Hr. apply filter_In in Hr. destruct Hr as [Hr Hn].
    apply andb_prop in Hn. destruct Hn as [Hn1 Hn2]. rewrite andb_true_r in Hn2.
    destruct (Hnum r Hr Hn1 Hn2) as [Hx Hy]. unfold with_point.
    destruct (coordinate lib (get r lon)); [|discriminate].
    destruct (coordinate lib (get r lat)); [|discriminate]. reflexivity. }
  change (rows (select (fun r => (notna (get r lat) && (notna (get r lon) && true))%bool) df))
    with kept.
  rewrite Hrs. simpl. eexists. split; [reflexivity|]. simpl.
  pose proof (mapM_Ok_Forall2 _ _ _ Hrs) as HF.
  split.
  { unfold add_col. unfold has_col in Hg. rewrite Hg. reflexivity. }
  split; [reflexivity|]. split; [reflexivity|]. split.
  { rewrite <- Hkept. apply (Forall2_labels (with_point lib lat lon)); [|exact HF].
    intros r r' H. apply with_point_Ok in H. destruct H as [x [y [_ [_ ->]]]]. reflexivity. }
  intros r' Hr'. destruct (mapM_In _ _ _ _ Hrs Hr') as [r [Hr Hw]].
  unfold kept in Hr. apply filter_In in Hr. destruct Hr as [Hr Hn].
  apply andb_prop in Hn. destruct Hn as [Hn1 Hn2]. rewrite andb_true_r in Hn2.
  apply with_point_Ok in Hw. destruct Hw as [x [y [Hx [Hy ->]]]].
  exists r, x, y. split; [exact Hr|]. split; [reflexivity|].
  split; [exact Hn1|]. split; [exact Hn2|]. split; [exact Hx|]. split; [exact Hy|].
  split; [apply get_setitem_same|].
  intros c Hc. apply get_setitem_other. intros E. apply Hc. symmetry. exact E.
Qed.

Lemma geometry_from_coordinates_witness :
  exists gdf,
    resolve_geometry example_library Examples.stops = Ok gdf
    /\ columns gdf = ["stop"; "lat"; "lon"; "geometry"]%string
    /\ geometry_column_name gdf = Some "geometry"%string
    /\ crs gdf = Some "EPSG:4326"%string
    /\ map label (rows gdf) = [11].
Proof.
  destruct (geometry_from_coordinates example_library Examples.stops "lat" "lon" [] [])
    as [gdf [H1 [H2 [H3 [H4 [H5 _]]]]]]; try reflexivity.
  - intros r Hr. simpl in Hr. destruct Hr as [<-|[<-|[<-|[]]]]; intros Hn1 Hn2;
      try discriminate Hn1; try discriminate Hn2. split; reflexivity.
  - exists gdf. repeat split; assumption.
Defined.

(** ** CRS normalisation *)

(** X4.  On a frame with an active geometry column [normalize_crs] behaves
    as follows.  A frame without CRS is declared to be in the target CRS, its
    geometry untouched; when pyproj rejects the target this raises
    [CRSError], the declaration not being guarded.  A frame in another CRS
    whose reprojection fails is returned as it is, and one whose
    reprojection works has its geometry transformed and carries the target
    CRS. *)
Theorem crs_normalisation (lib : Library) (crs_target : string) (gdf : frame) (g : string) :
  active_geometry gdf = Ok g ->
  (crs gdf = None -> pyproj_crs lib crs_target = None ->
   normalize_crs lib crs_target gdf = Raise CRSError)
  /\ (crs gdf = None -> pyproj_crs lib crs_target = Some crs_target ->
      normalize_crs lib crs_target gdf
      = Ok (mkFrame (columns gdf) (rows gdf) (geometry_column_name gdf) (Some crs_target)))
  /\ (forall s, crs gdf = Some s -> s <> crs_target ->
                pyproj_crs lib crs_target = None \/ transformer lib s crs_target = None ->
                normalize_crs lib crs_target gdf = Ok gdf)
  /\ (forall s t f, crs gdf = Some s -> s <> crs_target ->
                    pyproj_crs lib crs_target = Some t ->
                    transformer lib s crs_target = Some f ->
                    normalize_crs lib crs_target gdf
                    = Ok (mkFrame (columns gdf)
                            (map (fun r => setitem g (map_geometry f (get r g)) r) (rows gdf))
                            (geometry_column_name gdf) (Some t))).
Proof.
  intros Ha.
  assert (Ha' : forall c, active_geometry
                            (mkFrame (columns gdf) (rows gdf) (geometry_column_name gdf) c)
                          = Ok g).
  { intros c. unfold active_geometry in *. simpl. exact Ha. }
  split; [|split; [|split]].
  - intros Hc Hp. unfold normalize_crs, get_crs. rewrite Ha. simpl. rewrite Hc.
    unfold set_crs. rewrite Ha. simpl. rewrite Hp. reflexivity.
  - intros Hc Hp. unfold normalize_crs, get_crs. rewrite Ha. simpl. rewrite Hc.
    unfold set_crs. rewrite Ha. simpl. rewrite Hp. simpl.
    rewrite Ha'. simpl. rewrite String.eqb_refl. reflexivity.
  - intros s Hc Hne Hfail. unfold normalize_crs, get_crs. rewrite Ha. simpl. rewrite Hc. simpl.
    rewrite Ha. simpl. rewrite Hc.
    apply String.eqb_neq in Hne. rewrite Hne. simpl.
    unfold to_crs. rewrite Ha. simpl. rewrite Hc.
    destruct Hfail as [-> | ->]; [reflexivity|].
    destruct (pyproj_crs lib crs_target); reflexivity.
  - intros s t f Hc Hne Hp Ht. unfold normalize_crs, get_crs. rewrite Ha. simpl. rewrite Hc. simpl.
    rewrite Ha. simpl. rewrite Hc.
    apply String.eqb_neq in Hne. rewrite Hne. simpl.
    unfold to_crs. rewrite Ha. simpl. rewrite Hc, Hp, Ht. reflexivity.
Qed.

Lemma crs_normalisation_witness :
  normalize_crs example_library "EPSG:3857" Examples.undeclared = Raise CRSError
  /\ normalize_crs example_library "EPSG:4326" Examples.undeclared
     = Ok (mkFrame (columns Examples.undeclared) (rows Examples.undeclared)
             (Some "geometry"%string) (Some "EPSG:4326"%string))
  /\ normalize_crs example_library "EPSG:4326" Examples.projected = Ok Examples.projected.
Proof.
  split; [|split].
  - apply (crs_normalisation example_library "EPSG:3857" Examples.undeclared "geometry");
      reflexivity.
  - apply (crs_normalisation example_library "EPSG:4326" Examples.undeclared "geometry");
      reflexivity.
  - apply (proj1 (proj2 (proj2 (crs_normalisation example_library "EPSG:4326"
                                  Examples.projected "geometry" eq_refl)))
             "EPSG:32618"%string).
    + reflexivity.
    + discriminate.
    + right. reflexivity.
Defined.

(** ** Cleaning one table only drops records *)

Lemma resolve_geometry_rows (lib : Library) (df gdf : frame) :
  resolve_geometry lib df = Ok gdf ->
  (geometry_column_name gdf = Some "geometry"%string
   \/ geometry_column_name gdf = geometry_column_name df)
  /\ (List.length (rows gdf) <= List.length (rows df))%nat
  /\ (NoDup (map label (rows df)) -> NoDup (map label (rows gdf)))
  /\ forall r', In r' (rows gdf) ->
       exists r, In r (rows df) /\ label r' = label r
                 /\ forall c, c <> "geometry"%string -> get r' c = get r c.
Proof.
  assert (Hplain : (geometry_column_name (GeoDataFrame df) = Some "geometry"%string
                    \/ geometry_column_name (GeoDataFrame df) = geometry_column_name df)
                   /\ rows (GeoDataFrame df) = rows df).
  { unfold GeoDataFrame. destruct (_ && _)%bool; simpl; auto. }
  assert (Hsame : forall g, Ok (GeoDataFrame df) = Ok g ->
            (geometry_column_name g = Some "geometry"%string
             \/ geometry_column_name g = geometry_column_name df)
            /\ (List.length (rows g) <= List.length (rows df))%nat
            /\ (NoDup (map label (rows df)) -> NoDup (map label (rows g)))
            /\ forall r', In r' (rows g) ->
                 exists r, In r (rows df) /\ label r' = label r
                           /\ forall c, c <> "geometry"%string -> get r' c = get r c).
  { intros g H. injection H as <-. destruct Hplain as [Hn Hr]. rewrite Hr.
    split; [exact Hn|]. split; [apply Nat.le_refl|]. split; [auto|].
    intros r' Hr'. exists r'. split; [exact Hr'|]. split; reflexivity. }
  unfold resolve_geometry. destruct (has_col "geometry" df); simpl negb; cbv iota;
    [apply Hsame|].
  destruct (lat_cols df) as [|lat lats]; [apply Hsame|].
  destruct (lon_cols df) as [|lon lons]; [apply Hsame|].
  intros H. inv_bind H. inv_bind H. injection H as <-. simpl.
  unfold dropna in Ha. destruct (forallb _ [lat; lon]); [|discriminate].
  injection Ha as <-. simpl in Ha0.
  pose proof (mapM_Ok_Forall2 _ _ _ Ha0) as HF.
  assert (Hlab : map label a0
                 = map label (filter (fun r => forallb (fun c => notna (get r c)) [lat; lon])
                                     (rows df))).
  { apply (Forall2_labels (with_point lib lat lon)); [|exact HF].
    intros r r' H. apply with_point_Ok in H. destruct H as [x [y [_ [_ ->]]]]. reflexivity. }
  split; [left; reflexivity|]. split; [|split].
  - rewrite <- (length_map label a0), Hlab, length_map. apply filter_length_le.
  - intros Hnd. rewrite Hlab. apply labels_filter_NoDup. exact Hnd.
  - intros r' Hr'. destruct (mapM_In _ _ _ _ Ha0 Hr') as [r [Hr Hw]].
    apply filter_In in Hr. destruct Hr as [Hr _].
    apply with_point_Ok in Hw. destruct Hw as [x [y [_ [_ ->]]]].
    exists r. split; [exact Hr|]. split; [reflexivity|].
    intros c Hc. apply get_setitem_other. intros E. apply Hc. symmetry. exact E.
Qed.

Lemma normalize_crs_rows (lib : Library) (crs_target : string) (gdf out : frame) :
  normalize_crs lib crs_target gdf = Ok out ->
  exists g,
    geometry_column_name gdf = Some g
    /\ geometry_column_name out = Some g
    /\ map label (rows out) = map label (rows gdf)
    /\ forall r', In r' (rows out) ->
         exists r, In r (rows gdf) /\ label r' = label r
                   /\ forall c, c <> g -> get r' c = get r c.
Proof.
  unfold normalize_crs. intros H. inv_bind H. inv_bind H. inv_bind H.
  unfold get_crs in Ha. inv_bind Ha. clear Ha. rename a2 into g.
  assert (Hg : geometry_column_name gdf = Some g).
  { unfold active_geometry in Ha2. destruct (geometry_column_name gdf) as [g'|]; [|discriminate].
    destruct (has_col g' gdf); [|discriminate]. injection Ha2 as ->. reflexivity. }
  assert (Ha0' : geometry_column_name a0 = Some g /\ rows a0 = rows gdf
                 /\ columns a0 = columns gdf).
  { destruct a.
    - injection Ha0 as <-. auto.
    - unfold set_crs in Ha0. inv_bind Ha0. destruct (pyproj_crs lib crs_target); [|discriminate].
      injection Ha0 as <-. simpl. auto. }
  destruct Ha0' as [Hg0 [Hr0 Hc0]].
  exists g. split; [exact Hg|].
  assert (Hsame : Ok a0 = Ok out ->
            geometry_column_name out = Some g
            /\ map label (rows out) = map label (rows gdf)
            /\ forall r', In r' (rows out) ->
                 exists r, In r (rows gdf) /\ label r' = label r
                           /\ forall c, c <> g -> get r' c = get r c).
  { intros E. injection E as <-. rewrite Hr0. split; [exact Hg0|]. split; [reflexivity|].
    intros r' Hr'. exists r'. split; [exact Hr'|]. split; reflexivity. }
  destruct a1 as [s|]; [|discriminate].
  destruct (negb (String.eqb s crs_target)); [|apply Hsame; exact H].
  destruct (to_crs lib crs_target a0) as [gdf'|e] eqn:E; [|apply Hsame; exact H].
  injection H as <-. unfold to_crs in E. inv_bind E.
  assert (a1 = g).
  { unfold active_geometry in Ha. rewrite Hg0 in Ha.
    destruct (has_col g a0); [|discriminate]. injection Ha as <-. reflexivity. }
  subst a1.
  destruct (crs a0); [|discriminate].
  destruct (pyproj_crs lib crs_target); [|discriminate].
  destruct (transformer lib s0 crs_target) as [f|]; [|discriminate].
  injection E as <-. simpl. rewrite Hr0. split; [exact Hg0|]. split.
  - rewrite map_map. reflexivity.
  - intros r' Hr'. apply in_map_iff in Hr'. destruct Hr' as [r [<- Hr]].
    exists r. split; [exact Hr|]. split; [reflexivity|].
    intros c Hc. apply get_setitem_other. intros E'. apply Hc. symmetry. exact E'.
Qed.

Lemma length_normalize_times (lib : Library) (cs : list string) (g out : frame) :
  normalize_times lib cs g = Ok out ->
  (List.length (rows out) <= List.length (rows g))%nat.
Proof.
  revert g. induction cs as [|c cs IH]; intros g H.
  - injection H as <-. apply Nat.le_refl.
  - rewrite normalize_times_cons in H. inv_bind H. apply IH in H.
    destruct (has_col c g) eqn:E.
    + destruct (normalize_time_col_Ok lib c g a E Ha) as [conv [_ [_ Hrows]]].
      rewrite Hrows, length_map in H.
      eapply Nat.le_trans; [exact H|apply filter_length_le].
    + injection Ha as <-. exact H.
Qed.

(** X5.  Cleaning one table never adds or relabels a record: the cleaned
    table has at most as many records as the input, distinct index labels
    stay distinct, and every cleaned record stems from an input record with
    the same label, from which it differs at most in the 'geometry' column,
    in the active geometry column the table came with and in the configured
    time columns. *)
Theorem cleaning_only_drops (lib : Library) (crs_target : string) (time_cols : list string)
    (df out : frame) :
  clean lib crs_target time_cols df = Ok out ->
  (List.length (rows out) <= List.length (rows df))%nat
  /\ (NoDup (map label (rows df)) -> NoDup (map label (rows out)))
  /\ forall r', In r' (rows out) ->
       exists r, In r (rows df) /\ label r' = label r
                 /\ forall c, c <> "geometry"%string ->
                              geometry_column_name df <> Some c ->
                              ~ In c time_cols ->
                              get r' c = get r c.
Proof.
  unfold clean. intros H. inv_bind H. inv_bind H. inv_bind H.
  rename a into g1, a0 into g2, a1 into g3.
  destruct (resolve_geometry_rows lib df g1 Ha) as [Hname [Hlen1 [Hnd1 Hrow1]]].
  destruct (normalize_crs_rows lib crs_target g1 g2 Ha0) as [g [Hg1 [Hg2 [Hlab2 Hrow2]]]].
  apply plausibility_filter_Ok in Ha1. destruct Ha1 as [g' [_ ->]].
  split; [|split].
  - eapply Nat.le_trans; [exact (length_normalize_times lib _ _ _ H)|].
    unfold select, with_rows. simpl.
    eapply Nat.le_trans; [apply filter_length_le|].
    rewrite <- (length_map label (rows g2)), Hlab2, length_map. exact Hlen1.
  - intros Hnd. apply (labels_normalize_times lib time_cols _ out H).
    unfold select, with_rows. simpl. apply labels_filter_NoDup.
    rewrite Hlab2. apply Hnd1. exact Hnd.
  - intros r' Hr'.
    destruct (utc_normalize_times lib time_cols _ out r' H Hr') as [r3 [Hr3 [Hl3 [_ Hsame3]]]].
    apply In_select in Hr3. destruct Hr3 as [Hr3 _].
    destruct (Hrow2 r3 Hr3) as [r1 [Hr1 [Hl2 Hsame2]]].
    destruct (Hrow1 r1 Hr1) as [r [Hr [Hl1 Hsame1]]].
    exists r. split; [exact Hr|]. split; [congruence|].
    intros c Hc1 Hc2 Hc3.
    rewrite Hsame3 by exact Hc3.
    rewrite Hsame2.
    + apply Hsame1. exact Hc1.
    + intros ->. destruct Hname as [Hn|Hn]; rewrite Hg1 in Hn.
      * injection Hn as Hn. apply Hc1. exact Hn.
      * apply Hc2. symmetry. exact Hn.
Qed.

Lemma cleaning_only_drops_witness :
  exists out,
    clean example_library "EPSG:4326" ["pickup_datetime"]%string Examples.scenario = Ok out
    /\ (List.length (rows out) <= List.length (rows Examples.scenario))%nat
    /\ forall r', In r' (rows out) ->
         exists r, In r (rows Examples.scenario) /\ label r' = label r
                   /\ forall c, c <> "geometry"%string ->
                                geometry_column_name Examples.scenario <> Some c ->
                                ~ In c ["pickup_datetime"]%string ->
                                get r' c = get r c.
Proof.
  destruct (clean example_library "EPSG:4326" ["pickup_datetime"]%string Examples.scenario)
    as [out|e] eqn:E.
  - exists out. split; [reflexivity|].
    destruct (cleaning_only_drops example_library "EPSG:4326" ["pickup_datetime"]%string
                Examples.scenario out E) as [H1 [_ H3]].
    split; assumption.
  - exfalso. vm_compute in E. discriminate E.
Defined.

(** ** Normalizing twice *)

Lemma update_same (c : string) (v : cell) (l : list (string * cell)) :
  assoc c l = Some v -> update c v l = l.
Proof.
  induction l as [|[k w] l IH]; simpl; [discriminate|].
  destruct (String.eqb c k) eqn:E.
  - intros H. injection H as ->. reflexivity.
  - intros H. rewrite (IH H). reflexivity.
Qed.

Lemma setitem_same (c : string) (r : row) (t : timestamp) :
  get r c = CTime t -> setitem c (CTime t) r = r.
Proof.
  unfold get, setitem. intros H.
  destruct (assoc c (fields r)) as [v|] eqn:E; [|discriminate]. subst v.
  rewrite (update_same c _ _ E). destruct r. reflexivity.
Qed.

Lemma meta_normalize_time_col (lib : Library) (c : string) (g out : frame) :
  normalize_time_col lib c g = Ok out ->
  geometry_column_name out = geometry_column_name g /\ crs out = crs g.
Proof.
  unfold normalize_time_col. intros H. inv_bind H. inv_bind H.
  unfold dropna in H.
  destruct a0; (destruct (forallb _ [c]); [|discriminate]); injection H as <-;
    split; reflexivity.
Qed.

Lemma filter_all {A : Type} (p : A -> bool) (l : list A) :
  (forall x, In x l -> p x = true) -> filter p l = l.
Proof.
  induction l as [|x l IH]; simpl; intros H; [reflexivity|].
  rewrite (H x (or_introl eq_refl)), IH; [reflexivity|].
  intros y Hy. apply H. right. exact Hy.
Qed.

Lemma map_fixed {A : Type} (f : A -> A) (l : list A) :
  (forall x, In x l -> f x = x) -> map f l = l.
Proof.
  induction l as [|x l IH]; simpl; intros H; [reflexivity|].
  rewrite (H x (or_introl eq_refl)), IH; [reflexivity|].
  intros y Hy. apply H. right. exact Hy.
Qed.

(** A column of UTC timestamps is left as it is. *)
Lemma normalize_time_col_fixed (lib : Library) (c : string) (g : frame) :
  has_col c g = true ->
  (forall r, In r (rows g) -> exists u, get r c = CTime (Aware u "UTC")) ->
  normalize_time_col lib c g = Ok g.
Proof.
  intros Hc Hutc.
  assert (Hz : same_zone lib (column c g)).
  { exists (Some "UTC"%string). intros v t Hv Ht. unfold column in Hv.
    apply in_map_iff in Hv. destruct Hv as [r [<- Hr]].
    destruct (Hutc r Hr) as [u Hu]. rewrite Hu in Ht. simpl in Ht.
    injection Ht as <-. reflexivity. }
  destruct (normalize_time_col_total lib c g Hc Hz) as [out Hout].
  rewrite Hout. f_equal.
  destruct (normalize_time_col_Ok lib c g out Hc Hout) as [conv [Hconv [Hcols Hrows]]].
  destruct (meta_normalize_time_col lib c g out Hout) as [Hgeo Hcrs].
  assert (Hr : rows out = rows g).
  { rewrite Hrows. destruct Hconv as [[Hdt ->]|[z [Hdt ->]]].
    - (* a tz-naive column of UTC timestamps has no row *)
      destruct (rows g) as [|r rs] eqn:Er; [reflexivity|]. exfalso.
      destruct (Hutc r (or_introl eq_refl)) as [u Hu].
      unfold dt_tz, column in Hdt. rewrite Er in Hdt. simpl in Hdt.
      rewrite Hu in Hdt. simpl in Hdt.
      destruct (forallb _ _); discriminate.
    - rewrite filter_all.
      + apply map_fixed. intros r Hr. destruct (Hutc r Hr) as [u Hu].
        unfold normalized. rewrite Hu. simpl.
        rewrite (setitem_same c r _ Hu). apply setitem_same. exact Hu.
      + intros r Hr. destruct (Hutc r Hr) as [u Hu]. rewrite Hu. reflexivity. }
  revert Hcols Hr Hgeo Hcrs. clear. destruct out, g. simpl.
  intros -> -> -> ->. reflexivity.
Qed.

(** X6.  The time normalizer is idempotent: normalizing the table it
    returned, over the same columns, returns that table unchanged. *)
Theorem normalize_times_idempotent (lib : Library) (time_cols : list string) (g out : frame) :
  normalize_times lib time_cols g = Ok out ->
  normalize_times lib time_cols out = Ok out.
Proof.
  intros H.
  assert (Hutc : forall c, In c time_cols -> has_col c out = true ->
                           forall r, In r (rows out) ->
                                     exists u, get r c = CTime (Aware u "UTC")).
  { intros c Hc Hcol r Hr.
    destruct (labels_normalize_times lib time_cols g out H) as [Hcols _].
    destruct (utc_normalize_times lib time_cols g out r H Hr) as [r0 [_ [_ [Hu _]]]].
    apply Hu; [exact Hc|]. unfold has_col in *. rewrite <- Hcols. exact Hcol. }
  clear H. induction time_cols as [|c cs IH]; [reflexivity|].
  rewrite normalize_times_cons. destruct (has_col c out) eqn:E.
  - rewrite (normalize_time_col_fixed lib c out E (Hutc c (or_introl eq_refl) E)). simpl.
    apply IH. intros c' Hc'. apply Hutc. right. exact Hc'.
  - simpl. apply IH. intros c' Hc'. apply Hutc. right. exact Hc'.
Qed.

Lemma normalize_times_idempotent_witness :
  exists out,
    normalize_times example_library ["pickup_datetime"; "dropoff_datetime"]%string
                    Examples.pickup_times = Ok out
    /\ map label (rows out) = [0]
    /\ normalize_times example_library ["pickup_datetime"; "dropoff_datetime"]%string out
       = Ok out.
Proof.
  destruct (normalize_times example_library ["pickup_datetime"; "dropoff_datetime"]%string
              Examples.pickup_times) as [out|e] eqn:E.
  - exists out. split; [reflexivity|]. split.
    + vm_compute in E. injection E as <-. reflexivity.
    + exact (normalize_times_idempotent example_library _ Examples.pickup_times out E).
  - exfalso. vm_compute in E. discriminate E.
Defined.

(** ** One table, three tables *)

(** X7.  With a single input table nothing is joined or re-indexed: when the
    cleaned table has a 'geometry' column that holds geometries,
    [clean_and_merge_data] returns the cleaned table, rows, labels and columns
    as cleaning left them, with 'geometry' declared as its geometry. *)
Theorem single_table_returned (lib : Library) (crs_target : string) (time_cols : list string)
    (df g : frame) :
  clean lib crs_target time_cols df = Ok g ->
  has_col "geometry" g = true ->
  (forall r, In r (rows g) -> geometric (get r "geometry") = true) ->
  clean_and_merge_data lib [df] crs_target time_cols
  = Ok (mkFrame (columns g) (rows g) (Some "geometry"%string) (crs g)).
Proof.
  intros Hc Hg Hgeo. unfold clean_and_merge_data. simpl. rewrite Hc. simpl.
  assert (Hm : merge_or_concat time_cols [g] = Ok g).
  { unfold merge_or_concat, merge_cols. simpl. rewrite Hg. simpl.
    destruct (filter _ time_cols); reflexivity. }
  rewrite Hm. simpl. unfold GeoDataFrame_on_geometry. rewrite Hg.
  assert (Hall : forallb (fun r => geometric (get r "geometry")) (rows g) = true)
    by (apply forallb_forall; exact Hgeo).
  rewrite Hall. reflexivity.
Qed.

Lemma single_table_returned_witness :
  exists g,
    clean example_library "EPSG:4326" ["pickup_datetime"]%string Examples.scenario = Ok g
    /\ clean_and_merge_data example_library [Examples.scenario] "EPSG:4326"
                            ["pickup_datetime"]%string
       = Ok (mkFrame (columns g) (rows g) (Some "geometry"%string) (crs g)).
Proof.
  destruct (clean example_library "EPSG:4326" ["pickup_datetime"]%string Examples.scenario)
    as [g|e] eqn:E.
  - exists g. split; [reflexivity|].
    apply (single_table_returned example_library "EPSG:4326" ["pickup_datetime"]%string
             Examples.scenario g E);
      vm_compute in E; injection E as <-; [reflexivity|].
    intros r [<-|[]]. reflexivity.
  - exfalso. vm_compute in E. discriminate E.
Defined.

Lemma join_columns_second (a b : frame) (on : list string) (x : string) (m : frame) :
  merge a b on = Ok m ->
  ~ In x on -> has_col x a = true -> has_col x b = true ->
  exists pre post,
    columns m = columns a ++ pre ++ (x ++ "_dup")%string :: post.
Proof.
  intros H Hx Ha Hb. destruct (merge_Ok _ _ _ _ H) as [_ ->]. simpl.
  assert (Hin : In x (filter (fun c => negb (mem c on)) (columns b))).
  { apply filter_In. split; [apply mem_In; exact Hb|].
    destruct (mem x on) eqn:E; [|reflexivity]. apply mem_In in E. contradiction. }
  apply in_split in Hin. destruct Hin as [l1 [l2 ->]].
  rewrite map_app. simpl. unfold dup_name at 2. unfold has_col in Ha. rewrite Ha.
  eexists. eexists. reflexivity.
Qed.

(** X8.  The suffixes [(None, '_dup')] of line 79 give a shared column the
    same new name at every join.  When three or more tables that all carry
    a column [x] that is no join key are joined, the second table's [x] and
    the third table's [x] both become [x_dup]: a table that the sequence of
    joins returns has two columns of that name.  Tables whose geometry was
    built from equally named latitude and longitude columns are such
    tables. *)
Theorem third_join_repeats_column (time_cols : list string) (a b c : frame)
    (rest : list frame) (x : string) (out : frame) :
  merge_cols time_cols (a :: b :: c :: rest) <> [] ->
  ~ In x (merge_cols time_cols (a :: b :: c :: rest)) ->
  has_col x a = true -> has_col x b = true -> has_col x c = true ->
  merge_or_concat time_cols (a :: b :: c :: rest) = Ok out ->
  (2 <= count_occ string_dec (columns out) (x ++ "_dup")%string)%nat.
Proof.
  intros Hne Hx Ha Hb Hc H.
  apply (merge_or_concat_join _ _ _ _ Hne) in H.
  set (on := merge_cols time_cols (a :: b :: c :: rest)) in *.
  simpl in H. inv_bind H. rename a0 into m1, Ha0 into H1.
  inv_bind H. rename a0 into m2, Ha0 into H2.
  destruct (join_columns_second a b on x m1 H1 Hx Ha Hb) as [pre1 [post1 E1]].
  assert (Hm1 : has_col x m1 = true).
  { unfold has_col. rewrite E1. apply mem_In. apply in_or_app. left. apply mem_In. exact Ha. }
  destruct (join_columns_second m1 c on x m2 H2 Hx Hm1 Hc) as [pre2 [post2 E2]].
  destruct (join_fold on rest m2 out H) as [[more E] _].
  rewrite E, E2, E1. rewrite !count_occ_app. simpl.
  destruct (string_dec (x ++ "_dup") (x ++ "_dup")) as [_|N]; [lia|contradiction].
Qed.

Lemma third_join_repeats_column_witness :
  exists out,
    clean_and_merge_data example_library
                         [Examples.pickups; Examples.stations; Examples.pickups]
                         "EPSG:4326" [] = Ok out
    /\ columns out
       = ["lat"; "lon"; "fare"; "geometry"; "lat_dup"; "lon_dup"; "name";
          "lat_dup"; "lon_dup"; "fare_dup"]
    /\ exists a b c merged,
         mapM (clean example_library "EPSG:4326" [])
              [Examples.pickups; Examples.stations; Examples.pickups] = Ok [a; b; c]
         /\ merge_or_concat [] [a; b; c] = Ok merged
         /\ (2 <= count_occ string_dec (columns merged) "lat_dup"%string)%nat.
Proof.
  eexists. split; [vm_compute; reflexivity|]. split; [reflexivity|].
  destruct (mapM (clean example_library "EPSG:4326" [])
              [Examples.pickups; Examples.stations; Examples.pickups]) as [l|e] eqn:E;
    [|exfalso; vm_compute in E; discriminate E].
  vm_compute in E. injection E as <-.
  match goal with
  | |- exists a b c merged, Ok [?fa; ?fb; ?fc] = _ /\ _ =>
      destruct (merge_or_concat [] [fa; fb; fc]) as [merged|e] eqn:Em;
        [exists fa, fb, fc, merged|exfalso; vm_compute in Em; discriminate Em]
  end.
  split; [reflexivity|]. split; [exact Em|].
  apply (third_join_repeats_column [] _ _ _ [] "lat"%string merged) in Em;
    try reflexivity; [exact Em|discriminate|].
  simpl. intros [H|[]]. discriminate H.
Defined.

(** ** The shape of a concatenation *)

Lemma mem_fold_add_col (c : string) (cs acc : list string) :
  mem c (fold_left (fun a c' => add_col c' a) cs acc) = (mem c acc || mem c cs)%bool.
Proof.
  revert acc. induction cs as [|c' cs IH]; intros acc; simpl.
  - rewrite orb_false_r. reflexivity.
  - rewrite IH, mem_add_col. rewrite <- orb_assoc. reflexivity.
Qed.

Lemma mem_union_cols_from (c : string) (dfs : list frame) (acc : list string) :
  mem c (fold_left (fun acc df => fold_left (fun a c' => add_col c' a) (columns df) acc)
                   dfs acc)
  = (mem c acc || existsb (has_col c) dfs)%bool.
Proof.
  revert acc. induction dfs as [|df dfs IH]; intros acc; simpl.
  - rewrite orb_false_r. reflexivity.
  - rewrite IH, mem_fold_add_col. rewrite <- orb_assoc. reflexivity.
Qed.

Lemma nodupb_add_col (c : string) (cs : list string) :
  nodupb cs = true -> nodupb (add_col c cs) = true.
Proof.
  unfold add_col. destruct (mem c cs) eqn:E; [auto|].
  induction cs as [|a cs IH]; simpl; [reflexivity|].
  intros H. apply andb_prop in H. destruct H as [Ha Hn].
  simpl in E. apply orb_false_elim in E. destruct E as [Eca Ec].
  rewrite (IH Ec Hn), andb_true_r.
  unfold mem. rewrite existsb_app. simpl. rewrite orb_false_r.
  unfold mem in Ha. apply negb_true_iff in Ha. rewrite Ha. simpl.
  rewrite String.eqb_sym. rewrite Eca. reflexivity.
Qed.

Lemma nodupb_union_cols (dfs : list frame) : nodupb (union_cols dfs) = true.
Proof.
  unfold union_cols.
  assert (H : forall acc, nodupb acc = true ->
            nodupb (fold_left (fun acc df => fold_left (fun a c' => add_col c' a)
                                                       (columns df) acc) dfs acc) = true).
  { induction dfs as [|df dfs IH]; intros acc Hacc; simpl; [exact Hacc|].
    apply IH. generalize (columns df). intros cs. revert acc Hacc.
    induction cs as [|c cs IHc]; intros acc Hacc; simpl; [exact Hacc|].
    apply IHc. apply nodupb_add_col. exact Hacc. }
  apply H. reflexivity.
Qed.

Lemma labels_relabel (n : Z) (rs : list row) :
  map label (relabel n rs) = map (fun i => n + Z.of_nat i) (seq 0 (List.length rs)).
Proof.
  revert n. induction rs as [|r rs IH]; intros n; simpl; [reflexivity|].
  rewrite Z.add_0_r. f_equal. rewrite IH, <- seq_shift, map_map.
  apply map_ext. intros i. lia.
Qed.

Lemma get_reindex_row (cols : list string) (df : frame) (r : row) (c : string) :
  (has_col c df = true -> In c cols) ->
  get (reindex_row cols df r) c = if has_col c df then get r c else CNull.
Proof.
  intros Hin. unfold get at 1, reindex_row. simpl.
  induction cols as [|k cols IH]; simpl.
  - destruct (has_col c df); [destruct (Hin eq_refl)|reflexivity].
  - destruct (String.eqb c k) eqn:E.
    + apply String.eqb_eq in E. subst k. reflexivity.
    + apply IH. intros H. destruct (Hin H) as [->|H']; [|exact H'].
      rewrite String.eqb_refl in E. discriminate.
Qed.

(** X9.  The concatenation of a non-empty list of tables has as columns
    exactly the columns of its tables, none twice; its index labels are
    0, 1, 2, ... up to the sum of the row counts; and each of its records is
    a record of one of the tables, with that table's values in the table's
    columns and a missing value in every other column. *)
Theorem concat_shape (dfs : list frame) (out : frame) :
  concat dfs = Ok out ->
  (forall c, has_col c out = true <-> exists df, In df dfs /\ has_col c df = true)
  /\ nodupb (columns out) = true
  /\ map label (rows out) = map Z.of_nat (seq 0 (total_rows dfs))
  /\ forall r', In r' (rows out) ->
       exists df r, In df dfs /\ In r (rows df)
                    /\ forall c, get r' c = if has_col c df then get r c else CNull.
Proof.
  intros H. pose proof (concat_rows dfs out H) as [Hf Hlen].
  unfold concat in H. destruct dfs as [|d ds] eqn:Ed; [discriminate|]. rewrite <- Ed in *.
  injection H as <-. simpl rows in *. simpl columns.
  assert (Hmem : forall c, mem c (union_cols dfs) = existsb (has_col c) dfs).
  { intros c. unfold union_cols. rewrite mem_union_cols_from. reflexivity. }
  split; [|split; [|split]].
  - intros c. unfold has_col at 1. simpl. rewrite Hmem, existsb_exists. reflexivity.
  - apply nodupb_union_cols.
  - rewrite labels_relabel. rewrite <- Hlen, length_relabel. reflexivity.
  - intros r' Hr'.
    assert (Hin : In (fields r') (map fields (relabel 0
                     (flat_map (fun df => map (reindex_row (union_cols dfs) df) (rows df))
                               dfs))))
      by (apply in_map; exact Hr').
    rewrite Hf in Hin. apply in_flat_map in Hin. destruct Hin as [df [Hdf Hin]].
    apply in_map_iff in Hin. destruct Hin as [r [Hr Hin]].
    exists df, r. split; [exact Hdf|]. split; [exact Hin|].
    intros c. rewrite (get_fields r' (reindex_row (union_cols dfs) df r) c) by (symmetry; exact Hr).
    apply get_reindex_row. intros Hc. apply mem_In. rewrite Hmem.
    apply existsb_exists. exists df. split; assumption.
Qed.

Lemma concat_shape_witness :
  exists out,
    concat [Examples.pickups; Examples.zones] = Ok out
    /\ columns out = ["lat"; "lon"; "fare"; "zone"; "geom"]%string
    /\ map label (rows out) = [0; 1; 2; 3].
Proof.
  destruct (concat [Examples.pickups; Examples.zones]) as [out|e] eqn:E;
    [|exfalso; vm_compute in E; discriminate E].
  exists out. split; [reflexivity|].
  destruct (concat_shape _ out E) as [_ [_ [Hl _]]].
  split; [|exact Hl].
  vm_compute in E. injection E as <-. reflexivity.
Defined.

(** ** Rows through the taxi sanitizer *)

Lemma only_drops_refl (rs : list row) : only_drops rs rs.
Proof. split; [apply Nat.le_refl|auto]. Qed.

Lemma only_drops_trans (rs2 rs1 rs0 : list row) :
  only_drops rs2 rs1 -> only_drops rs1 rs0 -> only_drops rs2 rs0.
Proof.
  intros [L2 N2] [L1 N1]. split; [eapply Nat.le_trans; eassumption|auto].
Qed.

Lemma only_drops_labels (rs' rs : list row) :
  map label rs' = map label rs -> only_drops rs' rs.
Proof.
  intros E. split.
  - rewrite <- (length_map label rs'), E, length_map. apply Nat.le_refl.
  - rewrite E. auto.
Qed.

Lemma only_drops_select (p : row -> bool) (df : frame) :
  only_drops (rows (select p df)) (rows df).
Proof. split; [apply filter_length_le|apply labels_filter_NoDup]. Qed.

Lemma labels_assign (c : string) (f : row -> cell) (df : frame) :
  map label (rows (assign c f df)) = map label (rows df).
Proof. unfold assign. simpl. rewrite map_map. reflexivity. Qed.

Lemma only_drops_assign (c : string) (f : row -> cell) (df : frame) :
  only_drops (rows (assign c f df)) (rows df).
Proof. apply only_drops_labels, labels_assign. Qed.

Lemma stems_refl (df : frame) : stems [] df df.
Proof. intros r Hr. exists r. auto. Qed.

Lemma stems_select (p : row -> bool) (df : frame) : stems [] (select p df) df.
Proof.
  intros r Hr. apply In_select in Hr. exists r. split; [apply Hr|]. auto.
Qed.

Lemma stems_assign (c : string) (f : row -> cell) (df : frame) :
  stems [c] (assign c f df) df.
Proof.
  intros r' Hr. apply In_assign in Hr. destruct Hr as [r [Hr ->]].
  exists r. split; [exact Hr|]. split; [reflexivity|].
  intros c' Hc. apply get_setitem_other. intros E. apply Hc. left. exact E.
Qed.

Lemma stems_trans (t2 t1 : list string) (df2 df1 df0 : frame) :
  stems t2 df2 df1 -> stems t1 df1 df0 -> stems (t2 ++ t1) df2 df0.
Proof.
  intros H2 H1 r2 Hr2. destruct (H2 r2 Hr2) as [r1 [Hr1 [L2 G2]]].
  destruct (H1 r1 Hr1) as [r0 [Hr0 [L1 G1]]].
  exists r0. split; [exact Hr0|]. split; [congruence|].
  intros c Hc. rewrite G2, G1; [reflexivity| |]; intros Hin; apply Hc;
    apply in_or_app; auto.
Qed.

Lemma stems_incl (t t' : list string) (df' df : frame) :
  incl t t' -> stems t df' df -> stems t' df' df.
Proof.
  intros Hi H r' Hr'. destruct (H r' Hr') as [r [Hr [L G]]].
  exists r. split; [exact Hr|]. split; [exact L|].
  intros c Hc. apply G. intros Hin. apply Hc, Hi, Hin.
Qed.

(** The stages after the duration has been set. *)
Lemma stems_add_time_features (lib : Library) (df : frame) :
  stems ["pickup_weekday"; "pickup_month"; "pickup_day"; "pickup_hour"]
        (add_time_features lib df) df.
Proof.
  unfold add_time_features. cbv zeta.
  apply (stems_trans ["pickup_weekday"] ["pickup_month"; "pickup_day"; "pickup_hour"]
           _ _ _ (stems_assign _ _ _)).
  apply (stems_trans ["pickup_month"] ["pickup_day"; "pickup_hour"] _ _ _ (stems_assign _ _ _)).
  apply (stems_trans ["pickup_day"] ["pickup_hour"] _ _ _ (stems_assign _ _ _)).
  apply stems_assign.
Qed.

Lemma only_drops_add_time_features (lib : Library) (df : frame) :
  only_drops (rows (add_time_features lib df)) (rows df).
Proof.
  unfold add_time_features. cbv zeta. apply only_drops_labels.
  rewrite !labels_assign. reflexivity.
Qed.

Lemma stems_add_speed (df : frame) : stems ["avg_speed_mph"] (add_speed df) df.
Proof.
  unfold add_speed.
  destruct (has_col "trip_distance" df && has_col "trip_duration" df)%bool.
  - apply (stems_trans [] ["avg_speed_mph"] _ _ _ (stems_select _ _)). apply stems_assign.
  - apply (stems_incl []); [intros c []|apply stems_refl].
Qed.

Lemma only_drops_add_speed (df : frame) : only_drops (rows (add_speed df)) (rows df).
Proof.
  unfold add_speed.
  destruct (has_col "trip_distance" df && has_col "trip_duration" df)%bool.
  - eapply only_drops_trans; [apply only_drops_select|apply only_drops_assign].
  - apply only_drops_refl.
Qed.

Lemma stems_copy_col (src dst : string) (df : frame) : stems [dst] (copy_col src dst df) df.
Proof.
  unfold copy_col. destruct (has_col src df).
  - apply stems_assign.
  - apply (stems_incl []); [intros c []|apply stems_refl].
Qed.

Lemma only_drops_copy_col (src dst : string) (df : frame) :
  only_drops (rows (copy_col src dst df)) (rows df).
Proof.
  unfold copy_col. destruct (has_col src df);
    [apply only_drops_assign|apply only_drops_refl].
Qed.

(** The numeric conversion row by row. *)
Lemma labels_convert_present (f : cell -> cell) (cols : list string) (df : frame) :
  map label (rows (convert_present f cols df)) = map label (rows df).
Proof.
  unfold convert_present. revert df.
  induction cols as [|c cols IH]; intros df; simpl; [reflexivity|].
  rewrite IH. destruct (has_col c df); [apply labels_assign|reflexivity].
Qed.

Lemma not_In_mem (c : string) (cs : list string) : ~ In c cs -> mem c cs = false.
Proof.
  intros H. destruct (mem c cs) eqn:E; [|reflexivity]. apply mem_In in E. contradiction.
Qed.

Lemma incl_mem (l l' : list string) :
  forallb (fun c => mem c l') l = true -> forall c, In c l -> In c l'.
Proof.
  intros H c Hc. apply mem_In. rewrite forallb_forall in H. apply H. exact Hc.
Qed.

Lemma mem_cons (c k : string) (cs : list string) :
  mem c (k :: cs) = (String.eqb c k || mem c cs)%bool.
Proof. reflexivity. Qed.

Lemma In_convert_present (f : cell -> cell) (cols : list string) (df : frame) (r' : row) :
  NoDup cols ->
  In r' (rows (convert_present f cols df)) ->
  exists r, In r (rows df) /\ label r' = label r
            /\ forall c, get r' c = if (mem c cols && has_col c df)%bool
                                    then f (get r c) else get r c.
Proof.
  unfold convert_present. revert df.
  induction cols as [|col cols IH]; intros df Hnd Hr; simpl in Hr.
  - exists r'. split; [exact Hr|]. split; reflexivity.
  - apply NoDup_cons_iff in Hnd. destruct Hnd as [Hnin Hnd].
    destruct (IH _ Hnd Hr) as [r1 [Hr1 [L1 G1]]]. clear IH Hr.
    assert (Hmem : mem col cols = false) by (apply not_In_mem; exact Hnin).
    destruct (has_col col df) eqn:Ecol.
    + apply In_assign in Hr1. destruct Hr1 as [r [Hr ->]].
      exists r. split; [exact Hr|]. split; [exact L1|].
      intros c. rewrite G1, mem_cons.
      rewrite (has_col_columns c df _ (columns_assign_present col _ df Ecol)).
      destruct (String.eqb c col) eqn:E.
      * apply String.eqb_eq in E. subst c. rewrite Hmem, Ecol. simpl.
        apply get_setitem_same.
      * simpl. assert (Hne : col <> c).
        { intros ->. rewrite String.eqb_refl in E. discriminate. }
        rewrite !(get_setitem_other col c) by exact Hne. reflexivity.
    + exists r1. split; [exact Hr1|]. split; [exact L1|].
      intros c. rewrite G1, mem_cons.
      destruct (String.eqb c col) eqn:E; [|reflexivity].
      apply String.eqb_eq in E. subst c. rewrite Hmem, Ecol. reflexivity.
Qed.

Lemma only_drops_numeric_taxi (lib : Library) (df : frame) :
  only_drops (rows (numeric_taxi lib df)) (rows df).
Proof.
  unfold numeric_taxi. cbv zeta.
  eapply only_drops_trans; [|eapply only_drops_trans; [|eapply only_drops_trans]].
  - unfold filter_fare_amount. destruct (has_col "fare_amount" _).
    + eapply only_drops_trans; apply only_drops_select.
    + apply only_drops_refl.
  - unfold filter_trip_distance. destruct (has_col "trip_distance" _).
    + eapply only_drops_trans; apply only_drops_select.
    + apply only_drops_refl.
  - unfold filter_passenger_count. destruct (has_col "passenger_count" _).
    + eapply only_drops_trans; apply only_drops_select.
    + apply only_drops_refl.
  - apply only_drops_labels, labels_convert_present.
Qed.

Lemma In_rows_numeric_taxi (lib : Library) (df : frame) (r : row) :
  In r (rows (numeric_taxi lib df)) ->
  In r (rows (convert_present (to_numeric lib)
                ["passenger_count"; "trip_distance"; "fare_amount"; "tip_amount";
                 "total_amount"] df)).
Proof.
  unfold numeric_taxi. cbv zeta. intros H.
  apply In_filter_fare_amount in H. destruct H as [H _].
  apply In_filter_trip_distance in H. destruct H as [H _].
  apply In_filter_passenger_count in H. destruct H as [H _]. exact H.
Qed.

(** The datetime conversion row by row. *)
Lemma to_datetime_idempotent (lib : Library) (v : cell) :
  to_datetime lib (to_datetime lib v) = to_datetime lib v.
Proof.
  destruct v as [|x|s|t|g]; simpl; try reflexivity.
  - destruct (datetime_of_number lib x); reflexivity.
  - destruct (datetime_of_string lib s); reflexivity.
Qed.

Lemma In_convert_datetimes_values (lib : Library) (cols : list string) (df out : frame)
    (r' : row) :
  convert_datetimes lib cols df = Ok out ->
  In r' (rows out) ->
  exists r, In r (rows df) /\ label r' = label r
            /\ forall c, get r' c = if (mem c cols && has_col c df)%bool
                                    then to_datetime lib (get r c) else get r c.
Proof.
  unfold convert_datetimes. revert df.
  induction cols as [|col cols IH]; intros df H Hr; simpl in H.
  - injection H as <-. exists r'. split; [exact Hr|]. split; reflexivity.
  - inv_bind H. destruct (IH a H Hr) as [r1 [Hr1 [L1 G1]]]. clear IH H Hr.
    destruct (has_col col df) eqn:Ecol.
    + inv_bind Ha. injection Ha as <-.
      apply In_assign in Hr1. destruct Hr1 as [r [Hr ->]].
      exists r. split; [exact Hr|]. split; [exact L1|].
      intros c. rewrite G1, mem_cons.
      rewrite (has_col_columns c df _ (columns_assign_present col _ df Ecol)).
      destruct (String.eqb c col) eqn:E.
      * apply String.eqb_eq in E. subst c. rewrite Ecol, get_setitem_same. simpl.
        rewrite andb_true_r. destruct (mem col cols); [|reflexivity].
        apply to_datetime_idempotent.
      * simpl. assert (Hne : col <> c).
        { intros ->. rewrite String.eqb_refl in E. discriminate. }
        rewrite !(get_setitem_other col c) by exact Hne. reflexivity.
    + injection Ha as <-. exists r1. split; [exact Hr1|]. split; [exact L1|].
      intros c. rewrite G1, mem_cons.
      destruct (String.eqb c col) eqn:E; [|reflexivity].
      apply String.eqb_eq in E. subst c. rewrite Ecol, !andb_false_r. reflexivity.
Qed.

Lemma labels_convert_datetimes (lib : Library) (cols : list string) (df out : frame) :
  convert_datetimes lib cols df = Ok out -> map label (rows out) = map label (rows df).
Proof.
  unfold convert_datetimes. revert df.
  induction cols as [|col cols IH]; intros df H; simpl in H.
  - injection H as <-. reflexivity.
  - inv_bind H. rewrite (IH a H). destruct (has_col col df).
    + inv_bind Ha. injection Ha as <-. apply labels_assign.
    + injection Ha as <-. reflexivity.
Qed.

(** The sanitizer in its stages. *)
Lemma _clean_taxi_data_stages (lib : Library) (df out : frame) :
  empty df = false ->
  _clean_taxi_data lib df = Ok out ->
  exists typed timed,
    convert_datetimes lib ["pickup_datetime"; "dropoff_datetime"] (numeric_taxi lib df)
    = Ok typed
    /\ has_col "pickup_datetime" typed = true
    /\ has_col "dropoff_datetime" typed = true
    /\ timed = assign "trip_duration"
                 (fun r => CNum (minutes_between (get r "pickup_datetime")
                                                 (get r "dropoff_datetime")))
                 (select (fun r => forallb (fun c => notna (get r c))
                                     ["pickup_datetime"; "dropoff_datetime"]) typed)
    /\ out = copy_col "DOLocationID" "dropoff_zone"
               (copy_col "PULocationID" "pickup_zone"
                  (add_speed
                     (add_time_features lib
                        (select (fun r => (num r "trip_duration" <? 1440)%float)
                           (select (fun r => (0 <? num r "trip_duration")%float) timed))))).
Proof.
  intros Hne H. unfold _clean_taxi_data in H. rewrite Hne in H. cbv zeta in H.
  inv_bind H. inv_bind H. inv_bind H. injection H as <-.
  rename a into typed, a0 into dropped, a1 into timed.
  unfold add_trip_duration in Ha1. inv_bind Ha1. inv_bind Ha1.
  destruct (Bool.eqb (is_some a) (is_some a0)); [|discriminate].
  inv_bind Ha1. injection Ha1 as <-.
  unfold dropna in Ha0. simpl forallb in Ha0 at 1.
  destruct (has_col "pickup_datetime" typed) eqn:E1; [|discriminate].
  destruct (has_col "dropoff_datetime" typed) eqn:E2; [|discriminate].
  simpl in Ha0. injection Ha0 as <-.
  exists typed, (assign "trip_duration"
                 (fun r => CNum (minutes_between (get r "pickup_datetime")
                                                 (get r "dropoff_datetime")))
                 (select (fun r => forallb (fun c => notna (get r c))
                                     ["pickup_datetime"; "dropoff_datetime"]) typed)).
  repeat split; try assumption; reflexivity.
Qed.

(** X10.  The taxi sanitizer only drops records.  The table it returns has
    at most as many records as the input and distinct index labels stay
    distinct; every returned record stems from an input record with the same
    label.  Outside the five numeric columns, the two datetime columns and
    the columns the sanitizer derives, it has the input's values; in a
    numeric column a number is kept as it is and text is replaced by the
    number it reads as (NaN if none); the two datetime columns hold what
    [pd.to_datetime] makes of the input's values. *)
Theorem taxi_rows_stem_from_input (lib : Library) (df out : frame) :
  empty df = false ->
  _clean_taxi_data lib df = Ok out ->
  (List.length (rows out) <= List.length (rows df))%nat
  /\ (NoDup (map label (rows df)) -> NoDup (map label (rows out)))
  /\ forall r', In r' (rows out) ->
       exists r, In r (rows df) /\ label r' = label r
         /\ (forall c,
               ~ In c ["passenger_count"; "trip_distance"; "fare_amount"; "tip_amount";
                       "total_amount"; "pickup_datetime"; "dropoff_datetime";
                       "trip_duration"; "pickup_hour"; "pickup_day"; "pickup_month";
                       "pickup_weekday"; "avg_speed_mph"; "pickup_zone"; "dropoff_zone"] ->
               get r' c = get r c)
         /\ (forall c v,
               In c ["passenger_count"; "trip_distance"; "fare_amount"; "tip_amount";
                     "total_amount"] ->
               get r c = CNum v -> get r' c = CNum v)
         /\ (forall c s,
               In c ["passenger_count"; "trip_distance"; "fare_amount"; "tip_amount";
                     "total_amount"] ->
               has_col c df = true -> get r c = CStr s ->
               get r' c = CNum (match numeric_of_string lib s with
                                | Some v => v
                                | None => nan
                                end))
         /\ get r' "pickup_datetime" = to_datetime lib (get r "pickup_datetime")
         /\ get r' "dropoff_datetime" = to_datetime lib (get r "dropoff_datetime").
Proof.
  intros Hne H.
  destruct (_clean_taxi_data_stages lib df out Hne H) as [typed [timed [Ht [Hp [Hd [-> ->]]]]]].
  assert (Hod : only_drops
                  (rows (copy_col "DOLocationID" "dropoff_zone"
                     (copy_col "PULocationID" "pickup_zone"
                        (add_speed
                           (add_time_features lib
                              (select (fun r => (num r "trip_duration" <? 1440)%float)
                                 (select (fun r => (0 <? num r "trip_duration")%float)
                                    (assign "trip_duration"
                                       (fun r => CNum (minutes_between (get r "pickup_datetime")
                                                         (get r "dropoff_datetime")))
                                       (select (fun r => forallb (fun c => notna (get r c))
                                                           ["pickup_datetime"; "dropoff_datetime"])
                                          typed)))))))))
                  (rows df)).
  { eapply only_drops_trans; [apply only_drops_copy_col|].
    eapply only_drops_trans; [apply only_drops_copy_col|].
    eapply only_drops_trans; [apply only_drops_add_speed|].
    eapply only_drops_trans; [apply only_drops_add_time_features|].
    eapply only_drops_trans; [apply only_drops_select|].
    eapply only_drops_trans; [apply only_drops_select|].
    eapply only_drops_trans; [apply only_drops_assign|].
    eapply only_drops_trans; [apply only_drops_select|].
    eapply only_drops_trans; [apply only_drops_labels, (labels_convert_datetimes _ _ _ _ Ht)|].
    apply only_drops_numeric_taxi. }
  destruct Hod as [Hlen Hnd]. split; [exact Hlen|]. split; [exact Hnd|].
  intros r' Hr'.
  assert (Hst : stems ["dropoff_zone"; "pickup_zone"; "avg_speed_mph"; "pickup_weekday";
                       "pickup_month"; "pickup_day"; "pickup_hour"; "trip_duration"]
                  (copy_col "DOLocationID" "dropoff_zone"
                     (copy_col "PULocationID" "pickup_zone"
                        (add_speed
                           (add_time_features lib
                              (select (fun r => (num r "trip_duration" <? 1440)%float)
                                 (select (fun r => (0 <? num r "trip_duration")%float)
                                    (assign "trip_duration"
                                       (fun r => CNum (minutes_between (get r "pickup_datetime")
                                                         (get r "dropoff_datetime")))
                                       (select (fun r => forallb (fun c => notna (get r c))
                                                           ["pickup_datetime"; "dropoff_datetime"])
                                          typed))))))))
                  typed).
  { apply (stems_trans ["dropoff_zone"] _ _ _ _ (stems_copy_col _ _ _)).
    apply (stems_trans ["pickup_zone"] _ _ _ _ (stems_copy_col _ _ _)).
    apply (stems_trans ["avg_speed_mph"] _ _ _ _ (stems_add_speed _)).
    apply (stems_trans ["pickup_weekday"; "pickup_month"; "pickup_day"; "pickup_hour"]
             _ _ _ _ (stems_add_time_features _ _)).
    apply (stems_trans [] _ _ _ _ (stems_select _ _)).
    apply (stems_trans [] _ _ _ _ (stems_select _ _)).
    apply (stems_trans ["trip_duration"] [] _ _ _ (stems_assign _ _ _)).
    apply stems_select. }
  destruct (Hst r' Hr') as [r4 [Hr4 [L4 G4]]].
  destruct (In_convert_datetimes_values _ _ _ _ _ Ht Hr4) as [r3 [Hr3 [L3 G3]]].
  apply In_rows_numeric_taxi in Hr3.
  apply In_convert_present in Hr3;
    [|repeat constructor; simpl; intuition discriminate].
  destruct Hr3 as [r [Hr [L G]]].
  assert (Hpt : has_col "pickup_datetime" (numeric_taxi lib df) = true).
  { rewrite <- (has_col_columns _ _ _ (columns_convert_datetimes _ _ _ _ Ht)). exact Hp. }
  assert (Hdt : has_col "dropoff_datetime" (numeric_taxi lib df) = true).
  { rewrite <- (has_col_columns _ _ _ (columns_convert_datetimes _ _ _ _ Ht)). exact Hd. }
  exists r. split; [exact Hr|]. split; [congruence|].
  split; [|split; [|split; [|split]]].
  - intros c Hc. rewrite G4, G3, G.
    + rewrite (not_In_mem c ["pickup_datetime"; "dropoff_datetime"]),
        (not_In_mem c ["passenger_count"; "trip_distance"; "fare_amount"; "tip_amount";
                       "total_amount"]); [reflexivity| |];
        intros Hin; apply Hc; revert Hin; apply incl_mem; reflexivity.
    + intros Hin. apply Hc. revert Hin. apply incl_mem. reflexivity.
  - intros c v Hc Hv. rewrite G4, G3, G.
    + assert (E1 : mem c ["pickup_datetime"; "dropoff_datetime"] = false).
      { simpl in Hc. destruct Hc as [<-|[<-|[<-|[<-|[<-|[]]]]]]; reflexivity. }
      rewrite E1, Hv, andb_false_l.
      destruct (mem c _ && has_col c df)%bool; reflexivity.
    + simpl in Hc. simpl. intros Hin.
      destruct Hc as [<-|[<-|[<-|[<-|[<-|[]]]]]]; intuition discriminate.
  - intros c s Hc Hcol Hs. rewrite G4, G3, G.
    + assert (E1 : mem c ["pickup_datetime"; "dropoff_datetime"] = false).
      { simpl in Hc. destruct Hc as [<-|[<-|[<-|[<-|[<-|[]]]]]]; reflexivity. }
      assert (E2 : mem c ["passenger_count"; "trip_distance"; "fare_amount"; "tip_amount";
                          "total_amount"] = true) by (apply mem_In; exact Hc).
      rewrite E1, E2, Hcol. simpl. rewrite Hs. simpl.
      destruct (numeric_of_string lib s); reflexivity.
    + simpl in Hc. simpl. intros Hin.
      destruct Hc as [<-|[<-|[<-|[<-|[<-|[]]]]]]; intuition discriminate.
  - rewrite G4, G3, G by (simpl; intuition discriminate).
    rewrite Hpt. reflexivity.
  - rewrite G4, G3, G by (simpl; intuition discriminate).
    rewrite Hdt. reflexivity.
Qed.

Lemma taxi_rows_stem_from_input_witness :
  (List.length (rows Examples.trips_cleaned) <= List.length (rows Examples.trips))%nat
  /\ exists r, In r (rows Examples.trips)
               /\ label Examples.trip_cleaned = label r
               /\ get Examples.trip_cleaned "fare_amount" = get r "fare_amount"
               /\ get Examples.trip_cleaned "pickup_datetime"
                  = to_datetime example_library (get r "pickup_datetime").
Proof.
  assert (H : _clean_taxi_data example_library Examples.trips = Ok Examples.trips_cleaned)
    by (vm_compute; reflexivity).
  destruct (taxi_rows_stem_from_input example_library Examples.trips Examples.trips_cleaned
              eq_refl H) as [Hlen [_ Hrow]].
  split; [exact Hlen|].
  destruct (Hrow Examples.trip_cleaned (or_introl eq_refl))
    as [r [Hr [L [_ [Hnum [_ [Hp _]]]]]]].
  exists r. split; [exact Hr|]. split; [exact L|]. split; [|exact Hp].
  simpl in Hr. destruct Hr as [<-|[<-|[<-|[]]]]; try discriminate L.
  apply (Hnum "fare_amount"%string 21.5%float); [simpl; auto|reflexivity].
Defined.

(** ** When the taxi sanitizer returns *)

Lemma dt_tz_naive (cs : list cell) :
  (forall t, In (CTime t) cs -> tz_of t = None) -> dt_tz cs = Ok None.
Proof.
  intros H. unfold dt_tz. destruct (timestamps cs) as [|t ts] eqn:E; [reflexivity|].
  assert (Ht : forall u, In u (t :: ts) -> tz_of u = None).
  { intros u Hu. apply H. apply In_timestamps. rewrite E. exact Hu. }
  assert (Hall : forallb (fun u => option_string_eqb (tz_of t) (tz_of u)) ts = true).
  { apply forallb_forall. intros u Hu.
    rewrite (Ht t (or_introl eq_refl)), (Ht u (or_intror Hu)). reflexivity. }
  rewrite Hall, (Ht t (or_introl eq_refl)). reflexivity.
Qed.

Lemma convert_datetimes_naive (lib : Library) (cols : list string) (df : frame) :
  (forall c r t, In c cols -> In r (rows df) ->
                 to_datetime lib (get r c) = CTime t -> tz_of t = None) ->
  exists out, convert_datetimes lib cols df = Ok out.
Proof.
  unfold convert_datetimes. revert df.
  induction cols as [|col cols IH]; intros df H; simpl.
  - exists df. reflexivity.
  - destruct (has_col col df) eqn:Ecol.
    + assert (Hz : same_zone lib (column col df)).
      { exists None. intros v t Hv Ht. unfold column in Hv. apply in_map_iff in Hv.
        destruct Hv as [r [<- Hr]]. exact (H col r t (or_introl eq_refl) Hr Ht). }
      destruct (same_zone_returns lib _ Hz) as [-> _]. simpl.
      apply IH. intros c r' t Hc Hr' Ht.
      apply In_assign in Hr'. destruct Hr' as [r [Hr ->]].
      destruct (String.eqb col c) eqn:E.
      * apply String.eqb_eq in E. subst c. rewrite get_setitem_same in Ht.
        rewrite to_datetime_idempotent in Ht.
        exact (H col r t (or_introl eq_refl) Hr Ht).
      * rewrite get_setitem_other in Ht
          by (intros ->; rewrite String.eqb_refl in E; discriminate).
        exact (H c r t (or_intror Hc) Hr Ht).
    + simpl. apply IH. intros c r t Hc. apply H. right. exact Hc.
Qed.

Lemma mapM_returns {A B : Type} (f : A -> result B) (xs : list A) :
  (forall x, In x xs -> returns (f x) = true) -> returns (mapM f xs) = true.
Proof.
  induction xs as [|x xs IH]; intros H; simpl; [reflexivity|].
  pose proof (H x (or_introl eq_refl)) as Hx.
  destruct (f x); [|discriminate Hx]. simpl.
  assert (Hxs : returns (mapM f xs) = true) by (apply IH; intros y Hy; apply H; right; exact Hy).
  destruct (mapM f xs); [reflexivity|discriminate Hxs].
Qed.

Lemma mapM_Raise_only {A B : Type} (f : A -> result B) (xs : list A) (e0 : exn) (x : A) :
  (forall y e, In y xs -> f y = Raise e -> e = e0) ->
  In x xs -> returns (f x) = false ->
  mapM f xs = Raise e0.
Proof.
  induction xs as [|y xs IH]; intros Honly Hin Hx; [contradiction|]. simpl.
  destruct (f y) as [b|e] eqn:Ey.
  - simpl. rewrite IH; [reflexivity| | |].
    + intros z e Hz. apply Honly. right. exact Hz.
    + destruct Hin as [->|Hin]; [rewrite Ey in Hx; discriminate Hx|exact Hin].
    + exact Hx.
  - simpl. rewrite (Honly y e (or_introl eq_refl) Ey). reflexivity.
Qed.

Lemma timedelta_Raise (a b : cell) (e : exn) : timedelta a b = Raise e -> e = OverflowError.
Proof.
  unfold timedelta. intros H.
  destruct a as [|v|s|[s|s z]|g]; try discriminate H;
    destruct b as [|v'|s'|[e'|e' z']|g']; try discriminate H;
    cbv zeta in H; destruct (_ || _)%bool; try discriminate H; injection H as <-; reflexivity.
Qed.

(** The datetime conversion keeps every record. *)
Lemma In_convert_datetimes_forward (lib : Library) (cols : list string) (df out : frame)
    (r : row) :
  convert_datetimes lib cols df = Ok out ->
  In r (rows df) ->
  exists r', In r' (rows out)
             /\ forall c, get r' c = if (mem c cols && has_col c df)%bool
                                     then to_datetime lib (get r c) else get r c.
Proof.
  unfold convert_datetimes. revert df r.
  induction cols as [|col cols IH]; intros df r H Hr; simpl in H.
  - injection H as <-. exists r. split; [exact Hr|]. reflexivity.
  - inv_bind H. destruct (has_col col df) eqn:Ecol.
    + inv_bind Ha. injection Ha as <-.
      assert (Hr1 : In (setitem col (to_datetime lib (get r col)) r)
                       (rows (assign col (fun r => to_datetime lib (get r col)) df))).
      { unfold assign. simpl. apply in_map_iff. exists r. split; [reflexivity|exact Hr]. }
      destruct (IH _ _ H Hr1) as [r' [Hr' G]]. exists r'. split; [exact Hr'|].
      intros c. rewrite G, mem_cons.
      rewrite (has_col_columns c df _ (columns_assign_present col _ df Ecol)).
      destruct (String.eqb c col) eqn:E.
      * apply String.eqb_eq in E. subst c. rewrite Ecol, get_setitem_same. simpl.
        rewrite andb_true_r. destruct (mem col cols); [|reflexivity].
        apply to_datetime_idempotent.
      * simpl. assert (Hne : col <> c).
        { intros ->. rewrite String.eqb_refl in E. discriminate. }
        rewrite !(get_setitem_other col c) by exact Hne. reflexivity.
    + injection Ha as <-. destruct (IH _ _ H Hr) as [r' [Hr' G]].
      exists r'. split; [exact Hr'|].
      intros c. rewrite G, mem_cons.
      destruct (String.eqb c col) eqn:E; [|reflexivity].
      apply String.eqb_eq in E. subst c. rewrite Ecol, !andb_false_r. reflexivity.
Qed.

(** X11.  On a non-empty table whose pickup and drop-off values, as far as
    they parse, are tz-naive, what decides whether the taxi sanitizer
    returns is the presence of the two columns and the subtraction of line
    233.  When every record's drop-off and pickup time are less than 2^63
    nanoseconds apart, the sanitizer returns a table exactly when the table
    has both a [pickup_datetime] and a [dropoff_datetime] column: no other
    column is needed and no other value makes it raise.  When a record that
    passes the range filters has times further apart, the subtraction
    overflows and the sanitizer raises [OverflowError]. *)
Theorem taxi_sanitizer_returns (lib : Library) (df : frame) :
  empty df = false ->
  (forall c r t, In c ["pickup_datetime"; "dropoff_datetime"] -> In r (rows df) ->
                 to_datetime lib (get r c) = CTime t -> tz_of t = None) ->
  ((forall r s e, In r (rows df) ->
                  to_datetime lib (get r "pickup_datetime") = CTime (Naive s) ->
                  to_datetime lib (get r "dropoff_datetime") = CTime (Naive e) ->
                  - 2 ^ 63 < e - s < 2 ^ 63) ->
   (returns (_clean_taxi_data lib df) = true
    <-> has_col "pickup_datetime" df = true /\ has_col "dropoff_datetime" df = true))
  /\ (has_col "pickup_datetime" df = true ->
      has_col "dropoff_datetime" df = true ->
      (exists r s e, In r (rows (numeric_taxi lib df))
                     /\ to_datetime lib (get r "pickup_datetime") = CTime (Naive s)
                     /\ to_datetime lib (get r "dropoff_datetime") = CTime (Naive e)
                     /\ (e - s < - 2 ^ 63 \/ 2 ^ 63 <= e - s)) ->
      _clean_taxi_data lib df = Raise OverflowError).
Proof.
  intros Hne Hnaive.
  assert (Hnum : forall r3, In r3 (rows (numeric_taxi lib df)) ->
                   exists r, In r (rows df)
                             /\ forall c, In c ["pickup_datetime"; "dropoff_datetime"] ->
                                          get r3 c = get r c).
  { intros r3 Hr3. apply In_rows_numeric_taxi in Hr3.
    apply In_convert_present in Hr3;
      [|repeat constructor; simpl; intuition discriminate].
    destruct Hr3 as [r [Hr [_ G]]]. exists r. split; [exact Hr|].
    intros c Hc. rewrite G. simpl in Hc. destruct Hc as [<-|[<-|[]]]; reflexivity. }
  destruct (convert_datetimes_naive lib ["pickup_datetime"; "dropoff_datetime"]
              (numeric_taxi lib df)) as [typed Ht].
  { intros c r3 t Hc Hr3 Hv. destruct (Hnum r3 Hr3) as [r [Hr Hg]].
    rewrite (Hg c Hc) in Hv. exact (Hnaive c r t Hc Hr Hv). }
  assert (Hcols : columns typed = columns df).
  { rewrite (columns_convert_datetimes _ _ _ _ Ht). apply columns_numeric_taxi. }
  assert (Htz : forall c, In c ["pickup_datetime"; "dropoff_datetime"] ->
                          dt_tz (column c typed) = Ok None).
  { intros c Hc. apply dt_tz_naive. intros t Hin. unfold column in Hin.
    apply in_map_iff in Hin. destruct Hin as [r4 [Hg Hr4]].
    destruct (In_convert_datetimes_values _ _ _ _ _ Ht Hr4) as [r3 [Hr3 [_ G3]]].
    destruct (Hnum r3 Hr3) as [r [Hr Hg3]].
    rewrite G3, (Hg3 c Hc) in Hg.
    apply (Hnaive c r t Hc Hr).
    destruct (mem c _ && has_col c _)%bool.
    - exact Hg.
    - rewrite Hg. reflexivity. }
  (* the sanitizer up to the subtraction, with both columns *)
  assert (Hrun : has_col "pickup_datetime" df = true -> has_col "dropoff_datetime" df = true ->
            _clean_taxi_data lib df
            = (df <- (_ <- mapM (fun r => timedelta (get r "pickup_datetime")
                                                  (get r "dropoff_datetime"))
                          (rows (select (fun r => forallb (fun c => notna (get r c))
                                                    ["pickup_datetime"; "dropoff_datetime"])
                                        typed));;
                      Ok (assign "trip_duration"
                            (fun r => CNum (minutes_between (get r "pickup_datetime")
                                                            (get r "dropoff_datetime")))
                            (select (fun r => forallb (fun c => notna (get r c))
                                                ["pickup_datetime"; "dropoff_datetime"])
                                    typed)));;
               Ok (copy_col "DOLocationID" "dropoff_zone"
                     (copy_col "PULocationID" "pickup_zone"
                        (add_speed
                           (add_time_features lib
                              (select (fun r => (num r "trip_duration" <? 1440)%float)
                                 (select (fun r => (0 <? num r "trip_duration")%float) df)))))))).
  { intros Hp Hd. unfold _clean_taxi_data. rewrite Hne. cbv zeta. rewrite Ht. simpl bind.
    unfold dropna. simpl forallb.
    rewrite (has_col_columns "pickup_datetime" df typed Hcols), Hp.
    rewrite (has_col_columns "dropoff_datetime" df typed Hcols), Hd. simpl andb. cbv iota.
    simpl bind at 1. unfold add_trip_duration.
    rewrite (Htz "pickup_datetime") by (simpl; auto).
    rewrite (Htz "dropoff_datetime") by (simpl; auto).
    reflexivity. }
  assert (Hpt : has_col "pickup_datetime" df = true ->
                has_col "pickup_datetime" (numeric_taxi lib df) = true).
  { intros Hp. unfold has_col. rewrite columns_numeric_taxi. exact Hp. }
  assert (Hdt : has_col "dropoff_datetime" df = true ->
                has_col "dropoff_datetime" (numeric_taxi lib df) = true).
  { intros Hd. unfold has_col. rewrite columns_numeric_taxi. exact Hd. }
  split.
  - intros Hrange. split.
    + intros H. destruct (_clean_taxi_data lib df) as [out|e] eqn:E; [|discriminate H].
      destruct (_clean_taxi_data_stages lib df out Hne E) as [typed' [_ [Ht' [Hp [Hd _]]]]].
      apply columns_convert_datetimes in Ht'. rewrite columns_numeric_taxi in Ht'.
      rewrite <- (has_col_columns "pickup_datetime" df typed' Ht').
      rewrite <- (has_col_columns "dropoff_datetime" df typed' Ht'). split; assumption.
    + intros [Hp Hd]. rewrite (Hrun Hp Hd).
      assert (Hm : returns (mapM (fun r => timedelta (get r "pickup_datetime")
                                                     (get r "dropoff_datetime"))
                              (rows (select (fun r => forallb (fun c => notna (get r c))
                                                        ["pickup_datetime"; "dropoff_datetime"])
                                            typed))) = true).
      { apply mapM_returns. intros r4 Hr4. apply In_select in Hr4. destruct Hr4 as [Hr4 Hn].
        destruct (In_convert_datetimes_values _ _ _ _ _ Ht Hr4) as [r3 [Hr3 [_ G3]]].
        destruct (Hnum r3 Hr3) as [r [Hr Hg3]].
        pose proof (G3 "pickup_datetime") as Gp. pose proof (G3 "dropoff_datetime") as Gd.
        rewrite (Hpt Hp), (Hg3 "pickup_datetime") in Gp by (simpl; auto).
        rewrite (Hdt Hd), (Hg3 "dropoff_datetime") in Gd by (simpl; auto).
        simpl in Gp, Gd.
        simpl in Hn. apply andb_prop in Hn. destruct Hn as [Hn1 Hn2].
        apply andb_prop in Hn2. destruct Hn2 as [Hn2 _].
        rewrite Gp in Hn1 |- *. rewrite Gd in Hn2 |- *.
        destruct (to_datetime lib (get r "pickup_datetime")) as [|v|x|[s|s z]|g] eqn:Ep;
          try reflexivity;
          destruct (to_datetime lib (get r "dropoff_datetime")) as [|v'|x'|[e|e z']|g'] eqn:Ed;
          try reflexivity.
        - pose proof (Hrange r s e Hr Ep Ed) as Hb. unfold timedelta. cbv zeta.
          assert (E1 : ((e - s <? - 2 ^ 63) || (2 ^ 63 <=? e - s))%bool = false).
          { apply orb_false_intro; [apply Z.ltb_ge|apply Z.leb_gt]; lia. }
          rewrite E1. reflexivity.
        - pose proof (Hnaive "pickup_datetime" r _ (or_introl eq_refl) Hr Ep) as N.
          discriminate N. }
      destruct (mapM _ _); [reflexivity|discriminate Hm].
  - intros Hp Hd [r3 [s [e [Hr3 [Ep [Ed Hover]]]]]]. rewrite (Hrun Hp Hd).
    destruct (In_convert_datetimes_forward _ _ _ _ r3 Ht Hr3) as [r4 [Hr4 G3]].
    pose proof (G3 "pickup_datetime") as Gp. pose proof (G3 "dropoff_datetime") as Gd.
    rewrite (Hpt Hp), Ep in Gp. rewrite (Hdt Hd), Ed in Gd. simpl in Gp, Gd.
    rewrite (mapM_Raise_only _ _ OverflowError r4); [reflexivity| | |].
    + intros y e' _ Hy. exact (timedelta_Raise _ _ _ Hy).
    + apply In_select. split; [exact Hr4|]. simpl. rewrite Gp, Gd. reflexivity.
    + rewrite Gp, Gd. unfold timedelta. cbv zeta.
      assert (E1 : ((e - s <? - 2 ^ 63) || (2 ^ 63 <=? e - s))%bool = true).
      { destruct Hover as [H|H].
        - apply orb_true_intro. left. apply Z.ltb_lt. exact H.
        - apply orb_true_intro. right. apply Z.leb_le. exact H. }
      rewrite E1. reflexivity.
Qed.

Lemma taxi_sanitizer_returns_witness :
  returns (_clean_taxi_data example_library Examples.trips) = true
  /\ _clean_taxi_data example_library Examples.long_trip = Raise OverflowError.
Proof.
  split.
  - apply (taxi_sanitizer_returns example_library Examples.trips).
    + reflexivity.
    + intros c r t Hc Hr Hv. simpl in Hr, Hc.
      destruct Hr as [<-|[<-|[<-|[]]]]; destruct Hc as [<-|[<-|[]]];
        vm_compute in Hv; first [discriminate Hv|injection Hv as <-; reflexivity].
    + intros r s e Hr Hs He. simpl in Hr.
      destruct Hr as [<-|[<-|[<-|[]]]]; vm_compute in Hs; vm_compute in He;
        first [discriminate He|injection Hs as <-; injection He as <-; lia].
    + split; reflexivity.
  - apply (taxi_sanitizer_returns example_library Examples.long_trip).
    + reflexivity.
    + intros c r t Hc Hr Hv. simpl in Hr, Hc.
      destruct Hr as [<-|[]]; destruct Hc as [<-|[<-|[]]];
        vm_compute in Hv; injection Hv as <-; reflexivity.
    + reflexivity.
    + reflexivity.
    + eexists. eexists. eexists. split; [left; reflexivity|].
      split; [vm_compute; reflexivity|]. split; [vm_compute; reflexivity|].
      right. vm_compute. discriminate.
Defined.

(** ** The columns of the sanitized taxi table *)

Lemma has_col_copy_col (c src dst : string) (df : frame) :
  has_col c (copy_col src dst df)
  = (has_col c df || (String.eqb c dst && has_col src df))%bool.
Proof.
  unfold copy_col. destruct (has_col src df).
  - rewrite has_col_assign, andb_true_r. reflexivity.
  - rewrite andb_false_r, orb_false_r. reflexivity.
Qed.

Lemma has_col_add_speed (c : string) (df : frame) :
  has_col c (add_speed df)
  = (has_col c df
     || (String.eqb c "avg_speed_mph"
         && (has_col "trip_distance" df && has_col "trip_duration" df)))%bool.
Proof.
  unfold add_speed.
  destruct (has_col "trip_distance" df && has_col "trip_duration" df)%bool.
  - rewrite has_col_select, has_col_assign, andb_true_r. reflexivity.
  - rewrite andb_false_r, orb_false_r. reflexivity.
Qed.

Lemma has_col_time_features (lib : Library) (c : string) (df : frame) :
  has_col c (add_time_features lib df)
  = (has_col c df
     || mem c ["pickup_hour"; "pickup_day"; "pickup_month"; "pickup_weekday"])%bool.
Proof.
  unfold add_time_features. cbv zeta. rewrite !has_col_assign. simpl.
  rewrite orb_false_r, <- !orb_assoc. reflexivity.
Qed.

Lemma extends_refl (cs : list string) : extends cs cs.
Proof. exists []. symmetry. apply app_nil_r. Qed.

Lemma extends_trans (cs2 cs1 cs0 : list string) :
  extends cs2 cs1 -> extends cs1 cs0 -> extends cs2 cs0.
Proof. intros [l2 ->] [l1 ->]. exists (l1 ++ l2). symmetry. apply app_assoc. Qed.

Lemma extends_assign (c : string) (f : row -> cell) (df : frame) :
  extends (columns (assign c f df)) (columns df).
Proof.
  unfold assign, add_col. simpl. destruct (mem c (columns df)).
  - apply extends_refl.
  - exists [c]. reflexivity.
Qed.

Lemma extends_copy_col (src dst : string) (df : frame) :
  extends (columns (copy_col src dst df)) (columns df).
Proof.
  unfold copy_col. destruct (has_col src df); [apply extends_assign|apply extends_refl].
Qed.

Lemma extends_add_speed (df : frame) : extends (columns (add_speed df)) (columns df).
Proof.
  unfold add_speed. destruct (_ && _)%bool; [|apply extends_refl].
  apply (extends_assign "avg_speed_mph" avg_speed df).
Qed.

Lemma extends_add_time_features (lib : Library) (df : frame) :
  extends (columns (add_time_features lib df)) (columns df).
Proof.
  unfold add_time_features. cbv zeta.
  eapply extends_trans; [apply extends_assign|].
  eapply extends_trans; [apply extends_assign|].
  eapply extends_trans; [apply extends_assign|].
  apply extends_assign.
Qed.

(** X12.  The columns of the sanitized taxi table are the input's columns,
    in their order, followed by added ones; a name is a column of the result
    exactly when it is an input column, one of trip_duration, pickup_hour,
    pickup_day, pickup_month, pickup_weekday, or avg_speed_mph with an input
    column trip_distance, pickup_zone with an input column PULocationID,
    dropoff_zone with an input column DOLocationID (the names compared as
    written). *)
Theorem taxi_output_columns (lib : Library) (df out : frame) :
  empty df = false ->
  _clean_taxi_data lib df = Ok out ->
  (exists added, columns out = columns df ++ added)
  /\ forall c,
       has_col c out
       = (has_col c df
          || mem c ["trip_duration"; "pickup_hour"; "pickup_day"; "pickup_month";
                    "pickup_weekday"]
          || (String.eqb c "avg_speed_mph" && has_col "trip_distance" df)
          || (String.eqb c "pickup_zone" && has_col "PULocationID" df)
          || (String.eqb c "dropoff_zone" && has_col "DOLocationID" df))%bool.
Proof.
  intros Hne H.
  destruct (_clean_taxi_data_stages lib df out Hne H) as [typed [timed [Ht [_ [_ [Etimed ->]]]]]].
  assert (Hcols : columns typed = columns df).
  { rewrite (columns_convert_datetimes _ _ _ _ Ht). apply columns_numeric_taxi. }
  assert (Htimed : forall c, has_col c timed = (has_col c df || String.eqb c "trip_duration")%bool).
  { intros c. rewrite Etimed, has_col_assign, has_col_select.
    rewrite (has_col_columns c df typed Hcols). reflexivity. }
  split.
  - eapply extends_trans; [apply extends_copy_col|].
    eapply extends_trans; [apply extends_copy_col|].
    eapply extends_trans; [apply extends_add_speed|].
    eapply extends_trans; [apply extends_add_time_features|].
    simpl columns. rewrite Etimed.
    eapply extends_trans; [apply extends_assign|].
    simpl columns. rewrite Hcols. apply extends_refl.
  - intros c.
    rewrite !has_col_copy_col, !has_col_add_speed, !has_col_time_features, !has_col_select.
    rewrite !Htimed. simpl.
    rewrite ?orb_false_r, ?orb_true_r, ?andb_true_r.
    destruct (has_col c df); simpl; [reflexivity|].
    destruct (String.eqb c "trip_duration"); simpl; [reflexivity|].
    destruct (String.eqb c "pickup_hour"); simpl; [reflexivity|].
    destruct (String.eqb c "pickup_day"); simpl; [reflexivity|].
    destruct (String.eqb c "pickup_month"); simpl; [reflexivity|].
    destruct (String.eqb c "pickup_weekday"); simpl; [reflexivity|].
    reflexivity.
Qed.

Lemma taxi_output_columns_witness :
  exists out,
    _clean_taxi_data example_library Examples.fhv_trips = Ok out
    /\ has_col "pickup_hour" out = true
    /\ has_col "pickup_zone" out = false
    /\ has_col "dropoff_zone" out = false
    /\ has_col "avg_speed_mph" out = false.
Proof.
  destruct (_clean_taxi_data example_library Examples.fhv_trips) as [out|e] eqn:E.
  - exists out. split; [reflexivity|].
    destruct (taxi_output_columns example_library Examples.fhv_trips out eq_refl E)
      as [_ Hcols].
    rewrite !Hcols. repeat split; reflexivity.
  - exfalso. vm_compute in E. discriminate E.
Defined.

(** ** The derived columns of the sanitized taxi table *)

Import Calendar.

Lemma month_range (z y m d : Z) : civil_from_days z = (y, m, d) -> 1 <= m <= 12.
Proof.
  intros H. apply (f_equal (fun p => snd (fst p))) in H.
  cbv beta iota zeta delta [fst snd civil_from_days] in H. subst m.
  match goal with |- context [if ?b then _ else _] => destruct b eqn:E end;
    [apply Z.ltb_lt in E|apply Z.ltb_ge in E];
    Z.to_euclidean_division_equations; lia.
Qed.

Lemma hour_range (w : Z) : 0 <= (w mod ns_per_day) / ns_per_hour <= 23.
Proof. unfold ns_per_day, ns_per_hour. Z.to_euclidean_division_equations; lia. Qed.

Lemma weekday_range (z : Z) : 0 <= weekday_of_days z <= 6.
Proof. unfold weekday_of_days. Z.to_euclidean_division_equations; lia. Qed.

Lemma In_copy_col_value (src dst : string) (df : frame) (r' : row) :
  src <> dst ->
  In r' (rows (copy_col src dst df)) ->
  exists r, In r (rows df)
            /\ (forall c, c <> dst -> get r' c = get r c)
            /\ (has_col src df = true -> get r' dst = get r' src).
Proof.
  intros Hne. unfold copy_col. destruct (has_col src df).
  - intros H. apply In_assign in H. destruct H as [r [Hr ->]].
    exists r. split; [exact Hr|]. split.
    + intros c Hc. apply get_setitem_other. intros E. apply Hc. symmetry. exact E.
    + intros _. rewrite get_setitem_same.
      rewrite get_setitem_other by (intros E; apply Hne; symmetry; exact E). reflexivity.
  - intros H. exists r'. split; [exact H|]. split; [reflexivity|discriminate].
Qed.

Lemma In_add_time_features_values (lib : Library) (df : frame) (r' : row) :
  In r' (rows (add_time_features lib df)) ->
  exists r, In r (rows df)
            /\ (forall c, ~ In c ["pickup_hour"; "pickup_day"; "pickup_month"; "pickup_weekday"] ->
                          get r' c = get r c)
            /\ get r' "pickup_hour" = dt_hour lib (get r "pickup_datetime")
            /\ get r' "pickup_day" = dt_day_name lib (get r "pickup_datetime")
            /\ get r' "pickup_month" = dt_month lib (get r "pickup_datetime")
            /\ get r' "pickup_weekday" = dt_weekday lib (get r "pickup_datetime").
Proof.
  unfold add_time_features. cbv zeta. intros H.
  apply In_assign in H. destruct H as [r3 [H ->]].
  apply In_assign in H. destruct H as [r2 [H ->]].
  apply In_assign in H. destruct H as [r1 [H ->]].
  apply In_assign in H. destruct H as [r0 [H ->]].
  exists r0. split; [exact H|]. split; [|repeat split].
  - intros c Hc.
    rewrite !get_setitem_other; [reflexivity| | | |];
      intros E; apply Hc; rewrite <- E; simpl; auto.
  - rewrite !get_setitem_other by discriminate. apply get_setitem_same.
  - rewrite !(get_setitem_other _ "pickup_day") by discriminate.
    rewrite get_setitem_same, get_setitem_other by discriminate. reflexivity.
  - rewrite !(get_setitem_other _ "pickup_month") by discriminate.
    rewrite get_setitem_same, !get_setitem_other by discriminate. reflexivity.
  - rewrite get_setitem_same, !get_setitem_other by discriminate. reflexivity.
Qed.

(** X13.  In every record of the sanitized taxi table the pickup time is a
    timestamp, and the calendar columns are read from its wall clock:
    pickup_hour is its hour, between 0 and 23; pickup_weekday is between 0
    (Monday) and 6 and pickup_day is the English name of that same day;
    pickup_month is the month of its civil date, between 1 and 12.  With an
    input column PULocationID (DOLocationID) the record's pickup_zone
    (dropoff_zone) is its PULocationID (DOLocationID). *)
Theorem taxi_derived_columns (lib : Library) (df out : frame) (r : row) :
  empty df = false ->
  _clean_taxi_data lib df = Ok out ->
  In r (rows out) ->
  exists w y m d,
    wall_of lib (get r "pickup_datetime") = Some w
    /\ civil_from_days (w / ns_per_day) = (y, m, d)
    /\ get r "pickup_hour" = CNum (float_of_Z ((w mod ns_per_day) / ns_per_hour))
    /\ 0 <= (w mod ns_per_day) / ns_per_hour <= 23
    /\ get r "pickup_weekday" = CNum (float_of_Z (weekday_of_days (w / ns_per_day)))
    /\ 0 <= weekday_of_days (w / ns_per_day) <= 6
    /\ get r "pickup_day" = CStr (day_name (weekday_of_days (w / ns_per_day)))
    /\ get r "pickup_month" = CNum (float_of_Z m)
    /\ 1 <= m <= 12
    /\ (has_col "PULocationID" df = true -> get r "pickup_zone" = get r "PULocationID")
    /\ (has_col "DOLocationID" df = true -> get r "dropoff_zone" = get r "DOLocationID").
Proof.
  intros Hne H Hr.
  destruct (_clean_taxi_data_stages lib df out Hne H) as [typed [timed [Ht [_ [_ [Etimed ->]]]]]].
  assert (Hcols : columns typed = columns df).
  { rewrite (columns_convert_datetimes _ _ _ _ Ht). apply columns_numeric_taxi. }
  assert (Htimed : forall c, has_col c timed = (has_col c df || String.eqb c "trip_duration")%bool).
  { intros c. rewrite Etimed, has_col_assign, has_col_select.
    rewrite (has_col_columns c df typed Hcols). reflexivity. }
  apply In_copy_col_value in Hr; [|discriminate]. destruct Hr as [r13 [Hr [G13 Z13]]].
  apply In_copy_col_value in Hr; [|discriminate]. destruct Hr as [r12 [Hr [G12 Z12]]].
  destruct (stems_add_speed _ _ Hr) as [r11 [Hr11 [_ G11]]].
  apply In_add_time_features_values in Hr11.
  destruct Hr11 as [r7 [Hr7 [G7 [Hh [Hd [Hm Hw]]]]]].
  apply In_select in Hr7. destruct Hr7 as [Hr7 _].
  apply In_select in Hr7. destruct Hr7 as [Hr7 Hpos].
  rewrite Etimed in Hr7. apply In_assign in Hr7. destruct Hr7 as [r4 [_ E7]].
  assert (Hout : forall c, ~ In c ["dropoff_zone"; "pickup_zone"; "avg_speed_mph"] ->
                           get r c = get r11 c).
  { intros c Hc. rewrite G13, G12, G11; [reflexivity| | |];
      intros E; apply Hc; simpl; intuition. }
  assert (Hpick : get r "pickup_datetime" = get r7 "pickup_datetime").
  { rewrite Hout by (simpl; intuition discriminate).
    apply G7. simpl; intuition discriminate. }
  assert (Hwall : exists w, wall_of lib (get r7 "pickup_datetime") = Some w).
  { unfold num in Hpos. rewrite E7, get_setitem_same in Hpos.
    destruct (positive_duration _ _ Hpos) as [s [e [Hk _]]].
    rewrite E7, get_setitem_other by discriminate.
    destruct Hk as [[-> _]|[z [z' [-> _]]]]; simpl; eexists; reflexivity. }
  destruct Hwall as [w Hwall].
  destruct (civil_from_days (w / ns_per_day)) as [[y m] d] eqn:Ecivil.
  exists w, y, m, d.
  split; [rewrite Hpick; exact Hwall|]. split; [exact Ecivil|].
  split.
  { rewrite Hout, Hh by (simpl; intuition discriminate).
    unfold dt_hour. rewrite Hwall. reflexivity. }
  split; [apply hour_range|]. split.
  { rewrite Hout, Hw by (simpl; intuition discriminate).
    unfold dt_weekday. rewrite Hwall. reflexivity. }
  split; [apply weekday_range|]. split.
  { rewrite Hout, Hd by (simpl; intuition discriminate).
    unfold dt_day_name. rewrite Hwall. reflexivity. }
  split.
  { rewrite Hout, Hm by (simpl; intuition discriminate).
    unfold dt_month. rewrite Hwall, Ecivil. reflexivity. }
  split; [exact (month_range _ _ _ _ Ecivil)|]. split.
  - intros Hpu. rewrite !G13 by discriminate. apply Z12.
    rewrite has_col_add_speed, has_col_time_features, !has_col_select, Htimed, Hpu.
    reflexivity.
  - intros Hdo. apply Z13.
    rewrite has_col_copy_col, has_col_add_speed, has_col_time_features, !has_col_select,
      Htimed, Hdo.
    reflexivity.
Qed.

Lemma taxi_derived_columns_witness :
  exists w y m d,
    wall_of example_library (get Examples.trip_cleaned "pickup_datetime") = Some w
    /\ civil_from_days (w / ns_per_day) = (y, m, d)
    /\ get Examples.trip_cleaned "pickup_hour"
       = CNum (float_of_Z ((w mod ns_per_day) / ns_per_hour))
    /\ 0 <= (w mod ns_per_day) / ns_per_hour <= 23
    /\ get Examples.trip_cleaned "pickup_weekday"
       = CNum (float_of_Z (weekday_of_days (w / ns_per_day)))
    /\ 0 <= weekday_of_days (w / ns_per_day) <= 6
    /\ get Examples.trip_cleaned "pickup_day"
       = CStr (day_name (weekday_of_days (w / ns_per_day)))
    /\ get Examples.trip_cleaned "pickup_month" = CNum (float_of_Z m)
    /\ 1 <= m <= 12
    /\ (has_col "PULocationID" Examples.trips = true ->
        get Examples.trip_cleaned "pickup_zone" = get Examples.trip_cleaned "PULocationID")
    /\ (has_col "DOLocationID" Examples.trips = true ->
        get Examples.trip_cleaned "dropoff_zone" = get Examples.trip_cleaned "DOLocationID").
Proof.
  apply (taxi_derived_columns example_library Examples.trips Examples.trips_cleaned
           Examples.trip_cleaned).
  - reflexivity.
  - vm_compute. reflexivity.
  - left. reflexivity.
Defined.

(** ** Rows through the bikeshare sanitizer *)

Lemma labels_assignM (c : string) (f : row -> result cell) (df out : frame) :
  assignM c f df = Ok out -> map label (rows out) = map label (rows df).
Proof.
  unfold assignM. intros H. inv_bind H. injection H as <-. simpl.
  apply mapM_Ok_Forall2 in Ha.
  apply (Forall2_labels (fun r => v <- f r;; Ok (setitem c v r))); [|exact Ha].
  intros r r' Hr. inv_bind Hr. injection Hr as <-. reflexivity.
Qed.

Lemma stems_assignM (c : string) (f : row -> result cell) (df out : frame) :
  assignM c f df = Ok out -> stems [c] out df.
Proof.
  intros H r' Hr'. apply assignM_Ok in H. destruct H as [_ H].
  destruct (H r' Hr') as [r [v [Hr [_ ->]]]].
  exists r. split; [exact Hr|]. split; [reflexivity|].
  intros c' Hc. apply get_setitem_other. intros E. apply Hc. left. exact E.
Qed.

(** The sanitizer in its stages. *)
Lemma _clean_bikeshare_data_stages (lib : Library) (df out : frame) :
  empty df = false ->
  _clean_bikeshare_data lib df = Ok out ->
  exists typed located,
    has_col "LATITUDE" df = true
    /\ has_col "LONGITUDE" df = true
    /\ convert_datetimes lib ["ASOFDATE"]
         (select (fun r => (between 40.5 41.0 (num r "LATITUDE")
                            && between (-74.3) (-73.7) (num r "LONGITUDE"))%bool)
            (convert_present (to_numeric lib) ["LONGITUDE"]
               (convert_present (to_numeric lib) ["LATITUDE"] df)))
       = Ok typed
    /\ assignM "station_location" (station_location lib typed) typed = Ok located
    /\ add_year_category located = Ok out.
Proof.
  intros Hne H. unfold _clean_bikeshare_data in H. rewrite Hne in H.
  inv_bind H. inv_bind H. inv_bind H.
  rename a into boxed, a0 into typed, a1 into located.
  unfold filter_coordinates in Ha.
  rewrite !(has_col_columns _ df _ (eq_trans (columns_convert_present _ _ _)
                                             (columns_convert_present _ _ _))) in Ha.
  destruct (has_col "LATITUDE" df); [|discriminate].
  destruct (has_col "LONGITUDE" df); [|discriminate].
  injection Ha as <-.
  exists typed, located. repeat split; try assumption.
  unfold add_station_location in Ha1. destruct (rows typed); [discriminate|exact Ha1].
Qed.

Open Scope float_scope.

(** X14.  The bikeshare sanitizer only drops records.  The table it returns
    has at most as many records as the input and distinct index labels stay
    distinct; every returned record stems from an input record with the same
    label, has the input's values outside LATITUDE, LONGITUDE, ASOFDATE and
    the two derived columns, carries as LATITUDE and LONGITUDE what
    [pd.to_numeric] makes of the input's values, and lies in the box
    40.5 <= latitude <= 41.0, -74.3 <= longitude <= -73.7, both ends
    included; with an ASOFDATE column its ASOFDATE is what [pd.to_datetime]
    makes of the input's value. *)
Theorem bikeshare_rows_stem_from_input (lib : Library) (df out : frame) :
  empty df = false ->
  _clean_bikeshare_data lib df = Ok out ->
  (List.length (rows out) <= List.length (rows df))%nat
  /\ (NoDup (map label (rows df)) -> NoDup (map label (rows out)))
  /\ forall r', In r' (rows out) ->
       exists r, In r (rows df) /\ label r' = label r
         /\ (forall c, ~ In c ["LATITUDE"; "LONGITUDE"; "ASOFDATE"; "station_location";
                               "year_category"]%string ->
                       get r' c = get r c)
         /\ get r' "LATITUDE" = to_numeric lib (get r "LATITUDE")
         /\ get r' "LONGITUDE" = to_numeric lib (get r "LONGITUDE")
         /\ (40.5 <=? num r' "LATITUDE") = true /\ (num r' "LATITUDE" <=? 41.0) = true
         /\ (-74.3 <=? num r' "LONGITUDE") = true /\ (num r' "LONGITUDE" <=? -73.7) = true
         /\ (has_col "ASOFDATE" df = true ->
             get r' "ASOFDATE" = to_datetime lib (get r "ASOFDATE")).
Proof.
  intros Hne H.
  destruct (_clean_bikeshare_data_stages lib df out Hne H)
    as [typed [located [Hlat [Hlon [Ht [Hloc Hyear]]]]]].
  assert (Hy : only_drops (rows out) (rows located) /\ stems ["year_category"%string] out located).
  { unfold add_year_category in Hyear. destruct (has_col "YEAR" located).
    - split; [apply only_drops_labels, (labels_assignM _ _ _ _ Hyear)|].
      apply (stems_assignM _ _ _ _ Hyear).
    - injection Hyear as <-. split; [apply only_drops_refl|].
      apply (stems_incl []); [intros c []|apply stems_refl]. }
  destruct Hy as [Hod4 Hst4].
  split; [|split].
  - eapply Nat.le_trans; [apply Hod4|].
    rewrite <- (length_map label (rows located)), (labels_assignM _ _ _ _ Hloc), length_map.
    rewrite <- (length_map label (rows typed)), (labels_convert_datetimes _ _ _ _ Ht), length_map.
    eapply Nat.le_trans; [apply filter_length_le|].
    rewrite <- (length_map label), !labels_convert_present, length_map. apply Nat.le_refl.
  - intros Hnd. apply Hod4. rewrite (labels_assignM _ _ _ _ Hloc).
    rewrite (labels_convert_datetimes _ _ _ _ Ht). apply labels_filter_NoDup.
    rewrite !labels_convert_present. exact Hnd.
  - intros r' Hr'.
    destruct (Hst4 r' Hr') as [r4 [Hr4 [L4 G4]]].
    destruct (stems_assignM _ _ _ _ Hloc r4 Hr4) as [r3 [Hr3 [L3 G3]]].
    destruct (In_convert_datetimes_values _ _ _ _ _ Ht Hr3) as [r2 [Hr2 [L2 G2]]].
    apply In_select in Hr2. destruct Hr2 as [Hr2 Hbox].
    apply In_convert_present in Hr2; [|repeat constructor; simpl; intuition].
    destruct Hr2 as [r1 [Hr1 [L1 G1]]].
    apply In_convert_present in Hr1; [|repeat constructor; simpl; intuition].
    destruct Hr1 as [r [Hr [L G]]].
    assert (Hg : forall c, c <> "year_category"%string -> c <> "station_location"%string ->
                           c <> "ASOFDATE"%string -> get r' c = get r2 c).
    { intros c H1 H2 H3. rewrite G4, G3, G2.
      - rewrite (not_In_mem c ["ASOFDATE"%string]); [reflexivity|].
        intros [E|[]]. apply H3. symmetry. exact E.
      - intros [E|[]]. apply H2. symmetry. exact E.
      - intros [E|[]]. apply H1. symmetry. exact E. }
    assert (Hlat2 : get r2 "LATITUDE" = to_numeric lib (get r "LATITUDE")).
    { rewrite G1, G, Hlat. reflexivity. }
    assert (Hlon2 : get r2 "LONGITUDE" = to_numeric lib (get r "LONGITUDE")).
    { rewrite G1, G, (has_col_columns _ df _ (columns_convert_present _ _ _)), Hlon.
      reflexivity. }
    exists r. split; [exact Hr|]. split; [congruence|].
    apply andb_prop in Hbox. destruct Hbox as [Hb1 Hb2].
    unfold between in Hb1, Hb2.
    apply andb_prop in Hb1. destruct Hb1 as [Hb1 Hb1'].
    apply andb_prop in Hb2. destruct Hb2 as [Hb2 Hb2'].
    assert (Nlat : num r' "LATITUDE" = num r2 "LATITUDE")
      by (apply num_get, Hg; discriminate).
    assert (Nlon : num r' "LONGITUDE" = num r2 "LONGITUDE")
      by (apply num_get, Hg; discriminate).
    split.
    { intros c Hc. rewrite G4, G3, G2, G1, G.
      - rewrite (not_In_mem c ["ASOFDATE"%string]), (not_In_mem c ["LONGITUDE"%string]),
          (not_In_mem c ["LATITUDE"%string]); [reflexivity| | |];
          intros Hin; apply Hc; revert Hin; apply incl_mem; reflexivity.
      - intros Hin; apply Hc; revert Hin; apply incl_mem; reflexivity.
      - intros Hin; apply Hc; revert Hin; apply incl_mem; reflexivity. }
    split; [rewrite Hg by discriminate; exact Hlat2|].
    split; [rewrite Hg by discriminate; exact Hlon2|].
    rewrite Nlat, Nlon. repeat (split; [assumption|]).
    intros Hasof. rewrite G4, G3, G2 by (simpl; intuition discriminate).
    rewrite has_col_select.
    rewrite (has_col_columns _ df _ (eq_trans (columns_convert_present _ _ _)
                                              (columns_convert_present _ _ _))), Hasof.
    rewrite G1, G. reflexivity.
Qed.

Lemma bikeshare_rows_stem_from_input_witness :
  exists out,
    _clean_bikeshare_data example_library Examples.station_year_nan = Ok out
    /\ (List.length (rows out) <= List.length (rows Examples.station_year_nan))%nat
    /\ forall r', In r' (rows out) ->
         (40.5 <=? num r' "LATITUDE") = true /\ (num r' "LATITUDE" <=? 41.0) = true.
Proof.
  destruct (_clean_bikeshare_data example_library Examples.station_year_nan)
    as [out|e] eqn:E.
  - exists out. split; [reflexivity|].
    destruct (bikeshare_rows_stem_from_input example_library Examples.station_year_nan out
                eq_refl E) as [Hlen [_ Hrow]].
    split; [exact Hlen|]. intros r' Hr'.
    destruct (Hrow r' Hr') as [r [_ [_ [_ [_ [_ [H1 [H2 _]]]]]]]].
    split; assumption.
  - exfalso. vm_compute in E. discriminate E.
Defined.

Close Scope float_scope.

(** ** The derived columns of the sanitized bikeshare table *)

Open Scope float_scope.

(** X15.  A table of which the bikeshare sanitizer returns a record had a
    STATION_NAME column.  The record's station_location is 'Unknown' when its
    station name is missing and '<name>, <city>' otherwise, and then the
    table had a CITY column.  With a YEAR column the record's YEAR is a
    number, and its year_category is 'Recent' from 2020 on, 'Historical' from
    2015 on and 'Legacy' otherwise. *)
Theorem bikeshare_derived_columns (lib : Library) (df out : frame) (r : row) :
  empty df = false ->
  _clean_bikeshare_data lib df = Ok out ->
  In r (rows out) ->
  has_col "STATION_NAME" df = true
  /\ (notna (get r "STATION_NAME") = true -> has_col "CITY" df = true)
  /\ get r "station_location"
     = (if notna (get r "STATION_NAME")
        then CStr (py_str lib (get r "STATION_NAME") ++ ", " ++ py_str lib (get r "CITY"))%string
        else CStr "Unknown")
  /\ (has_col "YEAR" df = true ->
      exists v, get r "YEAR" = CNum v
                /\ get r "year_category"
                   = CStr (if 2020 <=? v then "Recent"
                           else if 2015 <=? v then "Historical"
                           else "Legacy")).
Proof.
  intros Hne H Hr.
  destruct (_clean_bikeshare_data_stages lib df out Hne H)
    as [typed [located [Hlat [Hlon [Ht [Hloc Hyear]]]]]].
  assert (Hcols : columns typed = columns df).
  { rewrite (columns_convert_datetimes _ _ _ _ Ht). cbn [columns select with_rows].
    rewrite !columns_convert_present. reflexivity. }
  assert (Hlocated : forall r4, In r4 (rows located) ->
            has_col "STATION_NAME" df = true
            /\ (notna (get r4 "STATION_NAME") = true -> has_col "CITY" df = true)
            /\ get r4 "station_location"
               = (if notna (get r4 "STATION_NAME")
                  then CStr (py_str lib (get r4 "STATION_NAME") ++ ", "
                             ++ py_str lib (get r4 "CITY"))%string
                  else CStr "Unknown")).
  { intros r4 Hr4. destruct (assignM_Ok _ _ _ _ Hloc) as [_ Hrows].
    destruct (Hrows r4 Hr4) as [r3 [v [_ [Hv ->]]]].
    unfold station_location in Hv.
    rewrite !(has_col_columns _ df typed Hcols) in Hv.
    destruct (has_col "STATION_NAME" df); [|discriminate].
    split; [reflexivity|].
    rewrite get_setitem_same, !get_setitem_other by discriminate.
    destruct (notna (get r3 "STATION_NAME")).
    - destruct (has_col "CITY" df); [|discriminate]. injection Hv as <-.
      split; reflexivity.
    - injection Hv as <-. split; [discriminate|reflexivity]. }
  assert (Hycol : has_col "YEAR" located = has_col "YEAR" df).
  { destruct (assignM_Ok _ _ _ _ Hloc) as [Hc _]. unfold has_col.
    rewrite Hc, mem_add_col, Hcols. apply orb_false_r. }
  unfold add_year_category in Hyear. rewrite Hycol in Hyear.
  destruct (has_col "YEAR" df).
  - destruct (assignM_Ok _ _ _ _ Hyear) as [_ Hrows].
    destruct (Hrows r Hr) as [r4 [v [Hr4 [Hv ->]]]].
    destruct (Hlocated r4 Hr4) as [Hname [Hcity Hsl]].
    rewrite get_setitem_same, !get_setitem_other by discriminate.
    split; [exact Hname|]. split; [exact Hcity|]. split; [exact Hsl|].
    intros _. unfold year_category in Hv.
    destruct (get r4 "YEAR") as [|x|s|t|g]; try discriminate Hv.
    injection Hv as <-. exists x. split; reflexivity.
  - injection Hyear as <-. destruct (Hlocated r Hr) as [Hname [Hcity Hsl]].
    split; [exact Hname|]. split; [exact Hcity|]. split; [exact Hsl|discriminate].
Qed.

Lemma bikeshare_derived_columns_witness :
  exists out,
    _clean_bikeshare_data example_library Examples.station_year_nan = Ok out
    /\ forall r, In r (rows out) ->
         exists v, get r "YEAR" = CNum v
                   /\ get r "year_category"
                      = CStr (if 2020 <=? v then "Recent"
                              else if 2015 <=? v then "Historical"
                              else "Legacy").
Proof.
  destruct (_clean_bikeshare_data example_library Examples.station_year_nan)
    as [out|e] eqn:E.
  - exists out. split; [reflexivity|]. intros r Hr.
    destruct (bikeshare_derived_columns example_library Examples.station_year_nan out r
                eq_refl E Hr) as [_ [_ [_ Hy]]].
    apply Hy. reflexivity.
  - exfalso. vm_compute in E. discriminate E.
Defined.

(** ** When the bikeshare sanitizer returns *)

(** X16.  The bikeshare sanitizer returns a table with at least one record
    when the input has the columns LATITUDE, LONGITUDE, STATION_NAME and
    CITY, at least one record with numeric coordinates inside the box,
    ASOFDATE values that are tz-naive as far as they parse and, if it has a
    YEAR column, a number as YEAR in every record. *)
Theorem bikeshare_sanitizer_returns (lib : Library) (df : frame) (r : row) (lat lon : float) :
  has_col "LATITUDE" df = true ->
  has_col "LONGITUDE" df = true ->
  has_col "STATION_NAME" df = true ->
  has_col "CITY" df = true ->
  In r (rows df) ->
  get r "LATITUDE" = CNum lat -> between 40.5 41.0 lat = true ->
  get r "LONGITUDE" = CNum lon -> between (-74.3) (-73.7) lon = true ->
  (forall r0 t, In r0 (rows df) ->
                to_datetime lib (get r0 "ASOFDATE") = CTime t -> tz_of t = None) ->
  (has_col "YEAR" df = true -> forall r0, In r0 (rows df) -> exists v, get r0 "YEAR" = CNum v) ->
  exists out, _clean_bikeshare_data lib df = Ok out /\ rows out <> [].
Proof.
  intros Hlat Hlon Hname Hcity Hr Elat Blat Elon Blon Hnaive Hyear.
  assert (Hne : empty df = false).
  { unfold empty. destruct (rows df); [contradiction|].
    unfold has_col in Hlat. destruct (columns df); [discriminate|reflexivity]. }
  set (dfc := convert_present (to_numeric lib) ["LONGITUDE"]
                (convert_present (to_numeric lib) ["LATITUDE"] df)).
  set (boxed := select (fun r => (between 40.5 41.0 (num r "LATITUDE")
                                  && between (-74.3) (-73.7) (num r "LONGITUDE"))%bool) dfc).
  assert (Hdfc : columns dfc = columns df).
  { unfold dfc. rewrite !columns_convert_present. reflexivity. }
  (* every row of the box stems from an input row *)
  assert (Hfrom : forall r2, In r2 (rows boxed) ->
            exists r0, In r0 (rows df)
                       /\ forall c, c <> "LATITUDE"%string -> c <> "LONGITUDE"%string ->
                                    get r2 c = get r0 c).
  { intros r2 Hr2. apply In_select in Hr2. destruct Hr2 as [Hr2 _].
    apply In_convert_present in Hr2; [|repeat constructor; simpl; intuition].
    destruct Hr2 as [r1 [Hr1 [_ G1]]].
    apply In_convert_present in Hr1; [|repeat constructor; simpl; intuition].
    destruct Hr1 as [r0 [Hr0 [_ G0]]].
    exists r0. split; [exact Hr0|]. intros c H1 H2. rewrite G1, G0.
    rewrite (not_In_mem c ["LONGITUDE"%string]), (not_In_mem c ["LATITUDE"%string]);
      [reflexivity| |]; intros [E|[]]; [apply H1|apply H2]; symmetry; exact E. }
  (* the station inside the box survives *)
  assert (Hsurv : rows boxed <> []).
  { assert (Hin : In (setitem "LONGITUDE" (CNum lon) (setitem "LATITUDE" (CNum lat) r))
                     (rows boxed)).
    { apply In_select. split.
      - unfold dfc, convert_present. simpl fold_left. rewrite Hlat.
        rewrite (has_col_assign_mono "LATITUDE" "LONGITUDE" _ df Hlon).
        unfold assign. simpl rows. rewrite map_map. apply in_map_iff.
        exists r. split; [|exact Hr].
        rewrite get_setitem_other by discriminate. rewrite Elat, Elon. reflexivity.
      - unfold num. rewrite get_setitem_same.
        rewrite get_setitem_other by discriminate. rewrite get_setitem_same.
        rewrite Blat, Blon. reflexivity. }
    intros E. rewrite E in Hin. contradiction. }
  destruct (convert_datetimes_naive lib ["ASOFDATE"%string] boxed) as [typed Ht].
  { intros c r2 t [<-|[]] Hr2 Hv. destruct (Hfrom r2 Hr2) as [r0 [Hr0 G]].
    rewrite G in Hv by discriminate. exact (Hnaive r0 t Hr0 Hv). }
  assert (Hcols : columns typed = columns df).
  { rewrite (columns_convert_datetimes _ _ _ _ Ht). exact Hdfc. }
  assert (Htyped : rows typed <> []).
  { intros E. apply Hsurv. apply (f_equal (map label)) in E.
    rewrite (labels_convert_datetimes _ _ _ _ Ht) in E.
    destruct (rows boxed); [reflexivity|discriminate E]. }
  destruct (mapM_total (fun r3 => v <- station_location lib typed r3;;
                                  Ok (setitem "station_location" v r3)) (rows typed))
    as [rs Hrs].
  { intros r3 _. unfold station_location.
    rewrite !(has_col_columns _ df typed Hcols), Hname, Hcity.
    destruct (notna (get r3 "STATION_NAME")); reflexivity. }
  set (located := mkFrame (add_col "station_location" (columns typed)) rs
                          (geometry_column_name typed) (crs typed)).
  assert (Hloc : assignM "station_location" (station_location lib typed) typed = Ok located).
  { unfold assignM. rewrite Hrs. reflexivity. }
  assert (Hlocated : rows located <> []).
  { intros E. apply Htyped. apply (f_equal (map label)) in E.
    rewrite (labels_assignM _ _ _ _ Hloc) in E.
    destruct (rows typed); [reflexivity|discriminate E]. }
  assert (Hfin : exists out, add_year_category located = Ok out /\ rows out <> []).
  { unfold add_year_category. destruct (has_col "YEAR" located) eqn:Ey.
    - assert (Hy : has_col "YEAR" df = true).
      { unfold has_col in Ey. simpl in Ey. rewrite mem_add_col, Hcols, orb_false_r in Ey.
        exact Ey. }
      destruct (mapM_total (fun r4 => v <- year_category (get r4 "YEAR");;
                                      Ok (setitem "year_category" v r4)) (rows located))
        as [rs' Hrs'].
      { intros r4 Hr4.
        destruct (stems_assignM _ _ _ _ Hloc r4 Hr4) as [r3 [Hr3 [_ G3]]].
        destruct (In_convert_datetimes_values _ _ _ _ _ Ht Hr3) as [r2 [Hr2 [_ G2]]].
        destruct (Hfrom r2 Hr2) as [r0 [Hr0 G0]].
        destruct (Hyear Hy r0 Hr0) as [v Hv].
        rewrite G3, G2 by (intros [E|[]]; discriminate E).
        rewrite G0 by discriminate. rewrite Hv. reflexivity. }
      eexists. unfold assignM. rewrite Hrs'. split; [reflexivity|].
      simpl. intros E. apply Hlocated. subst rs'.
      apply mapM_Ok_Forall2 in Hrs'.
      destruct (rows located); [reflexivity|inversion Hrs'].
    - exists located. split; [reflexivity|exact Hlocated]. }
  destruct Hfin as [out [Hout Hrows]]. exists out. split; [|exact Hrows].
  unfold _clean_bikeshare_data. rewrite Hne. fold dfc.
  unfold filter_coordinates.
  rewrite !(has_col_columns _ df dfc Hdfc), Hlat, Hlon. fold boxed. simpl bind.
  rewrite Ht. simpl bind. unfold add_station_location.
  destruct (rows typed) eqn:E; [contradiction Htyped; reflexivity|].
  rewrite Hloc. simpl. exact Hout.
Qed.

Lemma bikeshare_sanitizer_returns_witness :
  exists out,
    _clean_bikeshare_data example_library Examples.station_year_nan = Ok out
    /\ rows out <> [].
Proof.
  apply (bikeshare_sanitizer_returns example_library Examples.station_year_nan
           (mkRow 0 [("STATION_NAME", CStr "W 52 St"); ("CITY", CStr "New York");
                     ("LATITUDE", CNum 40.76); ("LONGITUDE", CNum (-73.98));
                     ("YEAR", CNum nan)])
           40.76 (-73.98)); try reflexivity.
  - left. reflexivity.
  - intros r0 t Hr0 Hv. simpl in Hr0.
    destruct Hr0 as [<-|[<-|[]]]; vm_compute in Hv; discriminate Hv.
  - intros _ r0 Hr0. simpl in Hr0.
    destruct Hr0 as [<-|[<-|[]]]; eexists; reflexivity.
Defined.

Close Scope float_scope.

(** ** The pipeline around the sanitizers *)

Import TransportationETL.
Import Pipeline.

Lemma dict_set_absent {V : Type} (k : string) (v : V) (d : list (string * V)) :
  ~ In k (map fst d) -> dict_set k v d = d ++ [(k, v)].
Proof.
  induction d as [|[k' v'] d IH]; simpl; intros H; [reflexivity|].
  destruct (String.eqb k k') eqn:E.
  - apply String.eqb_eq in E. exfalso. apply H. left. symmetry. exact E.
  - rewrite IH; [reflexivity|]. intros Hin. apply H. right. exact Hin.
Qed.

Lemma dict_get_set_same {V : Type} (k : string) (v : V) (d : list (string * V)) :
  dict_get k (dict_set k v d) = Some v.
Proof.
  induction d as [|[k' v'] d IH]; simpl.
  - rewrite String.eqb_refl. reflexivity.
  - destruct (String.eqb k k') eqn:E; simpl.
    + rewrite String.eqb_refl. reflexivity.
    + rewrite E. exact IH.
Qed.

Lemma dict_get_set_other {V : Type} (k k' : string) (v : V) (d : list (string * V)) :
  k <> k' -> dict_get k' (dict_set k v d) = dict_get k' d.
Proof.
  intros Hne. induction d as [|[k0 v0] d IH]; simpl.
  - destruct (String.eqb k' k) eqn:E; [|reflexivity].
    apply String.eqb_eq in E. congruence.
  - destruct (String.eqb k k0) eqn:E; simpl.
    + apply String.eqb_eq in E. subst k0.
      destruct (String.eqb k' k) eqn:E'; [|reflexivity].
      apply String.eqb_eq in E'. congruence.
    + destruct (String.eqb k' k0); [reflexivity|exact IH].
Qed.

(** The columns every sanitized taxi table has. *)
Lemma taxi_columns_present (lib : Library) (df out : frame) (c : string) :
  empty df = false ->
  _clean_taxi_data lib df = Ok out ->
  In c ["trip_duration"; "pickup_hour"; "pickup_day"; "pickup_month"; "pickup_weekday"] ->
  has_col c out = true.
Proof.
  intros Hne H Hc.
  destruct (_clean_taxi_data_stages lib df out Hne H) as [typed [timed [_ [_ [_ [Etimed ->]]]]]].
  rewrite !has_col_copy_col, !has_col_add_speed, !has_col_time_features, !has_col_select.
  rewrite Etimed, has_col_assign.
  simpl in Hc. destruct Hc as [<-|[<-|[<-|[<-|[<-|[]]]]]]; simpl;
    rewrite ?orb_true_r; reflexivity.
Qed.

(** Every column of the input is a column of the sanitized taxi table. *)
Lemma taxi_columns_kept (lib : Library) (df out : frame) (c : string) :
  empty df = false ->
  _clean_taxi_data lib df = Ok out ->
  has_col c out = true ->
  has_col c df = true
  \/ In c ["trip_duration"; "pickup_hour"; "pickup_day"; "pickup_month"; "pickup_weekday";
           "avg_speed_mph"; "pickup_zone"; "dropoff_zone"].
Proof.
  intros Hne H.
  destruct (_clean_taxi_data_stages lib df out Hne H) as [typed [timed [Ht [_ [_ [Etimed ->]]]]]].
  assert (Hcols : columns typed = columns df).
  { rewrite (columns_convert_datetimes _ _ _ _ Ht). apply columns_numeric_taxi. }
  rewrite !has_col_copy_col, !has_col_add_speed, !has_col_time_features, !has_col_select.
  rewrite Etimed, has_col_assign, has_col_select, (has_col_columns c df typed Hcols).
  destruct (has_col c df); [left; reflexivity|]. intros Hc. right. simpl in Hc.
  apply mem_In.
  repeat match type of Hc with
         | (_ || _)%bool = true => apply orb_prop in Hc; destruct Hc as [Hc|Hc]
         | (_ && _)%bool = true => apply andb_prop in Hc; destruct Hc as [Hc _]
         end;
    try discriminate Hc; apply String.eqb_eq in Hc; subst c; reflexivity.
Qed.

Section PipelineFacts.

Variable read_sql : query -> result frame.
Variable lib : Library.

(** What one [try] block of [process_taxi_data] adds to the dict. *)
Lemma process_taxi_type_entries (q : query) (k : string) (d : list (string * frame)) :
  ~ In k (map fst d) ->
  (process_taxi_type read_sql lib q k d = d
   /\ ~ exists raw cleaned, read_sql q = Ok raw /\ empty raw = false
                            /\ _clean_taxi_data lib raw = Ok cleaned)
  \/ exists raw cleaned,
       read_sql q = Ok raw /\ empty raw = false /\ _clean_taxi_data lib raw = Ok cleaned
       /\ process_taxi_type read_sql lib q k d
          = d ++ [(k, assign "taxi_type" (fun _ => CStr k) cleaned)].
Proof.
  intros Hk. unfold process_taxi_type.
  destruct (read_sql q) as [raw|e] eqn:Er.
  - destruct (empty raw) eqn:Ee.
    + left. split; [reflexivity|]. intros [raw' [c [H1 [H2 _]]]]. congruence.
    + destruct (_clean_taxi_data lib raw) as [cleaned|e] eqn:Ec.
      * right. exists raw, cleaned. repeat split; try assumption.
        apply dict_set_absent. exact Hk.
      * left. split; [reflexivity|]. intros [raw' [c [H1 [_ H3]]]]. congruence.
  - left. split; [reflexivity|]. intros [raw' [c [H1 _]]]. discriminate H1.
Qed.

End PipelineFacts.

(** What [process_taxi_data] stores. *)
Lemma process_taxi_data_stored (read_sql : query -> result frame) (lib : Library) :
  (exists keep, map fst (process_taxi_data read_sql lib)
                = filter keep ["yellow"; "green"; "fhv"])
  /\ (forall k df,
        In (k, df) (process_taxi_data read_sql lib)
        <-> exists q raw cleaned,
              In (q, k) [(yellow_query, "yellow"); (green_query, "green"); (fhv_query, "fhv")]
              /\ read_sql q = Ok raw /\ empty raw = false
              /\ _clean_taxi_data lib raw = Ok cleaned
              /\ df = assign "taxi_type" (fun _ => CStr k) cleaned)
  /\ (forall k df,
        In (k, df) (process_taxi_data read_sql lib) ->
        (forall c, In c ["pickup_hour"; "pickup_day"; "pickup_month"; "trip_duration";
                         "taxi_type"] -> has_col c df = true)
        /\ forall r, In r (rows df) -> get r "taxi_type" = CStr k).
Proof.
  assert (Hmain :
    (exists keep, map fst (process_taxi_data read_sql lib)
                  = filter keep ["yellow"; "green"; "fhv"])
    /\ (forall k df,
          In (k, df) (process_taxi_data read_sql lib)
          <-> exists q raw cleaned,
                In (q, k) [(yellow_query, "yellow"); (green_query, "green"); (fhv_query, "fhv")]
                /\ read_sql q = Ok raw /\ empty raw = false
                /\ _clean_taxi_data lib raw = Ok cleaned
                /\ df = assign "taxi_type" (fun _ => CStr k) cleaned)).
  { unfold process_taxi_data. cbv zeta.
    destruct (process_taxi_type_entries read_sql lib yellow_query "yellow" [])
      as [[-> Ny]|[ry [cy [Ry [Ey [Cy ->]]]]]]; [intros []| |];
      simpl app.
    - destruct (process_taxi_type_entries read_sql lib green_query "green" [])
        as [[-> Ng]|[rg [cg [Rg [Eg [Cg ->]]]]]]; [intros []| |]; simpl app.
      + destruct (process_taxi_type_entries read_sql lib fhv_query "fhv" [])
          as [[-> Nf]|[rf [cf [Rf [Ef [Cf ->]]]]]]; [intros []| |]; simpl app.
        * split; [exists (fun _ => false); reflexivity|].
          intros k df. split; [intros []|].
          intros [q [raw [cleaned [Hq [H1 [H2 [H3 _]]]]]]]. simpl in Hq.
          destruct Hq as [E|[E|[E|[]]]]; injection E as <- <-;
            [apply Ny|apply Ng|apply Nf]; exists raw, cleaned; auto.
        * split; [exists (String.eqb "fhv"); reflexivity|].
          intros k df. split.
          -- intros [E|[]]. injection E as <- <-.
             exists fhv_query, rf, cf. simpl. auto 10.
          -- intros [q [raw [cleaned [Hq [H1 [H2 [H3 ->]]]]]]]. simpl in Hq.
             destruct Hq as [E|[E|[E|[]]]]; injection E as <- <-.
             ++ exfalso. apply Ny. exists raw, cleaned. auto.
             ++ exfalso. apply Ng. exists raw, cleaned. auto.
             ++ left. congruence.
      + destruct (process_taxi_type_entries read_sql lib fhv_query "fhv"
                    [("green", assign "taxi_type" (fun _ => CStr "green") cg)])
          as [[-> Nf]|[rf [cf [Rf [Ef [Cf ->]]]]]];
          [simpl; intros [E|[]]; discriminate E| |]; simpl app.
        * split; [exists (String.eqb "green"); reflexivity|].
          intros k df. split.
          -- intros [E|[]]. injection E as <- <-.
             exists green_query, rg, cg. simpl. auto 10.
          -- intros [q [raw [cleaned [Hq [H1 [H2 [H3 ->]]]]]]]. simpl in Hq.
             destruct Hq as [E|[E|[E|[]]]]; injection E as <- <-.
             ++ exfalso. apply Ny. exists raw, cleaned. auto.
             ++ left. congruence.
             ++ exfalso. apply Nf. exists raw, cleaned. auto.
        * split; [exists (fun k => negb (String.eqb "yellow" k)); reflexivity|].
          intros k df. split.
          -- intros [E|[E|[]]]; injection E as <- <-.
             ++ exists green_query, rg, cg. simpl. auto 10.
             ++ exists fhv_query, rf, cf. simpl. auto 10.
          -- intros [q [raw [cleaned [Hq [H1 [H2 [H3 ->]]]]]]]. simpl in Hq.
             destruct Hq as [E|[E|[E|[]]]]; injection E as <- <-.
             ++ exfalso. apply Ny. exists raw, cleaned. auto.
             ++ left. congruence.
             ++ right. left. congruence.
    - destruct (process_taxi_type_entries read_sql lib green_query "green"
                  [("yellow", assign "taxi_type" (fun _ => CStr "yellow") cy)])
        as [[-> Ng]|[rg [cg [Rg [Eg [Cg ->]]]]]];
        [simpl; intros [E|[]]; discriminate E| |]; simpl app.
      + destruct (process_taxi_type_entries read_sql lib fhv_query "fhv"
                    [("yellow", assign "taxi_type" (fun _ => CStr "yellow") cy)])
          as [[-> Nf]|[rf [cf [Rf [Ef [Cf ->]]]]]];
          [simpl; intros [E|[]]; discriminate E| |]; simpl app.
        * split; [exists (String.eqb "yellow"); reflexivity|].
          intros k df. split.
          -- intros [E|[]]. injection E as <- <-.
             exists yellow_query, ry, cy. simpl. auto 10.
          -- intros [q [raw [cleaned [Hq [H1 [H2 [H3 ->]]]]]]]. simpl in Hq.
             destruct Hq as [E|[E|[E|[]]]]; injection E as <- <-.
             ++ left. congruence.
             ++ exfalso. apply Ng. exists raw, cleaned. auto.
             ++ exfalso. apply Nf. exists raw, cleaned. auto.
        * split; [exists (fun k => negb (String.eqb "green" k)); reflexivity|].
          intros k df. split.
          -- intros [E|[E|[]]]; injection E as <- <-.
             ++ exists yellow_query, ry, cy. simpl. auto 10.
             ++ exists fhv_query, rf, cf. simpl. auto 10.
          -- intros [q [raw [cleaned [Hq [H1 [H2 [H3 ->]]]]]]]. simpl in Hq.
             destruct Hq as [E|[E|[E|[]]]]; injection E as <- <-.
             ++ left. congruence.
             ++ exfalso. apply Ng. exists raw, cleaned. auto.
             ++ right. left. congruence.
      + destruct (process_taxi_type_entries read_sql lib fhv_query "fhv"
                    [("yellow", assign "taxi_type" (fun _ => CStr "yellow") cy);
                     ("green", assign "taxi_type" (fun _ => CStr "green") cg)])
          as [[-> Nf]|[rf [cf [Rf [Ef [Cf ->]]]]]];
          [simpl; intros [E|[E|[]]]; discriminate E| |]; simpl app.
        * split; [exists (fun k => negb (String.eqb "fhv" k)); reflexivity|].
          intros k df. split.
          -- intros [E|[E|[]]]; injection E as <- <-.
             ++ exists yellow_query, ry, cy. simpl. auto 10.
             ++ exists green_query, rg, cg. simpl. auto 10.
          -- intros [q [raw [cleaned [Hq [H1 [H2 [H3 ->]]]]]]]. simpl in Hq.
             destruct Hq as [E|[E|[E|[]]]]; injection E as <- <-.
             ++ left. congruence.
             ++ right. left. congruence.
             ++ exfalso. apply Nf. exists raw, cleaned. auto.
        * split; [exists (fun _ => true); reflexivity|].
          intros k df. split.
          -- intros [E|[E|[E|[]]]]; injection E as <- <-.
             ++ exists yellow_query, ry, cy. simpl. auto 10.
             ++ exists green_query, rg, cg. simpl. auto 10.
             ++ exists fhv_query, rf, cf. simpl. auto 10.
          -- intros [q [raw [cleaned [Hq [H1 [H2 [H3 ->]]]]]]]. simpl in Hq.
             destruct Hq as [E|[E|[E|[]]]]; injection E as <- <-.
             ++ left. congruence.
             ++ right. left. congruence.
             ++ right. right. left. congruence. }
  destruct Hmain as [Hkeys Hiff]. split; [exact Hkeys|]. split; [exact Hiff|].
  intros k df Hin. apply Hiff in Hin.
  destruct Hin as [q [raw [cleaned [_ [_ [Hne [Hc ->]]]]]]]. split.
  - intros c Hc'. rewrite has_col_assign.
    simpl in Hc'. destruct Hc' as [<-|[<-|[<-|[<-|[<-|[]]]]]];
      try solve [rewrite (taxi_columns_present lib raw cleaned _ Hne Hc);
                 [reflexivity|simpl; auto 10]].
    rewrite String.eqb_refl. apply orb_true_r.
  - intros r Hr. apply In_assign in Hr. destruct Hr as [r0 [_ ->]].
    apply get_setitem_same.
Qed.

(** X17.  [process_taxi_data] returns a dict whose keys are among 'yellow',
    'green' and 'fhv', in this order and none twice.  A key is present
    exactly when its query returned a table that is not empty and the taxi
    sanitizer returned on it, whatever happened to the other two; the table
    stored is the sanitized one with the column [taxi_type] added.  Every
    stored table has the columns pickup_hour, pickup_day, pickup_month,
    trip_duration and taxi_type, and each of its records has the key as
    taxi_type. *)
Theorem process_taxi_data_entries (read_sql : query -> result frame) (lib : Library) :
  (exists keep, map fst (process_taxi_data read_sql lib)
                = filter keep ["yellow"; "green"; "fhv"])
  /\ (forall k df,
        In (k, df) (process_taxi_data read_sql lib)
        <-> exists q raw cleaned,
              In (q, k) [(yellow_query, "yellow"); (green_query, "green"); (fhv_query, "fhv")]
              /\ read_sql q = Ok raw /\ empty raw = false
              /\ _clean_taxi_data lib raw = Ok cleaned
              /\ df = assign "taxi_type" (fun _ => CStr k) cleaned)
  /\ (forall k df,
        In (k, df) (process_taxi_data read_sql lib) ->
        (forall c, In c ["pickup_hour"; "pickup_day"; "pickup_month"; "trip_duration";
                         "taxi_type"] -> has_col c df = true)
        /\ forall r, In r (rows df) -> get r "taxi_type" = CStr k).
Proof. exact (process_taxi_data_stored read_sql lib). Qed.

(** ** The analyses of the pipeline's tables *)

Lemma has_col_concat (dfs : list frame) (out : frame) (c : string) :
  concat dfs = Ok out -> has_col c out = existsb (has_col c) dfs.
Proof.
  unfold concat. destruct dfs as [|d ds] eqn:E; [discriminate|]. rewrite <- E.
  intros H. injection H as <-. unfold has_col at 1. simpl columns.
  unfold union_cols. rewrite mem_union_cols_from. reflexivity.
Qed.

Lemma rows_concat_nil (dfs : list frame) (out : frame) :
  concat dfs = Ok out -> (rows out = [] <-> forall df, In df dfs -> rows df = []).
Proof.
  intros H. destruct (concat_rows dfs out H) as [_ Hlen]. split.
  - intros E. rewrite E in Hlen. simpl in Hlen. clear H.
    induction dfs as [|d ds IH]; intros df [].
    + subst d. simpl in Hlen. destruct (rows df); [reflexivity|discriminate Hlen].
    + apply IH; [|assumption]. simpl in Hlen. destruct (rows d); [exact Hlen|discriminate Hlen].
  - intros Hall. assert (Hz : total_rows dfs = 0%nat).
    { clear H Hlen. induction dfs as [|d ds IH]; [reflexivity|]. simpl.
      rewrite (Hall d (or_introl eq_refl)). simpl. apply IH.
      intros df Hdf. apply Hall. right. exact Hdf. }
    rewrite Hz in Hlen. destruct (rows out); [reflexivity|discriminate Hlen].
Qed.

(** A record of a concatenation is a record of one of the tables, with a
    missing value in the columns the table lacks. *)
Lemma In_rows_concat (dfs : list frame) (out : frame) (r' : row) :
  concat dfs = Ok out ->
  In r' (rows out) ->
  exists df r, In df dfs /\ In r (rows df)
               /\ forall c, get r' c = if has_col c df then get r c else CNull.
Proof.
  intros H Hr'. pose proof (concat_rows dfs out H) as [Hf _].
  assert (Hin : In (fields r') (map fields (rows out))) by (apply in_map; exact Hr').
  rewrite Hf in Hin. apply in_flat_map in Hin. destruct Hin as [df [Hdf Hin]].
  apply in_map_iff in Hin. destruct Hin as [r [Hr Hin]].
  exists df, r. split; [exact Hdf|]. split; [exact Hin|].
  intros c. rewrite (get_fields r' (reindex_row (union_cols dfs) df r) c) by (symmetry; exact Hr).
  apply get_reindex_row. intros Hc. apply mem_In.
  unfold union_cols. rewrite mem_union_cols_from. simpl.
  apply existsb_exists. exists df. split; assumption.
Qed.

Lemma _identify_hotspots_absent (pd : Pandas) (df : frame) (location_type : string) :
  (has_col (location_type ++ "_latitude") df
   && has_col (location_type ++ "_longitude") df)%bool = false ->
  _identify_hotspots pd df location_type = ([], df).
Proof. intros H. unfold _identify_hotspots. cbv zeta. rewrite H. reflexivity. Qed.

Lemma has_col_identify_hotspots (pd : Pandas) (df : frame) (location_type c : string) :
  has_col c df = true -> has_col c (snd (_identify_hotspots pd df location_type)) = true.
Proof.
  intros H. unfold _identify_hotspots. cbv zeta.
  destruct (_ && _)%bool; [|exact H].
  destruct (roundable pd _); [|exact H].
  destruct (roundable pd _); simpl; repeat apply has_col_assign_mono; exact H.
Qed.

(** The guarded entries of the analytics dicts. *)
Lemma set_if_present_absent (c k : string) (f : list cell -> result value) (df : frame)
    (a : list (string * value)) :
  has_col c df = false -> set_if_present c k f df a = Ok a.
Proof. intros H. unfold set_if_present. rewrite H. reflexivity. Qed.

Lemma set_if_present_other (c k k' : string) (f : list cell -> result value) (df : frame)
    (a a' : list (string * value)) :
  set_if_present c k f df a = Ok a' -> k <> k' -> dict_get k' a' = dict_get k' a.
Proof.
  unfold set_if_present. intros H Hne. destruct (has_col c df).
  - inv_bind H. injection H as <-. apply dict_get_set_other. exact Hne.
  - injection H as <-. reflexivity.
Qed.

Lemma set_if_present_returns (c k : string) (f : list cell -> result value) (df : frame)
    (a : list (string * value)) :
  (has_col c df = true -> returns (f (column c df)) = true) ->
  returns (set_if_present c k f df a) = true.
Proof.
  unfold set_if_present. intros H. destruct (has_col c df); [|reflexivity].
  specialize (H eq_refl). destruct (f (column c df)); [reflexivity|discriminate H].
Qed.

Lemma bind_returns {A B : Type} (m : result A) (k : A -> result B) :
  returns m = true -> (forall a, m = Ok a -> returns (k a) = true) ->
  returns (bind m k) = true.
Proof.
  intros Hm Hk. destruct m as [a|e]; [|discriminate Hm]. simpl. apply Hk. reflexivity.
Qed.

Lemma number_returns (f : list cell -> result float) (s : list cell) :
  returns (f s) = true -> returns (number f s) = true.
Proof. unfold number. intros H. destruct (f s); [reflexivity|discriminate H]. Qed.

Lemma sum_returns (pd : Pandas) (s : list cell) :
  computes_statistics pd -> numeric_column s -> returns (number (sum pd) s) = true.
Proof.
  intros Hpd Hs. apply number_returns. exact (proj1 (proj2 (Hpd s Hs))).
Qed.

Lemma mean_returns (pd : Pandas) (s : list cell) :
  computes_statistics pd -> numeric_column s -> returns (number (mean pd) s) = true.
Proof.
  intros Hpd Hs. apply number_returns. exact (proj1 (proj2 (proj2 (Hpd s Hs)))).
Qed.

Lemma median_returns (pd : Pandas) (s : list cell) :
  computes_statistics pd -> numeric_column s -> returns (number (median pd) s) = true.
Proof.
  intros Hpd Hs. apply number_returns. exact (proj2 (proj2 (proj2 (Hpd s Hs)))).
Qed.

Lemma counts_sort_index_returns (pd : Pandas) (s : list cell) :
  computes_statistics pd -> numeric_column s -> returns (counts_sort_index pd s) = true.
Proof.
  intros Hpd Hs. unfold counts_sort_index. destruct (Hpd s Hs) as [H _].
  destruct (value_counts_sort_index pd s); [reflexivity|discriminate H].
Qed.

(** The numeric columns of a sanitized taxi table hold numbers. *)
Lemma taxi_row_values (lib : Library) (df out : frame) (r : row) :
  empty df = false ->
  _clean_taxi_data lib df = Ok out ->
  In r (rows out) ->
  (exists x, get r "trip_duration" = CNum x)
  /\ (exists x, get r "pickup_hour" = CNum x)
  /\ (exists x, get r "pickup_month" = CNum x)
  /\ (has_col "fare_amount" df = true -> exists x, get r "fare_amount" = CNum x)
  /\ (has_col "trip_distance" df = true -> exists x, get r "avg_speed_mph" = CNum x).
Proof.
  intros Hne H Hr.
  destruct (_clean_taxi_data_stages lib df out Hne H) as [typed [timed [Ht [Hp [Hd [Etimed ->]]]]]].
  assert (Hcols : columns typed = columns df).
  { rewrite (columns_convert_datetimes _ _ _ _ Ht). apply columns_numeric_taxi. }
  apply In_copy_col in Hr. destruct Hr as [r13 [Hr Hg13]].
  apply In_copy_col in Hr. destruct Hr as [r12 [Hr Hg12]].
  apply In_add_speed in Hr. destruct Hr as [r11 [Hr [Hg11 Hspeed]]].
  apply In_add_time_features_values in Hr.
  destruct Hr as [r7 [Hr [Hg7 [Hhour [_ [Hmonth _]]]]]].
  apply In_select in Hr. destruct Hr as [Hr _].
  apply In_select in Hr. destruct Hr as [Hr _].
  rewrite Etimed in Hr. apply In_assign in Hr. destruct Hr as [r4 [Hr4 Er7]].
  apply In_select in Hr4. destruct Hr4 as [Hr4 _].
  destruct (In_convert_datetimes_values _ _ _ _ _ Ht Hr4) as [r3 [Hr3 [_ G3]]].
  apply In_rows_numeric_taxi in Hr3.
  apply In_convert_present in Hr3; [|repeat constructor; simpl; intuition discriminate].
  destruct Hr3 as [r0 [Hr0 [_ G0]]].
  assert (Hout : forall c, c <> "dropoff_zone" -> c <> "pickup_zone" -> get r c = get r12 c).
  { intros c H1 H2. rewrite Hg13 by exact H1. apply Hg12. exact H2. }
  split; [|split; [|split; [|split]]].
  - exists (minutes_between (get r4 "pickup_datetime") (get r4 "dropoff_datetime")).
    rewrite Hout, Hg11, Hg7, Er7 by (try discriminate; simpl; intuition discriminate).
    apply get_setitem_same.
  - rewrite Hout, Hg11, Hhour by discriminate. unfold dt_hour.
    destruct (wall_of lib _); eexists; reflexivity.
  - rewrite Hout, Hg11, Hmonth by discriminate. unfold dt_month.
    destruct (wall_of lib _) as [w|]; [|eexists; reflexivity].
    destruct (Calendar.civil_from_days _) as [[y m] d]. eexists. reflexivity.
  - intros Hf.
    rewrite Hout, Hg11, Hg7, Er7 by (try discriminate; simpl; intuition discriminate).
    rewrite get_setitem_other by discriminate. rewrite G3, G0.
    replace (mem "fare_amount" ["pickup_datetime"; "dropoff_datetime"]) with false
      by reflexivity.
    replace (mem "fare_amount" ["passenger_count"; "trip_distance"; "fare_amount";
                                "tip_amount"; "total_amount"]) with true by reflexivity.
    rewrite Hf. simpl. unfold to_numeric.
    destruct (get r0 "fare_amount") as [|v|s|t|g]; try (eexists; reflexivity).
    destruct (numeric_of_string lib s); eexists; reflexivity.
  - intros Hdist. rewrite Hout by discriminate.
    destruct Hspeed as [Hs _].
    + rewrite has_col_time_features, !has_col_select, Etimed, has_col_assign, has_col_select.
      rewrite (has_col_columns "trip_distance" df typed Hcols), Hdist. reflexivity.
    + rewrite has_col_time_features, !has_col_select, Etimed, has_col_assign.
      rewrite String.eqb_refl, orb_true_r. reflexivity.
    + rewrite Hs. unfold avg_speed. destruct (PrimFloat.is_nan _); eexists; reflexivity.
Qed.

(** Where it has the column, a sanitized taxi table has a distance column
    or had the speed column before. *)
Lemma taxi_speed_column (lib : Library) (df out : frame) :
  empty df = false ->
  _clean_taxi_data lib df = Ok out ->
  has_col "avg_speed_mph" out = (has_col "avg_speed_mph" df || has_col "trip_distance" df)%bool.
Proof.
  intros Hne H.
  destruct (_clean_taxi_data_stages lib df out Hne H) as [typed [timed [Ht [_ [_ [Etimed ->]]]]]].
  assert (Hcols : columns typed = columns df).
  { rewrite (columns_convert_datetimes _ _ _ _ Ht). apply columns_numeric_taxi. }
  rewrite !has_col_copy_col, !has_col_add_speed, !has_col_time_features, !has_col_select.
  rewrite Etimed, !has_col_assign, !has_col_select.
  rewrite !(has_col_columns _ df typed Hcols). simpl.
  rewrite ?orb_false_r, ?andb_false_r, ?orb_true_r, ?andb_true_r. reflexivity.
Qed.

(** Under a database that names its columns, a stored taxi table has only
    columns of the queries, derived columns and [taxi_type]. *)
Lemma stored_taxi_lacks (read_sql : query -> result frame) (lib : Library)
    (k : string) (df : frame) (c : string) :
  answers read_sql ->
  In (k, df) (process_taxi_data read_sql lib) ->
  (forall q cols, select_list q = Some cols -> mem c cols = false) ->
  mem c ["trip_duration"; "pickup_hour"; "pickup_day"; "pickup_month"; "pickup_weekday";
         "avg_speed_mph"; "pickup_zone"; "dropoff_zone"; "taxi_type"] = false ->
  has_col c df = false.
Proof.
  intros Hans Hin Hsel Hder.
  destruct (process_taxi_data_stored read_sql lib) as [_ [Hiff _]].
  apply Hiff in Hin. destruct Hin as [q [raw [cleaned [Hq [Hr [Hne [Hc ->]]]]]]].
  rewrite has_col_assign.
  assert (E : String.eqb c "taxi_type" = false).
  { destruct (String.eqb c "taxi_type") eqn:E; [|reflexivity].
    apply String.eqb_eq in E. subst c. discriminate Hder. }
  rewrite E, orb_false_r.
  destruct (has_col c cleaned) eqn:Ecol; [|reflexivity]. exfalso.
  destruct (taxi_columns_kept lib raw cleaned c Hne Hc Ecol) as [Hraw|Hd].
  - assert (Hs : exists cols, select_list q = Some cols).
    { simpl in Hq. destruct Hq as [Eq|[Eq|[Eq|[]]]]; injection Eq as <- _; eexists; reflexivity. }
    destruct Hs as [cols Hs].
    unfold has_col in Hraw. rewrite (Hans q raw cols Hr Hs), (Hsel q cols Hs) in Hraw.
    discriminate Hraw.
  - apply mem_In in Hd. simpl in Hd, Hder.
    destruct (String.eqb c "trip_duration"); [discriminate Hder|].
    destruct (String.eqb c "pickup_hour"); [discriminate Hder|].
    destruct (String.eqb c "pickup_day"); [discriminate Hder|].
    destruct (String.eqb c "pickup_month"); [discriminate Hder|].
    destruct (String.eqb c "pickup_weekday"); [discriminate Hder|].
    destruct (String.eqb c "avg_speed_mph"); [discriminate Hder|].
    destruct (String.eqb c "pickup_zone"); [discriminate Hder|].
    destruct (String.eqb c "dropoff_zone"); [discriminate Hder|].
    discriminate Hd.
Qed.

Lemma select_list_lacks (c : string) :
  forallb (fun q => match select_list q with
                    | Some cols => negb (mem c cols)
                    | None => true
                    end)
          [yellow_query; green_query; fhv_query; bikeshare_query; zones_query;
           subway_lines_query ""; subway_sample_query ""] = true ->
  forall q cols, select_list q = Some cols -> mem c cols = false.
Proof.
  intros H q cols Hs. rewrite forallb_forall in H.
  assert (Hq : exists q0,
             In q0 [yellow_query; green_query; fhv_query; bikeshare_query; zones_query;
                    subway_lines_query ""; subway_sample_query ""]
             /\ select_list q0 = select_list q).
  { destruct q;
      [exists yellow_query|exists green_query|exists fhv_query|exists bikeshare_query
       |exists zones_query|exists (subway_lines_query "")|exists (subway_sample_query "")];
      (split; [simpl; auto 10|reflexivity]). }
  destruct Hq as [q0 [Hin Heq]]. specialize (H q0 Hin). rewrite Heq, Hs in H.
  apply negb_true_iff in H. exact H.
Qed.

Lemma concat_lacks (dfs : list frame) (out : frame) (c : string) :
  concat dfs = Ok out ->
  (forall df, In df dfs -> has_col c df = false) ->
  has_col c out = false.
Proof.
  intros H Hall. rewrite (has_col_concat _ _ c H).
  destruct (existsb (has_col c) dfs) eqn:E; [|reflexivity].
  apply existsb_exists in E. destruct E as [df [Hdf Hc]].
  rewrite (Hall df Hdf) in Hc. discriminate Hc.
Qed.

(** Under a database that names its columns, the numeric columns of a
    stored taxi table hold numbers. *)
Lemma stored_taxi_numeric (read_sql : query -> result frame) (lib : Library)
    (k : string) (df : frame) (r : row) (c : string) :
  answers read_sql ->
  In (k, df) (process_taxi_data read_sql lib) ->
  In r (rows df) ->
  In c ["pickup_hour"; "pickup_month"; "trip_duration"; "fare_amount"; "avg_speed_mph"] ->
  has_col c df = true ->
  exists x, get r c = CNum x.
Proof.
  intros Hans Hin Hr Hc Hcol.
  destruct (process_taxi_data_stored read_sql lib) as [_ [Hiff _]].
  apply Hiff in Hin. destruct Hin as [q [raw [cleaned [Hq [Hraw [Hne [Hcl ->]]]]]]].
  apply In_assign in Hr. destruct Hr as [r0 [Hr0 ->]].
  assert (Hsel : forall c', (forall q' cols, select_list q' = Some cols -> mem c' cols = false) ->
                            has_col c' raw = false).
  { intros c' Hl.
    assert (Hs : exists cols, select_list q = Some cols).
    { simpl in Hq. destruct Hq as [Eq|[Eq|[Eq|[]]]]; injection Eq as <- _; eexists; reflexivity. }
    destruct Hs as [cols Hs]. unfold has_col. rewrite (Hans q raw cols Hraw Hs).
    exact (Hl q cols Hs). }
  destruct (taxi_row_values lib raw cleaned r0 Hne Hcl Hr0) as [Hdur [Hhour [Hmonth [Hfare Hspeed]]]].
  rewrite has_col_assign in Hcol.
  simpl in Hc. destruct Hc as [<-|[<-|[<-|[<-|[<-|[]]]]]];
    rewrite get_setitem_other by discriminate; simpl in Hcol; rewrite orb_false_r in Hcol.
  - exact Hhour.
  - exact Hmonth.
  - exact Hdur.
  - apply Hfare.
    destruct (taxi_columns_kept lib raw cleaned "fare_amount" Hne Hcl Hcol) as [E|E];
      [exact E|].
    simpl in E. exfalso. intuition discriminate.
  - apply Hspeed. rewrite (taxi_speed_column lib raw cleaned Hne Hcl) in Hcol.
    rewrite (Hsel "avg_speed_mph") in Hcol by (apply select_list_lacks; reflexivity).
    exact Hcol.
Qed.

Lemma all_taxi_numeric (read_sql : query -> result frame) (lib : Library)
    (all_taxi : frame) (c : string) :
  answers read_sql ->
  concat (map snd (process_taxi_data read_sql lib)) = Ok all_taxi ->
  In c ["pickup_hour"; "pickup_month"; "trip_duration"; "fare_amount"; "avg_speed_mph"] ->
  numeric_column (column c all_taxi).
Proof.
  intros Hans Hcat Hc v Hv. unfold column in Hv. apply in_map_iff in Hv.
  destruct Hv as [r' [<- Hr']].
  destruct (In_rows_concat _ _ _ Hcat Hr') as [df [r [Hdf [Hr Hg]]]].
  apply in_map_iff in Hdf. destruct Hdf as [[k df'] [<- Hin]]. simpl in *.
  rewrite Hg. destruct (has_col c df') eqn:Ecol; [|left; reflexivity].
  right. exact (stored_taxi_numeric read_sql lib k df' r c Hans Hin Hr Hc Ecol).
Qed.

Lemma taxi_lacks_coordinates (read_sql : query -> result frame) (lib : Library)
    (all_taxi : frame) (c : string) :
  answers read_sql ->
  concat (map snd (process_taxi_data read_sql lib)) = Ok all_taxi ->
  forallb (fun q => match select_list q with
                    | Some cols => negb (mem c cols)
                    | None => true
                    end)
          [yellow_query; green_query; fhv_query; bikeshare_query; zones_query;
           subway_lines_query ""; subway_sample_query ""]
  = true ->
  mem c ["trip_duration"; "pickup_hour"; "pickup_day"; "pickup_month";
         "pickup_weekday"; "avg_speed_mph"; "pickup_zone"; "dropoff_zone";
         "taxi_type"] = false ->
  has_col c all_taxi = false.
Proof.
  intros Hans Ec H1 H2. apply (concat_lacks _ _ c Ec). intros df Hdf.
  apply in_map_iff in Hdf. destruct Hdf as [[k df'] [<- Hin]].
  exact (stored_taxi_lacks read_sql lib k df' c Hans Hin (select_list_lacks c H1) H2).
Qed.

(** The unguarded reads of [_analyze_taxi_data] find their columns, and
    its statistics are taken of numbers. *)
Lemma analyze_taxi_returns (pd : Pandas) (read_sql : query -> result frame)
    (lib : Library) :
  computes_statistics pd ->
  answers read_sql ->
  process_taxi_data read_sql lib <> [] ->
  returns (_analyze_taxi_data pd (process_taxi_data read_sql lib)) = true.
Proof.
  intros Hpd Hans Hne.
  destruct (process_taxi_data_stored read_sql lib) as [_ [_ Hcols]].
  pose proof (all_taxi_numeric read_sql lib) as Hnumeric.
  pose proof (taxi_lacks_coordinates read_sql lib) as Hlack.
  set (d := process_taxi_data read_sql lib) in *.
  unfold _analyze_taxi_data.
  destruct (concat (map snd d)) as [all_taxi|e] eqn:Ec.
  2:{ unfold concat in Ec. destruct d; [contradiction|discriminate Ec]. }
  simpl bind. destruct (empty all_taxi); [reflexivity|].
  assert (Hall : forall c, In c ["pickup_hour"; "pickup_day"; "pickup_month"; "trip_duration";
                                 "taxi_type"] -> has_col c all_taxi = true).
  { intros c Hc. rewrite (has_col_concat _ _ c Ec).
    destruct d as [|[k df] d']; [contradiction|]. simpl.
    rewrite (proj1 (Hcols k df (or_introl eq_refl)) c Hc). reflexivity. }
  assert (Hnum : forall c, In c ["pickup_hour"; "pickup_month"; "trip_duration";
                                 "fare_amount"; "avg_speed_mph"] ->
                           numeric_column (column c all_taxi)).
  { intros c Hc. exact (Hnumeric all_taxi c Hans eq_refl Hc). }
  rewrite (_identify_hotspots_absent pd all_taxi "pickup")
    by (simpl; rewrite (Hlack all_taxi "pickup_latitude" Hans eq_refl); reflexivity).
  rewrite (_identify_hotspots_absent pd all_taxi "dropoff")
    by (simpl; rewrite (Hlack all_taxi "dropoff_latitude" Hans eq_refl); reflexivity).
  unfold getitem. rewrite !Hall by (simpl; auto 10).
  repeat (apply bind_returns;
          [first [reflexivity
                 |apply counts_sort_index_returns; [exact Hpd|apply Hnum; simpl; auto 10]
                 |apply set_if_present_returns; intros _;
                  first [apply mean_returns|apply median_returns];
                  [exact Hpd|apply Hnum; simpl; auto 10]]
          |let E := fresh "E" in intros ? E; try (injection E as <-)]).
  reflexivity.
Qed.

(** X18.  The taxi analysis cannot fail on what [process_taxi_data]
    returns.  When the database returns the columns the queries name and
    pandas computes the statistics of a column of numbers, then, whenever
    the dict is not empty (the guard of [generate_analytics]): the tables
    concatenate; the combined table has the columns pickup_hour, pickup_day,
    pickup_month and taxi_type that [_analyze_taxi_data] reads without a
    guard; and the columns of which it sorts the counts or takes mean and
    median (pickup_hour, pickup_month, trip_duration, fare_amount,
    avg_speed_mph) hold numbers or missing values only, because the
    sanitizer computed or converted each of them. *)
Theorem taxi_analysis_never_raises (pd : Pandas) (read_sql : query -> result frame)
    (lib : Library) :
  computes_statistics pd ->
  answers read_sql ->
  process_taxi_data read_sql lib <> [] ->
  returns (_analyze_taxi_data pd (process_taxi_data read_sql lib)) = true
  /\ forall all_taxi c,
       concat (map snd (process_taxi_data read_sql lib)) = Ok all_taxi ->
       In c ["pickup_hour"; "pickup_month"; "trip_duration"; "fare_amount"; "avg_speed_mph"] ->
       numeric_column (column c all_taxi).
Proof.
  intros Hpd Hans Hne. split; [exact (analyze_taxi_returns pd read_sql lib Hpd Hans Hne)|].
  intros all_taxi c Hcat Hc. exact (all_taxi_numeric read_sql lib all_taxi c Hans Hcat Hc).
Qed.

Lemma database_answers : answers Examples.database.
Proof.
  intros q df cols H1 H2.
  destruct q; simpl in H1; first [discriminate H1|injection H1 as <-]; simpl in H2;
    first [discriminate H2|injection H2 as <-; reflexivity].
Qed.

Lemma numeric_column_numbers (s : list cell) :
  numeric_column s -> forallb Examples.is_number s = true.
Proof.
  intros H. apply forallb_forall. intros v Hv.
  destruct (H v Hv) as [->|[x ->]]; reflexivity.
Qed.

Lemma example_pandas_computes : computes_statistics Examples.example_pandas.
Proof.
  intros s Hs. simpl. rewrite (numeric_column_numbers s Hs). simpl. auto.
Qed.

Lemma database_sample_answers : answers Examples.database_sample.
Proof.
  intros q df cols H1 H2.
  destruct q; simpl in H1; first [discriminate H1|injection H1 as <-]; simpl in H2;
    first [discriminate H2|injection H2 as <-; reflexivity].
Qed.

Lemma taxi_analysis_never_raises_witness :
  returns (_analyze_taxi_data Examples.example_pandas
             (process_taxi_data Examples.database example_library)) = true.
Proof.
  apply (taxi_analysis_never_raises Examples.example_pandas Examples.database
           example_library example_pandas_computes database_answers).
  vm_compute. discriminate.
Defined.

(** X19.  When the database returns the columns the queries name, the
    taxi analysis never finds a hotspot: no query selects a column
    pickup_latitude, pickup_longitude, dropoff_latitude or dropoff_longitude
    and the sanitizer adds none, so both hotspot lists of a non-empty
    analysis are empty. *)
Theorem taxi_hotspots_always_empty (pd : Pandas) (read_sql : query -> result frame)
    (lib : Library) (analytics : list (string * value)) :
  answers read_sql ->
  _analyze_taxi_data pd (process_taxi_data read_sql lib) = Ok analytics ->
  analytics = []
  \/ (dict_get "pickup_hotspots" analytics = Some (Hotspots [])
      /\ dict_get "dropoff_hotspots" analytics = Some (Hotspots [])).
Proof.
  intros Hans H. unfold _analyze_taxi_data in H.
  inv_bind H. rename a into all_taxi, Ha into Ec.
  destruct (empty all_taxi); [injection H as <-; left; reflexivity|].
  right.
  rewrite (_identify_hotspots_absent pd all_taxi "pickup") in H
    by (simpl; rewrite (taxi_lacks_coordinates read_sql lib all_taxi "pickup_latitude" Hans Ec);
        reflexivity).
  rewrite (_identify_hotspots_absent pd all_taxi "dropoff") in H
    by (simpl; rewrite (taxi_lacks_coordinates read_sql lib all_taxi "dropoff_latitude" Hans Ec);
        reflexivity).
  inv_bind H. inv_bind H. inv_bind H. inv_bind H. inv_bind H. inv_bind H.
  apply bind_Ok in H. destruct H as [s1 [H1 H]].
  apply bind_Ok in H. destruct H as [s2 [H2 H]].
  apply bind_Ok in H. destruct H as [s3 [H3 H]].
  apply bind_Ok in H. destruct H as [s4 [H4 H]].
  apply bind_Ok in H. destruct H as [s5 [H5 H]].
  inv_bind H. inv_bind H. injection H as <-.
  assert (Hget : forall k, In k ["pickup_hotspots"; "dropoff_hotspots"] ->
            dict_get k s5
            = dict_get k (dict_set "dropoff_hotspots" (Hotspots [])
                            (dict_set "pickup_hotspots" (Hotspots [])
                               (dict_set "monthly_distribution" a4
                                  (dict_set "daily_distribution" a2
                                     (dict_set "hourly_distribution" a0 [])))))).
  { intros k Hk.
    rewrite (set_if_present_other _ _ k _ _ _ _ H5)
      by (simpl in Hk; destruct Hk as [<-|[<-|[]]]; discriminate).
    rewrite (set_if_present_other _ _ k _ _ _ _ H4)
      by (simpl in Hk; destruct Hk as [<-|[<-|[]]]; discriminate).
    rewrite (set_if_present_other _ _ k _ _ _ _ H3)
      by (simpl in Hk; destruct Hk as [<-|[<-|[]]]; discriminate).
    rewrite (set_if_present_other _ _ k _ _ _ _ H2)
      by (simpl in Hk; destruct Hk as [<-|[<-|[]]]; discriminate).
    rewrite (set_if_present_other _ _ k _ _ _ _ H1)
      by (simpl in Hk; destruct Hk as [<-|[<-|[]]]; discriminate).
    reflexivity. }
  split.
  - rewrite dict_get_set_other by discriminate. rewrite Hget by (simpl; auto).
    rewrite dict_get_set_other by discriminate. apply dict_get_set_same.
  - rewrite dict_get_set_other by discriminate. rewrite Hget by (simpl; auto).
    apply dict_get_set_same.
Qed.

Lemma taxi_hotspots_always_empty_witness :
  exists analytics,
    _analyze_taxi_data Examples.example_pandas
      (process_taxi_data Examples.database example_library) = Ok analytics
    /\ (analytics = []
        \/ (dict_get "pickup_hotspots" analytics = Some (Hotspots [])
            /\ dict_get "dropoff_hotspots" analytics = Some (Hotspots []))).
Proof.
  destruct (_analyze_taxi_data Examples.example_pandas
              (process_taxi_data Examples.database example_library))
    as [analytics|e] eqn:E.
  - exists analytics. split; [reflexivity|].
    exact (taxi_hotspots_always_empty Examples.example_pandas Examples.database
             example_library analytics database_answers E).
  - exfalso. vm_compute in E. discriminate E.
Defined.

Lemma bikeshare_columns_kept (lib : Library) (df out : frame) (c : string) :
  empty df = false ->
  _clean_bikeshare_data lib df = Ok out ->
  has_col c out = true ->
  has_col c df = true \/ c = "station_location" \/ c = "year_category".
Proof.
  intros Hne H.
  destruct (_clean_bikeshare_data_stages lib df out Hne H)
    as [typed [located [_ [_ [Ht [Hloc Hyear]]]]]].
  assert (Hcols : columns typed = columns df).
  { rewrite (columns_convert_datetimes _ _ _ _ Ht). cbn [columns select with_rows].
    rewrite !columns_convert_present. reflexivity. }
  assert (Hl : has_col c located = (has_col c df || String.eqb c "station_location")%bool).
  { destruct (assignM_Ok _ _ _ _ Hloc) as [Hc _]. unfold has_col.
    rewrite Hc, mem_add_col, Hcols. reflexivity. }
  assert (Ho : has_col c out = true ->
               has_col c located = true \/ String.eqb c "year_category" = true).
  { unfold add_year_category in Hyear. destruct (has_col "YEAR" located).
    - destruct (assignM_Ok _ _ _ _ Hyear) as [Hc _]. unfold has_col.
      rewrite Hc, mem_add_col. intros E. apply orb_prop in E. exact E.
    - injection Hyear as <-. auto. }
  intros Hc. destruct (Ho Hc) as [E|E].
  - rewrite Hl in E. apply orb_prop in E. destruct E as [E|E]; [left; exact E|].
    right. left. apply String.eqb_eq. exact E.
  - right. right. apply String.eqb_eq. exact E.
Qed.

(** Under a database that names its columns, the bikeshare table of the
    pipeline has only columns of its query and the two derived ones. *)
Lemma bikeshare_table_lacks (read_sql : query -> result frame) (lib : Library) (c : string) :
  answers read_sql ->
  (forall q cols, select_list q = Some cols -> mem c cols = false) ->
  mem c ["station_location"; "year_category"] = false ->
  has_col c (process_bikeshare_data read_sql lib) = false.
Proof.
  intros Hans Hsel Hder. unfold process_bikeshare_data.
  destruct (read_sql bikeshare_query) as [raw|e] eqn:Er; [|reflexivity].
  assert (Hraw : has_col c raw = false).
  { unfold has_col. rewrite (Hans bikeshare_query raw _ Er eq_refl).
    apply (Hsel bikeshare_query). reflexivity. }
  destruct (empty raw) eqn:Ee; [exact Hraw|].
  destruct (_clean_bikeshare_data lib raw) as [out|e] eqn:Ec; [|reflexivity].
  destruct (has_col c out) eqn:Eo; [|reflexivity]. exfalso.
  destruct (bikeshare_columns_kept lib raw out c Ee Ec Eo) as [E | [-> | ->]];
    [congruence|discriminate Hder|discriminate Hder].
Qed.

Lemma analyze_bikeshare_empty (pd : Pandas) (read_sql : query -> result frame)
    (lib : Library) :
  answers read_sql ->
  _analyze_bikeshare_data pd (process_bikeshare_data read_sql lib) = Ok [].
Proof.
  intros Hans. unfold _analyze_bikeshare_data.
  destruct (empty (process_bikeshare_data read_sql lib)); [reflexivity|].
  unfold set_if_present.
  rewrite (bikeshare_table_lacks read_sql lib "start_hour" Hans)
    by (try apply select_list_lacks; reflexivity).
  rewrite (bikeshare_table_lacks read_sql lib "start_day" Hans)
    by (try apply select_list_lacks; reflexivity).
  rewrite (bikeshare_table_lacks read_sql lib "start_station_name" Hans)
    by (try apply select_list_lacks; reflexivity).
  rewrite (bikeshare_table_lacks read_sql lib "end_station_name" Hans)
    by (try apply select_list_lacks; reflexivity).
  rewrite (bikeshare_table_lacks read_sql lib "trip_duration" Hans)
    by (try apply select_list_lacks; reflexivity).
  rewrite (bikeshare_table_lacks read_sql lib "user_type" Hans)
    by (try apply select_list_lacks; reflexivity).
  reflexivity.
Qed.

(** X20.  When the database returns the columns the bikeshare query
    names, the bikeshare analysis of the pipeline's bikeshare table returns
    the empty dict: none of the columns it looks for (start_hour, start_day,
    start_station_name, end_station_name, trip_duration, user_type) is
    selected by the query or added by the sanitizer, so it computes
    nothing and nothing can raise. *)
Theorem bikeshare_analysis_is_empty (pd : Pandas) (read_sql : query -> result frame)
    (lib : Library) :
  answers read_sql ->
  _analyze_bikeshare_data pd (process_bikeshare_data read_sql lib) = Ok [].
Proof. exact (analyze_bikeshare_empty pd read_sql lib). Qed.

Lemma bikeshare_analysis_is_empty_witness :
  _analyze_bikeshare_data Examples.example_pandas
    (process_bikeshare_data Examples.database example_library) = Ok [].
Proof.
  exact (bikeshare_analysis_is_empty Examples.example_pandas Examples.database
           example_library database_answers).
Defined.

Lemma analyze_cross_modal (pd : Pandas) (read_sql : query -> result frame)
    (lib : Library) :
  computes_statistics pd ->
  answers read_sql ->
  exists temporal_comparison,
    _analyze_cross_modal_data pd (process_taxi_data read_sql lib)
                              (process_bikeshare_data read_sql lib)
    = Ok [("temporal_comparison", Nested temporal_comparison)]
    /\ dict_get "bikeshare" temporal_comparison = None
    /\ (dict_get "taxi" temporal_comparison <> None
        <-> exists k df, In (k, df) (process_taxi_data read_sql lib) /\ rows df <> []).
Proof.
  intros Hpd Hans.
  destruct (process_taxi_data_stored read_sql lib) as [_ [_ Hcols]].
  pose proof (all_taxi_numeric read_sql lib) as Hnumeric.
  remember (process_taxi_data read_sql lib) as d eqn:Hd. clear Hd.
  set (b := process_bikeshare_data read_sql lib).
  assert (Hb : forall t, (if negb (empty b)
                          then set_if_present "start_hour" "bikeshare"
                                 (counts_sort_index pd) b t
                          else Ok t) = Ok t).
  { intros t. destruct (negb (empty b)); [|reflexivity]. apply set_if_present_absent.
    apply (bikeshare_table_lacks read_sql lib _ Hans);
      try apply select_list_lacks; reflexivity. }
  unfold _analyze_cross_modal_data. cbv zeta.
  destruct d as [|[k0 df0] d'].
  - simpl bind. rewrite Hb. simpl bind. exists []. split; [reflexivity|].
    split; [reflexivity|].
    split; [intros H; exfalso; apply H; reflexivity|].
    intros [k [df [[] _]]].
  - remember ((k0, df0) :: d') as d eqn:Ed.
    destruct (concat (map snd d)) as [all_taxi|e] eqn:Ec.
    2:{ unfold concat in Ec. rewrite Ed in Ec. discriminate Ec. }
    simpl bind.
    assert (Hhour : has_col "pickup_hour" all_taxi = true).
    { assert (Hin : In (k0, df0) d) by (rewrite Ed; left; reflexivity).
      rewrite (has_col_concat _ _ _ Ec), Ed. simpl.
      rewrite (proj1 (Hcols k0 df0 Hin) "pickup_hour"); [reflexivity|].
      simpl. auto. }
    assert (Hempty : empty all_taxi = false <-> exists k df, In (k, df) d /\ rows df <> []).
    { unfold empty. destruct (rows all_taxi) as [|r rs] eqn:Er.
      - split; [discriminate|]. intros [k [df [Hin Hne]]]. exfalso. apply Hne.
        apply (proj1 (rows_concat_nil _ _ Ec) Er). apply in_map_iff.
        exists (k, df). split; [reflexivity|exact Hin].
      - unfold has_col in Hhour. destruct (columns all_taxi); [discriminate Hhour|].
        split; [|reflexivity]. intros _.
        destruct (Exists_dec (fun p : string * frame => rows (snd p) <> []) d) as [E|E].
        + intros [k df]. simpl. destruct (rows df); [right; intros H; apply H; reflexivity|].
          left. discriminate.
        + apply Exists_exists in E. destruct E as [[k df] [Hin Hne]].
          exists k, df. split; assumption.
        + exfalso. assert (Hnil : rows all_taxi = []).
          { apply (proj2 (rows_concat_nil _ _ Ec)). intros df Hdf.
            apply in_map_iff in Hdf. destruct Hdf as [[k df'] [<- Hin]]. simpl.
            destruct (rows df') eqn:Erows; [reflexivity|]. exfalso. apply E.
            apply Exists_exists. exists (k, df'). split; [exact Hin|].
            simpl. rewrite Erows. discriminate. }
          rewrite Hnil in Er. discriminate Er. }
    destruct (empty all_taxi) eqn:Ee; simpl negb; cbv iota.
    + simpl bind. rewrite Hb. simpl bind. exists []. split; [reflexivity|].
      split; [reflexivity|].
      split; [intros H; exfalso; apply H; reflexivity|].
      intros H. apply Hempty in H. discriminate H.
    + unfold set_if_present at 1. rewrite Hhour. unfold counts_sort_index.
      assert (Hn : numeric_column (column "pickup_hour" all_taxi)).
      { apply (Hnumeric all_taxi "pickup_hour" Hans eq_refl). simpl. auto. }
      destruct (Hpd _ Hn) as [Hv _].
      destruct (value_counts_sort_index pd (column "pickup_hour" all_taxi)) as [v|e];
        [|discriminate Hv].
      simpl bind. rewrite Hb. simpl bind. eexists. split; [reflexivity|].
      split; [reflexivity|].
      split; [intros _; apply Hempty; reflexivity|]. intros _. discriminate.
Qed.

(** X21.  When the database returns the columns the queries name and
    pandas computes the statistics of a column of numbers, the cross-modal
    analysis of the pipeline's tables returns a dict with the single key
    'temporal_comparison'; the comparison never has an entry 'bikeshare',
    and it has an entry 'taxi' exactly when some stored taxi table has a
    record. *)
Theorem cross_modal_comparison (pd : Pandas) (read_sql : query -> result frame)
    (lib : Library) :
  computes_statistics pd ->
  answers read_sql ->
  exists temporal_comparison,
    _analyze_cross_modal_data pd (process_taxi_data read_sql lib)
                              (process_bikeshare_data read_sql lib)
    = Ok [("temporal_comparison", Nested temporal_comparison)]
    /\ dict_get "bikeshare" temporal_comparison = None
    /\ (dict_get "taxi" temporal_comparison <> None
        <-> exists k df, In (k, df) (process_taxi_data read_sql lib) /\ rows df <> []).
Proof. exact (analyze_cross_modal pd read_sql lib). Qed.

Lemma cross_modal_comparison_witness :
  exists temporal_comparison,
    _analyze_cross_modal_data Examples.example_pandas
      (process_taxi_data Examples.database example_library)
      (process_bikeshare_data Examples.database example_library)
    = Ok [("temporal_comparison", Nested temporal_comparison)]
    /\ dict_get "bikeshare" temporal_comparison = None
    /\ (dict_get "taxi" temporal_comparison <> None
        <-> exists k df, In (k, df) (process_taxi_data Examples.database example_library)
                         /\ rows df <> []).
Proof.
  exact (cross_modal_comparison Examples.example_pandas Examples.database
           example_library example_pandas_computes database_answers).
Defined.

(** X22.  [_identify_hotspots] returns at most 20 hotspots.  On a table
    that lacks the latitude or the longitude column of the location type it
    returns none and leaves the table as it is; in every case the table
    keeps its columns, its records and their labels, and only the columns
    lat_rounded and lon_rounded may have been set. *)
Theorem hotspots_bounded (pd : Pandas) (df : frame) (location_type : string) :
  (List.length (fst (_identify_hotspots pd df location_type)) <= 20)%nat
  /\ (has_col (location_type ++ "_latitude") df = false
      \/ has_col (location_type ++ "_longitude") df = false ->
      _identify_hotspots pd df location_type = ([], df))
  /\ (forall c, has_col c df = true ->
                has_col c (snd (_identify_hotspots pd df location_type)) = true)
  /\ stems ["lon_rounded"; "lat_rounded"] (snd (_identify_hotspots pd df location_type)) df
  /\ map label (rows (snd (_identify_hotspots pd df location_type))) = map label (rows df).
Proof.
  split; [|split; [|split; [|split]]].
  - unfold _identify_hotspots. cbv zeta.
    destruct (_ && _)%bool; [|apply Nat.le_0_l].
    destruct (roundable pd _); [|apply Nat.le_0_l].
    destruct (roundable pd _); [|apply Nat.le_0_l].
    cbn [fst]. rewrite length_map. apply firstn_le_length.
  - intros H. apply _identify_hotspots_absent.
    destruct H as [-> | ->]; [reflexivity|apply andb_false_r].
  - intros c. apply has_col_identify_hotspots.
  - unfold _identify_hotspots. cbv zeta.
    destruct (_ && _)%bool; [|apply (stems_incl []); [intros c []|apply stems_refl]].
    destruct (roundable pd _); [|apply (stems_incl []); [intros c []|apply stems_refl]].
    destruct (roundable pd _); cbn [snd].
    + apply (stems_trans ["lon_rounded"] ["lat_rounded"] _ _ _ (stems_assign _ _ _)).
      apply stems_assign.
    + apply (stems_incl ["lat_rounded"]); [intros c [<-|[]]; simpl; auto|].
      apply stems_assign.
  - unfold _identify_hotspots. cbv zeta.
    destruct (_ && _)%bool; [|reflexivity].
    destruct (roundable pd _); [|reflexivity].
    destruct (roundable pd _); cbn [snd]; rewrite ?labels_assign; reflexivity.
Qed.

(** ** The conversion of numpy values *)

Import SaveAnalytics.

Section PyobjInduction.

Variable P : pyobj -> Prop.
Variable Q : ndarray -> Prop.

Hypothesis HNone : P PyNone.
Hypothesis HBool : forall b, P (PyBool b).
Hypothesis HInt : forall z, P (PyInt z).
Hypothesis HFloat : forall x, P (PyFloat x).
Hypothesis HStr : forall s, P (PyStr s).
Hypothesis HList : forall l, Forall P l -> P (PyList l).
Hypothesis HTuple : forall l, Forall P l -> P (PyTuple l).
Hypothesis HDict : forall d, Forall (fun kv => P (fst kv) /\ P (snd kv)) d -> P (PyDict d).
Hypothesis HNp : forall x, P (Np x).
Hypothesis HArray : forall a, Q a -> P (NpArray a).
Hypothesis HOther : forall s, P (PyOther s).
Hypothesis HElem : forall x, Q (Elem x).
Hypothesis HObj : forall o, P o -> Q (Obj o).
Hypothesis HAxis : forall l, Forall Q l -> Q (Axis l).

Fixpoint pyobj_induction (o : pyobj) : P o :=
  match o with
  | PyNone => HNone
  | PyBool b => HBool b
  | PyInt z => HInt z
  | PyFloat x => HFloat x
  | PyStr s => HStr s
  | PyList l =>
      HList l ((fix go (l : list pyobj) : Forall P l :=
                  match l with
                  | [] => Forall_nil P
                  | x :: l' => Forall_cons x (pyobj_induction x) (go l')
                  end) l)
  | PyTuple l =>
      HTuple l ((fix go (l : list pyobj) : Forall P l :=
                   match l with
                   | [] => Forall_nil P
                   | x :: l' => Forall_cons x (pyobj_induction x) (go l')
                   end) l)
  | PyDict d =>
      HDict d ((fix go (d : list (pyobj * pyobj))
                  : Forall (fun kv => P (fst kv) /\ P (snd kv)) d :=
                  match d with
                  | [] => Forall_nil _
                  | (k, v) :: d' =>
                      Forall_cons (k, v) (conj (pyobj_induction k) (pyobj_induction v)) (go d')
                  end) d)
  | Np x => HNp x
  | NpArray a => HArray a (ndarray_induction a)
  | PyOther s => HOther s
  end
with ndarray_induction (a : ndarray) : Q a :=
  match a with
  | Elem x => HElem x
  | Obj o => HObj o (pyobj_induction o)
  | Axis l =>
      HAxis l ((fix go (l : list ndarray) : Forall Q l :=
                  match l with
                  | [] => Forall_nil Q
                  | x :: l' => Forall_cons x (ndarray_induction x) (go l')
                  end) l)
  end.

End PyobjInduction.

Lemma forallb_map_eq {A B : Type} (f : A -> B) (p : B -> bool) (q : A -> bool) (l : list A) :
  Forall (fun x => p (f x) = q x) l -> forallb p (map f l) = forallb q l.
Proof.
  induction 1 as [|x l Hx _ IH]; simpl; [reflexivity|]. rewrite Hx, IH. reflexivity.
Qed.

Lemma map_id_on {A : Type} (f : A -> A) (l : list A) :
  Forall (fun x => f x = x) l -> map f l = l.
Proof.
  induction 1 as [|x l Hx _ IH]; simpl; [reflexivity|]. rewrite Hx, IH. reflexivity.
Qed.

Lemma numpy_free_item (x : npscalar) : numpy_free (item x) = true.
Proof. destruct x; reflexivity. Qed.

(** X23.  [convert_numpy_types] returns an object free of numpy scalars and
    arrays exactly when the numpy objects of its argument are integer
    scalars, floating scalars and arrays whose elements of dtype object are
    numpy-free, and sit in lists and dict values, at any depth.  A numpy
    bool or string scalar, and a numpy object inside a tuple or used as a
    dict key, stay in the result. *)
Theorem converted_numpy_free (obj : pyobj) :
  numpy_free (convert_numpy_types obj) = convertible obj.
Proof.
  induction obj using pyobj_induction
    with (Q := fun a => numpy_free (tolist a) = plain_array a);
    try reflexivity.
  - simpl. apply forallb_map_eq. assumption.
  - simpl. apply forallb_map_eq.
    match goal with H : Forall _ d |- _ => revert H end.
    apply Forall_impl. intros [k v] [_ Hv]. simpl in *. rewrite Hv. reflexivity.
  - destruct x; reflexivity.
  - simpl. assumption.
  - apply numpy_free_item.
  - simpl. apply forallb_map_eq. assumption.
Qed.

Ltac name_IH IH :=
  match goal with H : Forall _ _ |- _ => rename H into IH; rewrite Forall_forall in IH end.

Lemma numpy_free_fixed (obj : pyobj) :
  numpy_free obj = true -> convert_numpy_types obj = obj.
Proof.
  induction obj using pyobj_induction with (Q := fun _ => True);
    try reflexivity; try exact I; simpl; intros Hf; try discriminate Hf.
  - name_IH IH. f_equal. apply map_id_on. rewrite forallb_forall in Hf.
    apply Forall_forall. intros x Hx. apply (IH x Hx). apply Hf, Hx.
  - name_IH IH. f_equal. apply map_id_on. rewrite forallb_forall in Hf.
    apply Forall_forall. intros [k v] Hx.
    destruct (IH (k, v) Hx) as [_ Hv]. simpl in Hv. rewrite Hv; [reflexivity|].
    specialize (Hf (k, v) Hx). simpl in Hf. apply andb_prop in Hf. apply Hf.
Qed.

Lemma convertible_numpy_free (obj : pyobj) :
  convertible obj = true -> numpy_free (convert_numpy_types obj) = true.
Proof.
  induction obj using pyobj_induction
    with (Q := fun a => plain_array a = true -> numpy_free (tolist a) = true);
    try reflexivity; simpl; intros Hc.
  - name_IH IH. rewrite forallb_forall in *. intros y Hy. apply in_map_iff in Hy.
    destruct Hy as [x [<- Hx]]. apply (IH x Hx). apply Hc, Hx.
  - exact Hc.
  - name_IH IH. rewrite forallb_forall in *. intros y Hy. apply in_map_iff in Hy.
    destruct Hy as [[k v] [<- Hx]].
    specialize (Hc (k, v) Hx). simpl in Hc. apply andb_prop in Hc. destruct Hc as [Hk Hv].
    destruct (IH (k, v) Hx) as [_ IHv]. simpl in IHv. rewrite Hk, (IHv Hv). reflexivity.
  - destruct x; first [reflexivity|discriminate Hc].
  - apply IHobj. exact Hc.
  - apply numpy_free_item.
  - exact Hc.
  - name_IH IH. rewrite forallb_forall in *. intros y Hy. apply in_map_iff in Hy.
    destruct Hy as [x [<- Hx]]. apply (IH x Hx). apply Hc, Hx.
Qed.

(** X24.  [convert_numpy_types] returns an object without numpy values as it
    is.  Converting twice gives what converting once gives for every
    convertible object, but not for all objects: an array of dtype object
    that holds a numpy integer yields that numpy integer the first time and
    a Python int the second time. *)
Theorem convert_numpy_types_idempotent :
  (forall obj, numpy_free obj = true -> convert_numpy_types obj = obj)
  /\ (forall obj, convertible obj = true ->
                  convert_numpy_types (convert_numpy_types obj) = convert_numpy_types obj)
  /\ (exists obj, convert_numpy_types (convert_numpy_types obj) <> convert_numpy_types obj).
Proof.
  split; [exact numpy_free_fixed|]. split.
  - intros obj H. apply numpy_free_fixed, convertible_numpy_free, H.
  - exists (NpArray (Obj (Np (np_integer 1)))). simpl. discriminate.
Qed.

(** ** The subway table and [generate_analytics] *)

Lemma subway_loop_result (read_sql : query -> result frame)
    (get_table_info : string -> string -> list (string * string * string * option string))
    (tables : list string) (subway_df : frame) :
  subway_loop read_sql get_table_info tables subway_df = subway_df
  \/ (empty (subway_loop read_sql get_table_info tables subway_df) = false
      /\ exists table_name,
           In table_name tables
           /\ get_table_structure get_table_info "dbo" (last_part table_name) <> []
           /\ read_sql (if mem "linename"
                              (map col_name
                                 (get_table_structure get_table_info "dbo"
                                    (last_part table_name)))
                        then subway_lines_query table_name
                        else subway_sample_query table_name)
              = Ok (subway_loop read_sql get_table_info tables subway_df)).
Proof.
  induction tables as [|t tables IH]; simpl; [left; reflexivity|].
  assert (Hnext : subway_loop read_sql get_table_info tables subway_df = subway_df
                  \/ (empty (subway_loop read_sql get_table_info tables subway_df) = false
                      /\ exists table_name,
                           (t = table_name \/ In table_name tables)
                           /\ get_table_structure get_table_info "dbo" (last_part table_name)
                              <> []
                           /\ read_sql (if mem "linename"
                                              (map col_name
                                                 (get_table_structure get_table_info "dbo"
                                                    (last_part table_name)))
                                        then subway_lines_query table_name
                                        else subway_sample_query table_name)
                              = Ok (subway_loop read_sql get_table_info tables subway_df))).
  { destruct IH as [IH|[He [t' [Hin H]]]]; [left; exact IH|].
    right. split; [exact He|]. exists t'. split; [right; exact Hin|exact H]. }
  destruct (get_table_structure get_table_info "dbo" (last_part t)) as [|c cs] eqn:Es;
    [exact Hnext|].
  destruct (read_sql _) as [df|e] eqn:Er; [|exact Hnext].
  destruct (empty df) eqn:Ee; [exact Hnext|].
  right. split; [exact Ee|]. exists t. split; [left; reflexivity|].
  rewrite Es. split; [discriminate|exact Er].
Qed.

(** X25.  [process_subway_data] looks the two subway tables up under the
    names 'MTA_Subway_Turnstile_Usage_Data_2022_20250720' and 'mta_1706'.  It
    returns the empty [DataFrame()] or a table that is not empty and is the
    answer to the query built for one of the two tables whose structure is
    known: the aggregation by line when the structure has a column
    'linename', the first 1000 rows otherwise.  When neither table has a
    known structure it returns the empty [DataFrame()]. *)
Theorem process_subway_data_result (read_sql : query -> result frame)
    (get_table_info : string -> string -> list (string * string * string * option string)) :
  map last_part subway_tables
  = ["MTA_Subway_Turnstile_Usage_Data_2022_20250720"; "mta_1706"]
  /\ (process_subway_data read_sql get_table_info = DataFrame
      \/ (empty (process_subway_data read_sql get_table_info) = false
          /\ exists table_name,
               In table_name subway_tables
               /\ get_table_structure get_table_info "dbo" (last_part table_name) <> []
               /\ read_sql (if mem "linename"
                                  (map col_name
                                     (get_table_structure get_table_info "dbo"
                                        (last_part table_name)))
                            then subway_lines_query table_name
                            else subway_sample_query table_name)
                  = Ok (process_subway_data read_sql get_table_info)))
  /\ ((forall table_name, In table_name subway_tables ->
         get_table_info "dbo" (last_part table_name) = []) ->
      process_subway_data read_sql get_table_info = DataFrame).
Proof.
  split; [reflexivity|]. split; [apply subway_loop_result|].
  intros H.
  pose proof (H "dbo.MTA_Subway_Turnstile_Usage_Data_2022_20250720" (or_introl eq_refl))
    as H1.
  pose proof (H "dbo.mta_1706" (or_intror (or_introl eq_refl))) as H2.
  unfold process_subway_data, subway_tables. cbn [subway_loop].
  unfold get_table_structure. rewrite H1, H2. reflexivity.
Qed.

(** The subway analysis takes sum and mean of the entry counts without a
    guard on what the column holds. *)
Lemma analyze_subway_returns (pd : Pandas) (subway : frame) :
  computes_statistics pd ->
  numeric_column (column "entry_count" subway) ->
  returns (_analyze_subway_data pd subway) = true.
Proof.
  intros Hpd Hn. unfold _analyze_subway_data.
  destruct (empty subway); [reflexivity|].
  apply bind_returns; [apply set_if_present_returns; intros _; reflexivity|]. intros a1 _.
  apply bind_returns; [apply set_if_present_returns; intros _; reflexivity|]. intros a2 _.
  apply bind_returns;
    [apply set_if_present_returns; intros _; apply sum_returns; assumption|]. intros a3 _.
  apply set_if_present_returns. intros _. apply mean_returns; assumption.
Qed.

Lemma analyze_subway_raises (pd : Pandas) (subway : frame) (e : exn) :
  empty subway = false ->
  has_col "entry_count" subway = true ->
  sum pd (column "entry_count" subway) = Raise e ->
  _analyze_subway_data pd subway = Raise e.
Proof.
  intros He Hc Hs. unfold _analyze_subway_data. rewrite He.
  unfold set_if_present, number, counts_head. rewrite Hc, Hs.
  destruct (has_col "linename" subway), (has_col "station" subway); reflexivity.
Qed.

(** X26.  [generate_analytics] has one unguarded path to an exception:
    the sum and the mean that [_analyze_subway_data] takes of the column
    entry_count of whatever table [process_subway_data] returned.  When the
    database returns the columns the queries name and pandas computes the
    statistics of a column of numbers, then: if the entry counts of the
    subway table (if it has any) are numbers or missing values,
    [generate_analytics] returns; the keys of its dict are among 'taxi',
    'subway', 'bikeshare' and 'cross_modal', in this order; 'taxi' is
    present exactly when [process_taxi_data] stored a table, 'subway'
    exactly when the subway table is not empty, 'bikeshare' exactly when the
    bikeshare table is not empty (its value is then the empty dict), and
    'cross_modal' always.  And if the subway table is not empty and pandas
    raises on the sum of its entry counts (as it does on text), that
    exception leaves [generate_analytics]. *)
Theorem generate_analytics_returns (pd : Pandas) (read_sql : query -> result frame)
    (get_table_info : string -> string -> list (string * string * string * option string))
    (lib : Library) :
  computes_statistics pd ->
  answers read_sql ->
  (numeric_column (column "entry_count" (process_subway_data read_sql get_table_info)) ->
   exists analytics,
     generate_analytics pd read_sql get_table_info lib = Ok analytics
     /\ (exists keep, map fst analytics
                      = filter keep ["taxi"; "subway"; "bikeshare"; "cross_modal"])
     /\ (dict_get "taxi" analytics <> None <-> process_taxi_data read_sql lib <> [])
     /\ (dict_get "subway" analytics <> None
         <-> empty (process_subway_data read_sql get_table_info) = false)
     /\ (dict_get "bikeshare" analytics
         = if empty (process_bikeshare_data read_sql lib) then None else Some (Nested []))
     /\ dict_get "cross_modal" analytics <> None)
  /\ (forall e,
        empty (process_subway_data read_sql get_table_info) = false ->
        has_col "entry_count" (process_subway_data read_sql get_table_info) = true ->
        sum pd (column "entry_count" (process_subway_data read_sql get_table_info))
        = Raise e ->
        generate_analytics pd read_sql get_table_info lib = Raise e).
Proof.
  intros Hpd Hans.
  pose proof (analyze_taxi_returns pd read_sql lib Hpd Hans) as Htaxi.
  assert (Htaxi' : process_taxi_data read_sql lib = []
                   \/ exists taxi, process_taxi_data read_sql lib <> []
                                   /\ _analyze_taxi_data pd (process_taxi_data read_sql lib)
                                      = Ok taxi).
  { destruct (process_taxi_data read_sql lib) as [|p d] eqn:Ed; [left; reflexivity|].
    right. assert (Hne : p :: d <> []) by discriminate. specialize (Htaxi Hne).
    destruct (_analyze_taxi_data pd (p :: d)) as [taxi|e]; [|discriminate Htaxi].
    exists taxi. split; [exact Hne|reflexivity]. }
  clear Htaxi.
  destruct (analyze_cross_modal pd read_sql lib Hpd Hans) as [tc [Hcross _]].
  pose proof (analyze_bikeshare_empty pd read_sql lib Hans) as Hbike.
  split.
  - intros Hn.
    pose proof (analyze_subway_returns pd _ Hpd Hn) as Hsub.
    unfold generate_analytics. cbv zeta. rewrite Hcross, Hbike.
    destruct (_analyze_subway_data pd (process_subway_data read_sql get_table_info))
      as [sub|e]; [|discriminate Hsub].
    destruct Htaxi' as [Ed|[taxi [Hne Et]]].
    + rewrite Ed. simpl bind.
      destruct (empty (process_subway_data read_sql get_table_info)),
               (empty (process_bikeshare_data read_sql lib)); simpl;
        eexists; (split; [reflexivity|]); simpl.
      * split; [exists (String.eqb "cross_modal"); reflexivity|].
        repeat split; try discriminate; intros H; exfalso; apply H; reflexivity.
      * split; [exists (fun k => (String.eqb "bikeshare" k || String.eqb "cross_modal" k)%bool);
                reflexivity|].
        repeat split; try discriminate; intros H; exfalso; apply H; reflexivity.
      * split; [exists (fun k => (String.eqb "subway" k || String.eqb "cross_modal" k)%bool);
                reflexivity|].
        repeat split; try discriminate; intros H; exfalso; apply H; reflexivity.
      * split; [exists (fun k => negb (String.eqb "taxi" k)); reflexivity|].
        repeat split; try discriminate; intros H; exfalso; apply H; reflexivity.
    + rewrite Et. destruct (process_taxi_data read_sql lib) as [|p d]; [contradiction|].
      simpl bind.
      destruct (empty (process_subway_data read_sql get_table_info)),
               (empty (process_bikeshare_data read_sql lib)); simpl;
        eexists; (split; [reflexivity|]); simpl.
      * split; [exists (fun k => (String.eqb "taxi" k || String.eqb "cross_modal" k)%bool);
                reflexivity|].
        repeat split; try discriminate; intros H; exfalso; apply H; reflexivity.
      * split; [exists (fun k => negb (String.eqb "subway" k)); reflexivity|].
        repeat split; try discriminate; intros H; exfalso; apply H; reflexivity.
      * split; [exists (fun k => negb (String.eqb "bikeshare" k)); reflexivity|].
        repeat split; try discriminate; intros H; exfalso; apply H; reflexivity.
      * split; [exists (fun _ => true); reflexivity|].
        repeat split; try discriminate; intros H; exfalso; apply H; reflexivity.
  - intros e He Hc Hs.
    pose proof (analyze_subway_raises pd _ e He Hc Hs) as Hsub.
    unfold generate_analytics. cbv zeta. rewrite He, Hsub. simpl negb. cbv iota.
    destruct Htaxi' as [Ed|[taxi [Hne Et]]].
    + rewrite Ed. reflexivity.
    + rewrite Et. destruct (process_taxi_data read_sql lib) as [|p d]; [contradiction|].
      reflexivity.
Qed.

Lemma generate_analytics_returns_witness :
  returns (generate_analytics Examples.example_pandas Examples.database Examples.table_info
             example_library) = true
  /\ generate_analytics Examples.example_pandas Examples.database_sample
       Examples.table_info_sample example_library = Raise TypeError.
Proof.
  split.
  - destruct (generate_analytics_returns Examples.example_pandas Examples.database
                Examples.table_info example_library example_pandas_computes
                database_answers) as [H _].
    destruct H as [analytics [H _]].
    + intros v Hv. vm_compute in Hv. destruct Hv as [<-|[]]. right. eexists. reflexivity.
    + rewrite H. reflexivity.
  - destruct (generate_analytics_returns Examples.example_pandas Examples.database_sample
                Examples.table_info_sample example_library example_pandas_computes
                database_sample_answers) as [_ H].
    apply H; reflexivity.
Defined.
